(** * SMS gateway: phone normalisation, authentication, send orchestration

    A shallow embedding of the Go sources of the gateway
    (utils/phone.go, middleware/auth.go, service/sms.go, handlers/sms.go,
    handlers/client.go, models) together with the properties the
    specification states about them.

    Conventions.
    - A Go [string] is a byte sequence; it is embedded as [string]
      (a list of 8-bit [ascii] characters).
    - A Go [int] is a 64-bit two's complement integer; it is embedded as
      [Z] and every arithmetic operation of the source is written with
      its wrap-around ([int_add]).
    - The database, the upstream provider, bcrypt, the JSON decoder, the
      clock and the UUID generator are outside the repository: the
      tables are explicit state, the others are parameters or inputs. *)

From Stdlib Require Import ZArith List String Ascii Bool Lia.
Import ListNotations.

Local Open Scope string_scope.
Local Open Scope Z_scope.

(* ================================================================== *)
(** ** Go strings *)
(* ================================================================== *)

(** [\d] of Go's regexp (RE2 syntax) is the ASCII class [0-9]. *)
Definition is_digit (a : ascii) : bool :=
  let n := nat_of_ascii a in (Nat.leb 48 n && Nat.leb n 57)%bool.

Definition plus_sign : ascii := "+"%char.
Definition zero_digit : ascii := "0"%char.

(** The complement of the class [[^\d+]]: the bytes the regular
    expression of [FormatPhone] does NOT match.  Every byte of a
    multi-byte rune (and every invalid byte) lies outside it, so the
    replacement acts byte-wise. *)
Definition keeps (a : ascii) : bool :=
  (is_digit a || Ascii.eqb a plus_sign)%bool.

Fixpoint filter_string (p : ascii -> bool) (s : string) : string :=
  match s with
  | EmptyString => EmptyString
  | String a s' => if p a then String a (filter_string p s')
                   else filter_string p s'
  end.

(** [re.ReplaceAllString(phone, "")] for [re = [^\d+]]. *)
Definition remove_non_digit_plus (phone : string) : string :=
  filter_string keeps phone.

(** [strings.HasPrefix(s, prefix)]. *)
Fixpoint HasPrefix (s prefix : string) {struct prefix} : bool :=
  match prefix with
  | EmptyString => true
  | String a prefix' =>
      match s with
      | EmptyString => false
      | String b s' => (Ascii.eqb a b && HasPrefix s' prefix')%bool
      end
  end.

(** [strings.TrimLeft(s, "0")]. *)
Fixpoint TrimLeft_zero (s : string) : string :=
  match s with
  | EmptyString => EmptyString
  | String a s' => if Ascii.eqb a zero_digit then TrimLeft_zero s' else s
  end.

Fixpoint count_string (p : ascii -> bool) (s : string) : nat :=
  match s with
  | EmptyString => O
  | String a s' => if p a then S (count_string p s') else count_string p s'
  end.

Fixpoint forall_string (p : ascii -> bool) (s : string) : bool :=
  match s with
  | EmptyString => true
  | String a s' => (p a && forall_string p s')%bool
  end.

(* ================================================================== *)
(** ** utils/phone.go *)
(* ================================================================== *)

Definition country_code : string := "256".

(** [func FormatPhone(phone string) string] *)
Definition FormatPhone (phone : string) : string :=
  let cleaned := remove_non_digit_plus phone in
  if negb (HasPrefix cleaned "+") then
    let cleaned := TrimLeft_zero cleaned in
    let cleaned :=
      if negb (HasPrefix cleaned country_code)
      then country_code ++ cleaned
      else cleaned in
    "+" ++ cleaned
  else cleaned.

(** [len(regexp.MustCompile(`\d`).FindAllString(s, -1))] *)
Definition count_digits (s : string) : nat := count_string is_digit s.

(** [func ValidatePhone(phone string) bool] *)
Definition ValidatePhone (phone : string) : bool :=
  let formatted := FormatPhone phone in
  let digits := count_digits formatted in
  (Nat.leb 10 digits && Nat.leb digits 15)%bool.

(** The normaliser as the specification words it: keep the digits and a
    [+] only where it leads; without a leading [+], drop the leading
    zeros and put the country code and [+] in front, unconditionally. *)
Definition spec_clean (raw : string) : string :=
  match filter_string keeps raw with
  | String a rest =>
      if Ascii.eqb a plus_sign then String a (filter_string is_digit rest)
      else filter_string is_digit (String a rest)
  | EmptyString => EmptyString
  end.

Definition spec_normalize (raw : string) : string :=
  let cleaned := spec_clean raw in
  if HasPrefix cleaned "+" then cleaned
  else "+" ++ country_code ++ TrimLeft_zero cleaned.

(* ================================================================== *)
(** ** Go [int] *)
(* ================================================================== *)

Definition min_int : Z := - 2 ^ 63.
Definition max_int : Z := 2 ^ 63 - 1.

Definition is_int (z : Z) : Prop := min_int <= z <= max_int.

(** Two's complement wrap-around of a 64-bit signed integer. *)
Definition wrap (z : Z) : Z := (z + 2 ^ 63) mod 2 ^ 64 - 2 ^ 63.

(** [a + b], [a += b] and [a++] on [int]. *)
Definition int_add (a b : Z) : Z := wrap (a + b).

(** [len(xs)]. *)
Definition len {A : Type} (xs : list A) : Z := Z.of_nat (List.length xs).

(* ================================================================== *)
(** ** models *)
(* ================================================================== *)

(** [uuid.UUID], in its textual form (the form the route parameter and
    the JSON bodies carry). *)
Definition UUID : Type := string.
Definition uuid_Nil : UUID := "00000000-0000-0000-0000-000000000000".

(** [time.Time] as an instant on a linear clock. *)
Definition Time : Type := Z.

Module APIClient.
Record t : Type := mk {
  ID : UUID;
  CreatedAt : Time;
  UpdatedAt : Time;
  DeletedAt : option Time;
  Name : string;
  Email : string;
  APIKey : string;
  APISecret : string;
  APIKeyHash : string;
  IsActive : bool;
  RateLimit : Z;
  DailyLimit : Z;
  MonthlyLimit : Z;
  DailyUsage : Z;
  MonthlyUsage : Z;
  LastReset : Time
}.

Definition with_DailyUsage (v : Z) (c : t) : t :=
  mk (ID c) (CreatedAt c) (UpdatedAt c) (DeletedAt c) (Name c) (Email c)
     (APIKey c) (APISecret c) (APIKeyHash c) (IsActive c) (RateLimit c)
     (DailyLimit c) (MonthlyLimit c) v (MonthlyUsage c) (LastReset c).

Definition with_MonthlyUsage (v : Z) (c : t) : t :=
  mk (ID c) (CreatedAt c) (UpdatedAt c) (DeletedAt c) (Name c) (Email c)
     (APIKey c) (APISecret c) (APIKeyHash c) (IsActive c) (RateLimit c)
     (DailyLimit c) (MonthlyLimit c) (DailyUsage c) v (LastReset c).

Definition with_LastReset (v : Time) (c : t) : t :=
  mk (ID c) (CreatedAt c) (UpdatedAt c) (DeletedAt c) (Name c) (Email c)
     (APIKey c) (APISecret c) (APIKeyHash c) (IsActive c) (RateLimit c)
     (DailyLimit c) (MonthlyLimit c) (DailyUsage c) (MonthlyUsage c) v.

Definition with_UpdatedAt (v : Time) (c : t) : t :=
  mk (ID c) (CreatedAt c) v (DeletedAt c) (Name c) (Email c)
     (APIKey c) (APISecret c) (APIKeyHash c) (IsActive c) (RateLimit c)
     (DailyLimit c) (MonthlyLimit c) (DailyUsage c) (MonthlyUsage c)
     (LastReset c).

(** Every [int] field holds a value of the type. *)
Definition wf (c : t) : Prop :=
  is_int (RateLimit c) /\ is_int (DailyLimit c) /\ is_int (MonthlyLimit c)
  /\ is_int (DailyUsage c) /\ is_int (MonthlyUsage c).
End APIClient.

Module SMSLog.
Record t : Type := mk {
  ID : UUID;
  CreatedAt : Time;
  ClientID : UUID;
  Recipient : string;
  Message : string;
  SenderID : string;
  Priority : string;
  Status : string;
  ProviderStatus : string;
  ProviderMessage : string;
  Error : string;
  IPAddress : string;
  UserAgent : string
}.

Definition with_ID (v : UUID) (l : t) : t :=
  mk v (CreatedAt l) (ClientID l) (Recipient l) (Message l) (SenderID l)
     (Priority l) (Status l) (ProviderStatus l) (ProviderMessage l)
     (Error l) (IPAddress l) (UserAgent l).

Definition with_CreatedAt (v : Time) (l : t) : t :=
  mk (ID l) v (ClientID l) (Recipient l) (Message l) (SenderID l)
     (Priority l) (Status l) (ProviderStatus l) (ProviderMessage l)
     (Error l) (IPAddress l) (UserAgent l).

Definition with_Priority (v : string) (l : t) : t :=
  mk (ID l) (CreatedAt l) (ClientID l) (Recipient l) (Message l) (SenderID l)
     v (Status l) (ProviderStatus l) (ProviderMessage l)
     (Error l) (IPAddress l) (UserAgent l).
End SMSLog.

Module SMSRequest.
Record t : Type := mk {
  Number : string;
  Message : string;
  SenderID : string;
  Priority : string
}.
End SMSRequest.

Module BulkSMSRequest.
Record t : Type := mk { Messages : list SMSRequest.t }.
End BulkSMSRequest.

(** One element of the [results] array of the bulk response. *)
Record BulkResult : Type := mkBulkResult {
  result_log_id : UUID;
  result_recipient : string;
  result_status : string
}.

(** The values the handlers put in [SMSResponse.Data] (an
    [interface{}] in the source). *)
Inductive ResponseData : Type :=
| DataNone
| DataSingle (log_id : UUID) (recipient status : string)
             (provider_response : option (string * string))
| DataBulk (total successful failed : Z) (results : list BulkResult).

Module SMSResponse.
Record t : Type := mk {
  Success : bool;
  Message : string;
  Data : ResponseData;
  Error : string
}.
End SMSResponse.

(** [service.SMSProviderResponse] *)
Module SMSProviderResponse.
Record t : Type := mk { Status : string; Message : string }.
(** The zero value of the struct ([var resp SMSProviderResponse]). *)
Definition zero : t := mk "" "".
End SMSProviderResponse.

(** What [c.JSON(code, body)] writes. *)
Record HTTPResponse : Type := JSON {
  status_code : Z;
  body : SMSResponse.t
}.

Definition StatusOK : Z := 200.
Definition StatusBadRequest : Z := 400.
Definition StatusUnauthorized : Z := 401.
Definition StatusForbidden : Z := 403.
Definition StatusNotFound : Z := 404.
Definition StatusTooManyRequests : Z := 429.
Definition StatusInternalServerError : Z := 500.

(* ================================================================== *)
(** ** The world outside the handlers *)
(* ================================================================== *)

(** The fields of [config.AppConfig] the delivery client reads. *)
Record Config : Type := mkConfig {
  SMSLiveURL : string;
  SMSSandboxURL : string;
  SMSUsername : string;
  SMSPassword : string;
  SMSSandboxMode : bool
}.

(** One element of [msgdata] and the JSON document posted upstream. *)
Record MsgData : Type := mkMsgData {
  msg_number : string;
  msg_message : string;
  msg_senderid : string;
  msg_priority : string
}.

Record Payload : Type := mkPayload {
  payload_method : string;
  payload_userdata : string * string;
  payload_msgdata : list MsgData
}.

(** What [s.client.Do(req)] followed by [io.ReadAll(resp.Body)] yields. *)
Inductive HTTPOutcome : Type :=
| DoError (err : string)
| ReadError (err : string)
| ResponseBody (body : string).

(** The collaborators that are not code of the repository. *)
Record Env : Type := mkEnv {
  AppConfig : Config;
  (** [bcrypt.CompareHashAndPassword(hash, password) == nil] *)
  bcrypt_CompareHashAndPassword : string -> string -> bool;
  (** [json.Unmarshal(body, &providerResp)]: [None] is a decoding error *)
  json_Unmarshal : string -> option SMSProviderResponse.t;
  (** [http.NewRequest("POST", url, ...)]: [Some err] when it fails *)
  http_NewRequest : string -> option string;
  (** the upstream provider behind [client.Do] *)
  http_Do : string -> Payload -> HTTPOutcome;
  (** the n-th value [uuid.New()] draws *)
  uuid_New : nat -> UUID;
  (** [time.Now()] while the request is served *)
  time_Now : Time
}.

(** What a request does to the outside, in the order it does it. *)
Inductive Event : Type :=
| EvProviderCall (url : string) (p : Payload)
| EvCreateLog (l : SMSLog.t)
| EvSaveClient (c : APIClient.t).

(** The two tables, the UUID draws made so far and the effects so far
    (latest last). *)
Record World : Type := mkWorld {
  clients : list APIClient.t;
  sms_logs : list SMSLog.t;
  uuids_drawn : nat;
  trace : list Event
}.

Definition is_provider_call (e : Event) : bool :=
  match e with EvProviderCall _ _ => true | _ => false end.
Definition is_create_log (e : Event) : bool :=
  match e with EvCreateLog _ => true | _ => false end.
Definition is_save_client (e : Event) : bool :=
  match e with EvSaveClient _ => true | _ => false end.

Definition provider_calls (w : World) : nat :=
  List.length (filter is_provider_call (trace w)).
Definition logs_created (w : World) : nat :=
  List.length (filter is_create_log (trace w)).
Definition client_saves (w : World) : nat :=
  List.length (filter is_save_client (trace w)).

(** A handler is a state transformer on the world. *)
Definition M (A : Type) : Type := World -> A * World.

Definition ret {A : Type} (a : A) : M A := fun w => (a, w).

Definition bind {A B : Type} (m : M A) (k : A -> M B) : M B :=
  fun w => let (a, w') := m w in k a w'.

Notation "x <- m ;; k" := (bind m (fun x => k))
  (at level 61, m at next level, right associativity).
Notation "m ;;; k" := (bind m (fun _ => k))
  (at level 61, right associativity).

Definition emit (e : Event) : M unit :=
  fun w => (tt, mkWorld (clients w) (sms_logs w) (uuids_drawn w)
                        (trace w ++ [e])).

Definition time_zero : Time := 0.

(** The rows gorm sees: soft-deleted rows are filtered out of queries. *)
Definition live (c : APIClient.t) : bool :=
  match APIClient.DeletedAt c with None => true | Some _ => false end.

(** [database.DB.Where(cond).First(&client)]; [None] is
    [gorm.ErrRecordNotFound].  [First] orders by primary key; the
    columns the handlers query ([api_key], [id]) are unique, so the
    order of the rows does not show. *)
Definition DB_First (cond : APIClient.t -> bool) : M (option APIClient.t) :=
  fun w => (find (fun c => (cond c && live c)%bool) (clients w), w).

(** The column defaults of [APIClient]: an [INSERT] leaves a field that
    holds the zero value of its type to the default of its column,
    [gorm:"default:true"] on [IsActive] (so a row is never inserted
    inactive), [default:100] on [RateLimit], [default:10000] on
    [DailyLimit], [default:300000] on [MonthlyLimit]; the default of the
    two usage counters is their zero value. *)
Definition column_defaults (c : APIClient.t) : APIClient.t :=
  APIClient.mk (APIClient.ID c) (APIClient.CreatedAt c) (APIClient.UpdatedAt c)
    (APIClient.DeletedAt c) (APIClient.Name c) (APIClient.Email c)
    (APIClient.APIKey c) (APIClient.APISecret c) (APIClient.APIKeyHash c)
    (if APIClient.IsActive c then true else true)
    (if APIClient.RateLimit c =? 0 then 100 else APIClient.RateLimit c)
    (if APIClient.DailyLimit c =? 0 then 10000 else APIClient.DailyLimit c)
    (if APIClient.MonthlyLimit c =? 0 then 300000
     else APIClient.MonthlyLimit c)
    (APIClient.DailyUsage c) (APIClient.MonthlyUsage c)
    (APIClient.LastReset c).

(** [UPDATE] of the row with the primary key of [c]; when there is none
    gorm's [Save] falls back to an [INSERT], which takes the column
    defaults. *)
Fixpoint upsert (c : APIClient.t) (rows : list APIClient.t)
  : list APIClient.t :=
  match rows with
  | [] => [column_defaults c]
  | r :: rows' =>
      if String.eqb (APIClient.ID r) (APIClient.ID c) then c :: rows'
      else r :: upsert c rows'
  end.

(** The part of [*gin.Context] the middleware and the handlers use.
    [ShouldBindJSON] is the result the binding of the request body to
    the handler's request struct gives ([inl err] when it fails);
    [ctx_client] is the value under the key ["client"]. *)
Record Context (B : Type) : Type := mkContext {
  Header_X_API_Key : string;
  Header_X_API_Secret : string;
  Header_User_Agent : string;
  ClientIP : string;
  Param_id : string;
  ShouldBindJSON : string + B;
  ctx_client : option APIClient.t
}.
Arguments mkContext {B}.
Arguments Header_X_API_Key {B}.
Arguments Header_X_API_Secret {B}.
Arguments Header_User_Agent {B}.
Arguments ClientIP {B}.
Arguments Param_id {B}.
Arguments ShouldBindJSON {B}.
Arguments ctx_client {B}.

(** [c.Set("client", client)].  The second key the middleware sets,
    ["client_id"], is read by [GetSMSLogs] only. *)
Definition Set_client {B : Type} (client : APIClient.t) (c : Context B)
  : Context B :=
  mkContext (Header_X_API_Key c) (Header_X_API_Secret c)
            (Header_User_Agent c) (ClientIP c) (Param_id c)
            (ShouldBindJSON c) (Some client).

(** How a middleware ends: [c.Abort()] after writing a response, or
    [c.Next()] with the context it prepared. *)
Inductive Chain (B : Type) : Type :=
| Abort (r : HTTPResponse)
| Next (c : Context B).
Arguments Abort {B}.
Arguments Next {B}.

Definition respond (code : Z) (success : bool) (message : string)
  (data : ResponseData) (error : string) : HTTPResponse :=
  JSON code (SMSResponse.mk success message data error).

(** [a != b] on strings. *)
Definition str_neq (a b : string) : bool := negb (String.eqb a b).

Section Gateway.

Variable E : Env.

(** [uuid.New()] *)
Definition uuid_fresh : M UUID :=
  fun w => (uuid_New E (uuids_drawn w),
            mkWorld (clients w) (sms_logs w) (S (uuids_drawn w)) (trace w)).

(** [database.DB.Create(&smsLog)]: the [BeforeCreate] hook of [SMSLog]
    draws the id when it is [uuid.Nil], gorm stamps [CreatedAt] when it
    is the zero time, an empty [Priority] takes the default of its
    column ([gorm:"default:1"]), and the row is appended.  The stored
    row is what [smsLog] holds afterwards.  The store accepts every
    write, so the error result is always [None]. *)
Definition DB_Create (l : SMSLog.t) : M (SMSLog.t * option string) :=
  l1 <- (if String.eqb (SMSLog.ID l) uuid_Nil
         then id <- uuid_fresh ;; ret (SMSLog.with_ID id l)
         else ret l) ;;
  let l2 := if Z.eqb (SMSLog.CreatedAt l1) time_zero
            then SMSLog.with_CreatedAt (time_Now E) l1 else l1 in
  let l3 := if String.eqb (SMSLog.Priority l2) ""
            then SMSLog.with_Priority "1" l2 else l2 in
  (fun w => (tt, mkWorld (clients w) (sms_logs w ++ [l3]) (uuids_drawn w)
                         (trace w))) ;;;
  emit (EvCreateLog l3) ;;;
  ret (l3, None).

(** [database.DB.Save(&client)]: gorm stamps [UpdatedAt] and writes every
    column of the row with the id of [client]; were there no such row,
    the struct would be inserted with the column defaults ([upsert]).
    The handlers save what the authenticator or a [First] has read from
    the table. *)
Definition DB_Save (c : APIClient.t) : M (APIClient.t * option string) :=
  let c' := APIClient.with_UpdatedAt (time_Now E) c in
  (fun w => (tt, mkWorld (upsert c' (clients w)) (sms_logs w)
                         (uuids_drawn w) (trace w))) ;;;
  emit (EvSaveClient c') ;;;
  ret (c', None).

(* ------------------------------------------------------------------ *)
(** *** service/sms.go *)
(* ------------------------------------------------------------------ *)

(** [func (s *SMSProvider) GetAPIURL() string] *)
Definition GetAPIURL : string :=
  if SMSSandboxMode (AppConfig E) then SMSSandboxURL (AppConfig E)
  else SMSLiveURL (AppConfig E).

(** The body of the loop that maps a message to the API format. *)
Definition to_msgdata (defaultSenderID : string) (msg : SMSRequest.t)
  : MsgData :=
  let senderID := SMSRequest.SenderID msg in
  let senderID := if String.eqb senderID "" then defaultSenderID
                  else senderID in
  let priority := SMSRequest.Priority msg in
  let priority := if String.eqb priority "" then "1" else priority in
  mkMsgData (FormatPhone (SMSRequest.Number msg)) (SMSRequest.Message msg)
            senderID priority.

(** [func (s *SMSProvider) SendSMS(messages, defaultSenderID)
       ([]SMSProviderResponse, error)].
    [json.Marshal] of a map of strings cannot fail; the log lines are
    not modelled. *)
Definition SendSMS (messages : list SMSRequest.t) (defaultSenderID : string)
  : M (string + list SMSProviderResponse.t) :=
  let payload :=
    mkPayload "SendSms"
              (SMSUsername (AppConfig E), SMSPassword (AppConfig E))
              (map (to_msgdata defaultSenderID) messages) in
  match http_NewRequest E GetAPIURL with
  | Some err => ret (inl ("failed to create request: " ++ err))
  | None =>
      emit (EvProviderCall GetAPIURL payload) ;;;
      match http_Do E GetAPIURL payload with
      | DoError err => ret (inl ("failed to send SMS request: " ++ err))
      | ReadError err => ret (inl ("failed to read response: " ++ err))
      | ResponseBody body =>
          match json_Unmarshal E body with
          | None =>
              ret (inr [SMSProviderResponse.mk "Failed" body])
          | Some providerResp =>
              let responses := [providerResp] in
              ret (inr responses)
          end
      end
  end.

(* ------------------------------------------------------------------ *)
(** *** middleware/auth.go *)
(* ------------------------------------------------------------------ *)

(** [func APIKeyAuth() gin.HandlerFunc] *)
Definition APIKeyAuth {B : Type} (c : Context B) : M (Chain B) :=
  let apiKey := Header_X_API_Key c in
  let apiSecret := Header_X_API_Secret c in
  if (String.eqb apiKey "" || String.eqb apiSecret "")%bool then
    ret (Abort (respond StatusUnauthorized false "Missing API credentials"
                  DataNone "X-API-Key and X-API-Secret headers are required"))
  else
    found <- DB_First (fun r => String.eqb (APIClient.APIKey r) apiKey) ;;
    match found with
    | None =>
        ret (Abort (respond StatusUnauthorized false "Invalid API credentials"
                      DataNone "API key not found"))
    | Some client =>
        if negb (bcrypt_CompareHashAndPassword E
                   (APIClient.APISecret client) apiSecret) then
          ret (Abort (respond StatusUnauthorized false
                        "Invalid API credentials" DataNone
                        "API secret mismatch"))
        else if negb (APIClient.IsActive client) then
          ret (Abort (respond StatusForbidden false "API client is inactive"
                        DataNone "Your API access has been suspended"))
        else if APIClient.DailyUsage client >=? APIClient.DailyLimit client
        then
          ret (Abort (respond StatusTooManyRequests false
                        "Daily limit exceeded" DataNone
                        "You have reached your daily SMS limit"))
        else if APIClient.MonthlyUsage client
                >=? APIClient.MonthlyLimit client then
          ret (Abort (respond StatusTooManyRequests false
                        "Monthly limit exceeded" DataNone
                        "You have reached your monthly SMS limit"))
        else
          ret (Next (Set_client client c))
    end.

(* ------------------------------------------------------------------ *)
(** *** handlers/sms.go *)
(* ------------------------------------------------------------------ *)

(** The four locals [status], [providerStatus], [providerMessage],
    [errorMsg] of the send handlers. *)
Record Verdict : Type := mkVerdict {
  v_status : string;
  v_providerStatus : string;
  v_providerMessage : string;
  v_errorMsg : string
}.

(** The test both handlers apply to a provider response. *)
Definition not_success (resp : SMSProviderResponse.t) : bool :=
  (str_neq (SMSProviderResponse.Status resp) "Success"
   && str_neq (SMSProviderResponse.Status resp) "success")%bool.

(** "Determine status from provider response" in [SendSingleSMS]. *)
Definition single_verdict (responses : list SMSProviderResponse.t)
  : Verdict :=
  match responses with
  | resp :: _ =>
      if not_success resp then
        mkVerdict "failed" (SMSProviderResponse.Status resp)
                  (SMSProviderResponse.Message resp)
                  (SMSProviderResponse.Message resp)
      else
        mkVerdict "sent" "Success" (SMSProviderResponse.Message resp) ""
  | [] => mkVerdict "sent" "Success" "SMS sent successfully" ""
  end.

(** [func (h *SMSHandler) SendSingleSMS(c *gin.Context)] *)
Definition SendSingleSMS (c : Context SMSRequest.t) : M HTTPResponse :=
  match ShouldBindJSON c with
  | inl err =>
      ret (respond StatusBadRequest false "Invalid request payload"
             DataNone err)
  | inr req =>
      if negb (ValidatePhone (SMSRequest.Number req)) then
        ret (respond StatusBadRequest false "Invalid phone number"
               DataNone "Phone number format is invalid")
      else
        match ctx_client c with
        | None =>
            ret (respond StatusInternalServerError false
                   "Client not found in context" DataNone "")
        | Some apiClient =>
            let clientID := APIClient.ID apiClient in
            sent <- SendSMS [req] (APIClient.Name apiClient) ;;
            match sent with
            | inl err =>
                DB_Create
                  (SMSLog.mk uuid_Nil time_zero clientID
                     (SMSRequest.Number req) (SMSRequest.Message req)
                     (SMSRequest.SenderID req) (SMSRequest.Priority req)
                     "failed" "error" "" err
                     (ClientIP c) (Header_User_Agent c)) ;;;
                ret (respond StatusInternalServerError false
                       "Failed to send SMS" DataNone err)
            | inr responses =>
                let v := single_verdict responses in
                created <- DB_Create
                  (SMSLog.mk uuid_Nil time_zero clientID
                     (FormatPhone (SMSRequest.Number req))
                     (SMSRequest.Message req)
                     (SMSRequest.SenderID req) (SMSRequest.Priority req)
                     (v_status v) (v_providerStatus v)
                     (v_providerMessage v) (v_errorMsg v)
                     (ClientIP c) (Header_User_Agent c)) ;;
                let smsLog := fst created in
                (if String.eqb (v_status v) "sent" then
                   let apiClient1 :=
                     APIClient.with_DailyUsage
                       (int_add (APIClient.DailyUsage apiClient) 1)
                       apiClient in
                   let apiClient2 :=
                     APIClient.with_MonthlyUsage
                       (int_add (APIClient.MonthlyUsage apiClient1) 1)
                       apiClient1 in
                   DB_Save apiClient2 ;;; ret tt
                 else ret tt) ;;;
                if String.eqb (v_status v) "sent" then
                  ret (respond StatusOK true "SMS sent successfully"
                         (DataSingle (SMSLog.ID smsLog)
                            (SMSLog.Recipient smsLog) (v_status v)
                            (Some (v_providerStatus v,
                                   v_providerMessage v)))
                         "")
                else
                  ret (respond StatusOK false "SMS failed to send"
                         (DataSingle (SMSLog.ID smsLog)
                            (SMSLog.Recipient smsLog) (v_status v) None)
                         (v_errorMsg v))
            end
        end
  end.

(** The response the bulk loop uses for the message at index [i]. *)
Definition response_at (responses : list SMSProviderResponse.t) (i : nat)
  : SMSProviderResponse.t :=
  if Nat.ltb i (List.length responses) then
    nth i responses SMSProviderResponse.zero
  else if Nat.ltb 0 (List.length responses) then
    nth 0 responses SMSProviderResponse.zero
  else SMSProviderResponse.zero.

(** The accumulators of the bulk loop: [results], [successCount],
    [failedCount].  The two counters never exceed [len(req.Messages)],
    which is an [int], so their increments do not wrap. *)
Record BulkAcc : Type := mkBulkAcc {
  acc_results : list BulkResult;
  successCount : Z;
  failedCount : Z
}.

(** [for i, msg := range req.Messages { ... }] of [SendBulkSMS], from
    index [i] on. *)
Fixpoint bulk_loop (c : Context BulkSMSRequest.t) (clientID : UUID)
  (responses : list SMSProviderResponse.t) (i : nat)
  (msgs : list SMSRequest.t) (acc : BulkAcc) : M BulkAcc :=
  match msgs with
  | [] => ret acc
  | msg :: rest =>
      let resp := response_at responses i in
      let failed := not_success resp in
      let v :=
        if failed then
          mkVerdict "failed" (SMSProviderResponse.Status resp)
                    (SMSProviderResponse.Message resp)
                    (SMSProviderResponse.Message resp)
        else mkVerdict "sent" "Success" "SMS sent successfully" "" in
      let successCount' :=
        if failed then successCount acc else successCount acc + 1 in
      let failedCount' :=
        if failed then failedCount acc + 1 else failedCount acc in
      created <- DB_Create
        (SMSLog.mk uuid_Nil time_zero clientID
           (FormatPhone (SMSRequest.Number msg)) (SMSRequest.Message msg)
           (SMSRequest.SenderID msg) (SMSRequest.Priority msg)
           (v_status v) (v_providerStatus v) (v_providerMessage v)
           (v_errorMsg v) (ClientIP c) (Header_User_Agent c)) ;;
      let smsLog := fst created in
      bulk_loop c clientID responses (S i) rest
        (mkBulkAcc
           (acc_results acc ++
              [mkBulkResult (SMSLog.ID smsLog) (SMSLog.Recipient smsLog)
                            (v_status v)])
           successCount' failedCount')
  end.

(** "Validate all phone numbers": the first message whose number is
    invalid, if any. *)
Definition first_invalid (msgs : list SMSRequest.t) : option SMSRequest.t :=
  find (fun msg => negb (ValidatePhone (SMSRequest.Number msg))) msgs.

(** [func (h *SMSHandler) SendBulkSMS(c *gin.Context)].  The binding
    tag [min=1] makes a bound batch non-empty; nothing below depends on
    it. *)
Definition SendBulkSMS (c : Context BulkSMSRequest.t) : M HTTPResponse :=
  match ShouldBindJSON c with
  | inl err =>
      ret (respond StatusBadRequest false "Invalid request payload"
             DataNone err)
  | inr req =>
      match first_invalid (BulkSMSRequest.Messages req) with
      | Some msg =>
          ret (respond StatusBadRequest false
                 "Invalid phone number in messages" DataNone
                 ("Phone number " ++ SMSRequest.Number msg ++ " is invalid"))
      | None =>
          match ctx_client c with
          | None =>
              ret (respond StatusInternalServerError false
                     "Client not found in context" DataNone "")
          | Some apiClient =>
              let clientID := APIClient.ID apiClient in
              if int_add (APIClient.DailyUsage apiClient)
                         (len (BulkSMSRequest.Messages req))
                 >? APIClient.DailyLimit apiClient then
                ret (respond StatusTooManyRequests false
                       "Bulk request would exceed daily limit" DataNone
                       "Requested messages exceed available daily quota")
              else
                sent <- SendSMS (BulkSMSRequest.Messages req)
                                (APIClient.Name apiClient) ;;
                match sent with
                | inl err =>
                    ret (respond StatusInternalServerError false
                           "Failed to send bulk SMS" DataNone err)
                | inr responses =>
                    acc <- bulk_loop c clientID responses 0
                             (BulkSMSRequest.Messages req)
                             (mkBulkAcc [] 0 0) ;;
                    let apiClient1 :=
                      APIClient.with_DailyUsage
                        (int_add (APIClient.DailyUsage apiClient)
                                 (successCount acc)) apiClient in
                    let apiClient2 :=
                      APIClient.with_MonthlyUsage
                        (int_add (APIClient.MonthlyUsage apiClient1)
                                 (successCount acc)) apiClient1 in
                    DB_Save apiClient2 ;;;
                    ret (respond StatusOK true
                           "Bulk SMS processing completed"
                           (DataBulk (len (BulkSMSRequest.Messages req))
                              (successCount acc) (failedCount acc)
                              (acc_results acc))
                           "")
                end
          end
      end
  end.

(* ------------------------------------------------------------------ *)
(** *** handlers/client.go *)
(* ------------------------------------------------------------------ *)

(** [func (h *ClientHandler) ResetClientUsage(c *gin.Context)] *)
Definition ResetClientUsage (c : Context unit) : M HTTPResponse :=
  let clientID := Param_id c in
  found <- DB_First (fun r => String.eqb (APIClient.ID r) clientID) ;;
  match found with
  | None =>
      ret (respond StatusNotFound false "Client not found" DataNone "")
  | Some client =>
      let client := APIClient.with_DailyUsage 0 client in
      let client := APIClient.with_MonthlyUsage 0 client in
      let client := APIClient.with_LastReset (time_Now E) client in
      saved <- DB_Save client ;;
      match snd saved with
      | Some err =>
          ret (respond StatusInternalServerError false
                 "Failed to reset usage" DataNone err)
      | None =>
          ret (respond StatusOK true "Client usage reset successfully"
                 DataNone "")
      end
  end.

(* ------------------------------------------------------------------ *)
(** *** main.go *)
(* ------------------------------------------------------------------ *)

(** [sms := v1.Group("/sms"); sms.Use(middleware.APIKeyAuth())]: a
    handler of the group runs after the middleware, on the context the
    middleware prepared, unless the middleware aborted. *)
Definition sms_group {B : Type} (handler : Context B -> M HTTPResponse)
  (c : Context B) : M HTTPResponse :=
  chain <- APIKeyAuth c ;;
  match chain with
  | Abort r => ret r
  | Next c' => handler c'
  end.

(** [sms.POST("/send", smsHandler.SendSingleSMS)] *)
Definition POST_sms_send : Context SMSRequest.t -> M HTTPResponse :=
  sms_group SendSingleSMS.

(** [sms.POST("/send/bulk", smsHandler.SendBulkSMS)] *)
Definition POST_sms_send_bulk : Context BulkSMSRequest.t -> M HTTPResponse :=
  sms_group SendBulkSMS.

End Gateway.

(* ================================================================== *)
(** ** Vocabulary of the statements *)
(* ================================================================== *)

(** ASCII case folding, for the reading "a case-insensitive match of
    success" of the specification. *)
Definition to_lower_ascii (a : ascii) : ascii :=
  let n := nat_of_ascii a in
  if (Nat.leb 65 n && Nat.leb n 90)%bool then ascii_of_nat (n + 32) else a.

Fixpoint to_lower (s : string) : string :=
  match s with
  | EmptyString => EmptyString
  | String a s' => String (to_lower_ascii a) (to_lower s')
  end.

Definition EqualFold (a b : string) : bool :=
  String.eqb (to_lower a) (to_lower b).

(** The outcome [SendSMS] derives from a response body. *)
Definition provider_outcome (E : Env) (body : string)
  : SMSProviderResponse.t :=
  match json_Unmarshal E body with
  | None => SMSProviderResponse.mk "Failed" body
  | Some providerResp => providerResp
  end.

(** The request [SendSMS] posts for a batch. *)
Definition payload_of (E : Env) (messages : list SMSRequest.t)
  (defaultSenderID : string) : Payload :=
  mkPayload "SendSms"
            (SMSUsername (AppConfig E), SMSPassword (AppConfig E))
            (map (to_msgdata defaultSenderID) messages).

(** The upstream accepted the request and answered with [body]. *)
Definition http_completes (E : Env) (messages : list SMSRequest.t)
  (defaultSenderID : string) (body : string) : Prop :=
  http_NewRequest E (GetAPIURL E) = None /\
  http_Do E (GetAPIURL E) (payload_of E messages defaultSenderID)
  = ResponseBody body.

(** The upstream call failed below the HTTP level with [err]. *)
Definition http_fails (E : Env) (messages : list SMSRequest.t)
  (defaultSenderID : string) (err : string) : Prop :=
  http_NewRequest E (GetAPIURL E) = Some err \/
  (http_NewRequest E (GetAPIURL E) = None /\
   (http_Do E (GetAPIURL E) (payload_of E messages defaultSenderID)
    = DoError err \/
    http_Do E (GetAPIURL E) (payload_of E messages defaultSenderID)
    = ReadError err)).

Definition is_sent (l : SMSLog.t) : bool := String.eqb (SMSLog.Status l) "sent".

Definition count_sent (logs : list SMSLog.t) : Z := len (filter is_sent logs).

(** The [priority] column of the row stored for a message sent with
    priority [p]: the default of the column when [p] is empty. *)
Definition stored_priority (p : string) : string :=
  if String.eqb p "" then "1" else p.

(** The row the bulk loop stores for [msg] when the provider outcome is
    [o] and the id drawn is [id]. *)
Definition bulk_log (E : Env) (c : Context BulkSMSRequest.t) (clientID : UUID)
  (o : SMSProviderResponse.t) (id : UUID) (msg : SMSRequest.t) : SMSLog.t :=
  if not_success o then
    SMSLog.mk id (time_Now E) clientID
      (FormatPhone (SMSRequest.Number msg)) (SMSRequest.Message msg)
      (SMSRequest.SenderID msg) (stored_priority (SMSRequest.Priority msg))
      "failed" (SMSProviderResponse.Status o) (SMSProviderResponse.Message o)
      (SMSProviderResponse.Message o) (ClientIP c) (Header_User_Agent c)
  else
    SMSLog.mk id (time_Now E) clientID
      (FormatPhone (SMSRequest.Number msg)) (SMSRequest.Message msg)
      (SMSRequest.SenderID msg) (stored_priority (SMSRequest.Priority msg))
      "sent" "Success" "SMS sent successfully" ""
      (ClientIP c) (Header_User_Agent c).

Fixpoint bulk_logs (E : Env) (c : Context BulkSMSRequest.t) (clientID : UUID)
  (o : SMSProviderResponse.t) (drawn : nat) (msgs : list SMSRequest.t)
  : list SMSLog.t :=
  match msgs with
  | [] => []
  | msg :: rest =>
      bulk_log E c clientID o (uuid_New E drawn) msg
      :: bulk_logs E c clientID o (S drawn) rest
  end.

Definition result_of (l : SMSLog.t) : BulkResult :=
  mkBulkResult (SMSLog.ID l) (SMSLog.Recipient l) (SMSLog.Status l).

(** The fields of a client an update of the usage state must not touch. *)
Definition same_identity_and_limits (a b : APIClient.t) : Prop :=
  APIClient.ID a = APIClient.ID b /\
  APIClient.CreatedAt a = APIClient.CreatedAt b /\
  APIClient.DeletedAt a = APIClient.DeletedAt b /\
  APIClient.Name a = APIClient.Name b /\
  APIClient.Email a = APIClient.Email b /\
  APIClient.APIKey a = APIClient.APIKey b /\
  APIClient.APISecret a = APIClient.APISecret b /\
  APIClient.APIKeyHash a = APIClient.APIKeyHash b /\
  APIClient.IsActive a = APIClient.IsActive b /\
  APIClient.RateLimit a = APIClient.RateLimit b /\
  APIClient.DailyLimit a = APIClient.DailyLimit b /\
  APIClient.MonthlyLimit a = APIClient.MonthlyLimit b.

(** The row [APIKeyAuth] finds for an API key, and the row
    [ResetClientUsage] finds for an id. *)
Definition client_by_key (w : World) (apiKey : string) : option APIClient.t :=
  find (fun r => (String.eqb (APIClient.APIKey r) apiKey && live r)%bool)
       (clients w).

Definition client_by_id (w : World) (id : string) : option APIClient.t :=
  find (fun r => (String.eqb (APIClient.ID r) id && live r)%bool)
       (clients w).

(** The world after the effect [e] on top of new tables. *)
Definition after_call (w : World) (e : Event) : World :=
  mkWorld (clients w) (sms_logs w) (uuids_drawn w) (trace w ++ [e]).

(** The row [SendSingleSMS] stores when the delivery client returned the
    error [err], and the row it stores for the provider outcome [o];
    [id] is the id drawn for the row. *)
Definition single_error_log (E : Env) (c : Context SMSRequest.t)
  (cl : APIClient.t) (req : SMSRequest.t) (err : string) (id : UUID)
  : SMSLog.t :=
  SMSLog.mk id (time_Now E) (APIClient.ID cl)
    (SMSRequest.Number req) (SMSRequest.Message req)
    (SMSRequest.SenderID req) (stored_priority (SMSRequest.Priority req))
    "failed" "error" "" err (ClientIP c) (Header_User_Agent c).

Definition single_log (E : Env) (c : Context SMSRequest.t)
  (cl : APIClient.t) (req : SMSRequest.t) (o : SMSProviderResponse.t)
  (id : UUID) : SMSLog.t :=
  let v := single_verdict [o] in
  SMSLog.mk id (time_Now E) (APIClient.ID cl)
    (FormatPhone (SMSRequest.Number req)) (SMSRequest.Message req)
    (SMSRequest.SenderID req) (stored_priority (SMSRequest.Priority req))
    (v_status v) (v_providerStatus v) (v_providerMessage v) (v_errorMsg v)
    (ClientIP c) (Header_User_Agent c).

(** The row a send handler saves for [cl] after counting [n] messages
    as sent. *)
Definition charged (E : Env) (n : Z) (cl : APIClient.t) : APIClient.t :=
  APIClient.with_UpdatedAt (time_Now E)
    (APIClient.with_MonthlyUsage (int_add (APIClient.MonthlyUsage cl) n)
       (APIClient.with_DailyUsage (int_add (APIClient.DailyUsage cl) n) cl)).

(** The row [ResetClientUsage] saves for [cl]. *)
Definition reset (E : Env) (cl : APIClient.t) : APIClient.t :=
  APIClient.with_UpdatedAt (time_Now E)
    (APIClient.with_LastReset (time_Now E)
       (APIClient.with_MonthlyUsage 0 (APIClient.with_DailyUsage 0 cl))).

(* ------------------------------------------------------------------ *)
(** *** A concrete deployment, for running the model *)
(* ------------------------------------------------------------------ *)

Definition demo_config : Config :=
  mkConfig "https://www.egosms.co/api/v1/json/"
           "http://sandbox.egosms.co/api/v1/json/" "gateway" "hunter2" true.

(** A stand-in for bcrypt: the stored form of [s] is ["$2a$" ++ s]. *)
Definition demo_bcrypt (hash password : string) : bool :=
  String.eqb hash ("$2a$" ++ password).

Definition demo_uuid (n : nat) : UUID :=
  "log-" ++ string_of_list_ascii (repeat "i"%char n).

(** An environment whose upstream answers every request with [outcome]
    and whose decoder reads every body as [decoded]. *)
Definition demo_env (outcome : HTTPOutcome)
  (decoded : option SMSProviderResponse.t) : Env :=
  mkEnv demo_config demo_bcrypt (fun _ => decoded) (fun _ => None)
        (fun _ _ => outcome) demo_uuid 1700000000.

Definition demo_client (dailyUsage monthlyUsage dailyLimit monthlyLimit : Z)
  : APIClient.t :=
  APIClient.mk "c-1" 1600000000 1600000000 None "Acme" "ops@acme.test"
               "key-acme" "$2a$s3cret" "" true 100 dailyLimit monthlyLimit
               dailyUsage monthlyUsage 1600000000.

Definition demo_world (cl : APIClient.t) : World := mkWorld [cl] [] 0 [].

Definition demo_context {B : Type} (key secret : string) (bound : string + B)
  (client : option APIClient.t) : Context B :=
  mkContext key secret "curl/8.0" "10.0.0.7" "c-1" bound client.

Definition demo_sms (number : string) : SMSRequest.t :=
  SMSRequest.mk number "hello" "" "".

(** An upstream that answers "Success", and one that answers in upper
    case. *)
Definition demo_ok_env : Env :=
  demo_env (ResponseBody "OK") (Some (SMSProviderResponse.mk "Success" "queued")).

Definition demo_upper_env : Env :=
  demo_env (ResponseBody "OK") (Some (SMSProviderResponse.mk "SUCCESS" "queued")).

(** Two messages short of the daily limit, one short of the monthly. *)
Definition demo_busy : APIClient.t := demo_client 8 99 10 100.


(** At both limits. *)
Definition demo_exhausted : APIClient.t := demo_client 10 100 10 100.

Definition demo_batch2 : BulkSMSRequest.t :=
  BulkSMSRequest.mk [demo_sms "0701234567"; demo_sms "+256709876543"].

Definition demo_batch3 : BulkSMSRequest.t :=
  BulkSMSRequest.mk [demo_sms "0701234567"; demo_sms "+256709876543";
                     demo_sms "0772 000 111"].

(* ================================================================== *)
(** ** The rest of the gateway *)
(* ================================================================== *)

(** What the remaining handlers put in [SMSResponse.Data]: the map of
    [CreateClient], the clients of [ListClients], the client of
    [UpdateClient], the [ClientStats] of [GetStats]. *)
Record ClientStats : Type := mkClientStats {
  stats_ClientID : UUID;
  stats_DailyUsage : Z;
  stats_MonthlyUsage : Z;
  stats_DailyLimit : Z;
  stats_MonthlyLimit : Z;
  stats_IsActive : bool
}.

(** The entries of the map [CreateClient] returns. *)
Record Credentials : Type := mkCredentials {
  cred_client_id : UUID;
  cred_name : string;
  cred_email : string;
  cred_api_key : string;
  cred_api_secret : string;
  cred_rate_limit : Z;
  cred_daily_limit : Z;
  cred_monthly_limit : Z;
  cred_warning : string
}.

Inductive ReplyData : Type :=
| ReplyNone
| ReplyCreated (m : Credentials)
| ReplyClients (rows : list APIClient.t)
| ReplyClient (row : APIClient.t)
| ReplyStats (stats : ClientStats).

(** [c.JSON(code, models.SMSResponse{...})] of these handlers. *)
Record Reply : Type := reply {
  reply_code : Z;
  reply_Success : bool;
  reply_Message : string;
  reply_Data : ReplyData;
  reply_Error : string
}.

(** A response of the middleware (it carries no data) at that type. *)
Definition reply_of (r : HTTPResponse) : Reply :=
  reply (status_code r) (SMSResponse.Success (body r))
        (SMSResponse.Message (body r)) ReplyNone (SMSResponse.Error (body r)).

Definition StatusCreated : Z := 201.
Definition StatusConflict : Z := 409.

(** The request of an administrative route: the gin context, the
    [Authorization] header and the query parameter [is_active]. *)
Record AdminRequest (B : Type) : Type := mkAdminRequest {
  gin : Context B;
  Header_Authorization : string;
  Query_is_active : string
}.
Arguments mkAdminRequest {B}.
Arguments gin {B}.
Arguments Header_Authorization {B}.
Arguments Query_is_active {B}.

(** The request struct of [CreateClient]. *)
Record CreateClientRequest : Type := mkCreateClientRequest {
  create_Name : string;
  create_Email : string;
  create_RateLimit : Z;
  create_DailyLimit : Z;
  create_MonthlyLimit : Z
}.

(** The request struct of [UpdateClient]: a [nil] pointer is [None]. *)
Record UpdateClientRequest : Type := mkUpdateClientRequest {
  update_Name : option string;
  update_IsActive : option bool;
  update_RateLimit : option Z;
  update_DailyLimit : option Z;
  update_MonthlyLimit : option Z
}.

(** Library and platform calls of the administrative code. *)
Record Platform : Type := mkPlatform {
  (** [os.Getenv(key)] *)
  os_Getenv : string -> string;
  (** [base64.StdEncoding.DecodeString(s)]: [None] is an error *)
  base64_DecodeString : string -> option string;
  (** [bcrypt.GenerateFromPassword(password, DefaultCost)]: [inl err]
      or [inr hash] *)
  bcrypt_GenerateFromPassword : string -> string + string;
  (** the error text of the driver when a unique index rejects a row *)
  unique_violation : string;
  (** [t.AddDate(years, months, days)] *)
  time_AddDate : Time -> Z -> Z -> Z -> Time
}.

(** Field assignments on a client value. *)
Definition set_ID (v : UUID) (c : APIClient.t) : APIClient.t :=
  APIClient.mk v (APIClient.CreatedAt c) (APIClient.UpdatedAt c)
    (APIClient.DeletedAt c) (APIClient.Name c) (APIClient.Email c)
    (APIClient.APIKey c) (APIClient.APISecret c) (APIClient.APIKeyHash c)
    (APIClient.IsActive c) (APIClient.RateLimit c) (APIClient.DailyLimit c)
    (APIClient.MonthlyLimit c) (APIClient.DailyUsage c)
    (APIClient.MonthlyUsage c) (APIClient.LastReset c).

Definition set_CreatedAt (v : Time) (c : APIClient.t) : APIClient.t :=
  APIClient.mk (APIClient.ID c) v (APIClient.UpdatedAt c)
    (APIClient.DeletedAt c) (APIClient.Name c) (APIClient.Email c)
    (APIClient.APIKey c) (APIClient.APISecret c) (APIClient.APIKeyHash c)
    (APIClient.IsActive c) (APIClient.RateLimit c) (APIClient.DailyLimit c)
    (APIClient.MonthlyLimit c) (APIClient.DailyUsage c)
    (APIClient.MonthlyUsage c) (APIClient.LastReset c).

Definition set_Name (v : string) (c : APIClient.t) : APIClient.t :=
  APIClient.mk (APIClient.ID c) (APIClient.CreatedAt c) (APIClient.UpdatedAt c)
    (APIClient.DeletedAt c) v (APIClient.Email c)
    (APIClient.APIKey c) (APIClient.APISecret c) (APIClient.APIKeyHash c)
    (APIClient.IsActive c) (APIClient.RateLimit c) (APIClient.DailyLimit c)
    (APIClient.MonthlyLimit c) (APIClient.DailyUsage c)
    (APIClient.MonthlyUsage c) (APIClient.LastReset c).

Definition set_APISecret (v : string) (c : APIClient.t) : APIClient.t :=
  APIClient.mk (APIClient.ID c) (APIClient.CreatedAt c) (APIClient.UpdatedAt c)
    (APIClient.DeletedAt c) (APIClient.Name c) (APIClient.Email c)
    (APIClient.APIKey c) v (APIClient.APIKeyHash c)
    (APIClient.IsActive c) (APIClient.RateLimit c) (APIClient.DailyLimit c)
    (APIClient.MonthlyLimit c) (APIClient.DailyUsage c)
    (APIClient.MonthlyUsage c) (APIClient.LastReset c).

Definition set_APIKeyHash (v : string) (c : APIClient.t) : APIClient.t :=
  APIClient.mk (APIClient.ID c) (APIClient.CreatedAt c) (APIClient.UpdatedAt c)
    (APIClient.DeletedAt c) (APIClient.Name c) (APIClient.Email c)
    (APIClient.APIKey c) (APIClient.APISecret c) v
    (APIClient.IsActive c) (APIClient.RateLimit c) (APIClient.DailyLimit c)
    (APIClient.MonthlyLimit c) (APIClient.DailyUsage c)
    (APIClient.MonthlyUsage c) (APIClient.LastReset c).

Definition set_IsActive (v : bool) (c : APIClient.t) : APIClient.t :=
  APIClient.mk (APIClient.ID c) (APIClient.CreatedAt c) (APIClient.UpdatedAt c)
    (APIClient.DeletedAt c) (APIClient.Name c) (APIClient.Email c)
    (APIClient.APIKey c) (APIClient.APISecret c) (APIClient.APIKeyHash c)
    v (APIClient.RateLimit c) (APIClient.DailyLimit c)
    (APIClient.MonthlyLimit c) (APIClient.DailyUsage c)
    (APIClient.MonthlyUsage c) (APIClient.LastReset c).

Definition set_RateLimit (v : Z) (c : APIClient.t) : APIClient.t :=
  APIClient.mk (APIClient.ID c) (APIClient.CreatedAt c) (APIClient.UpdatedAt c)
    (APIClient.DeletedAt c) (APIClient.Name c) (APIClient.Email c)
    (APIClient.APIKey c) (APIClient.APISecret c) (APIClient.APIKeyHash c)
    (APIClient.IsActive c) v (APIClient.DailyLimit c)
    (APIClient.MonthlyLimit c) (APIClient.DailyUsage c)
    (APIClient.MonthlyUsage c) (APIClient.LastReset c).

Definition set_DailyLimit (v : Z) (c : APIClient.t) : APIClient.t :=
  APIClient.mk (APIClient.ID c) (APIClient.CreatedAt c) (APIClient.UpdatedAt c)
    (APIClient.DeletedAt c) (APIClient.Name c) (APIClient.Email c)
    (APIClient.APIKey c) (APIClient.APISecret c) (APIClient.APIKeyHash c)
    (APIClient.IsActive c) (APIClient.RateLimit c) v
    (APIClient.MonthlyLimit c) (APIClient.DailyUsage c)
    (APIClient.MonthlyUsage c) (APIClient.LastReset c).

Definition set_MonthlyLimit (v : Z) (c : APIClient.t) : APIClient.t :=
  APIClient.mk (APIClient.ID c) (APIClient.CreatedAt c) (APIClient.UpdatedAt c)
    (APIClient.DeletedAt c) (APIClient.Name c) (APIClient.Email c)
    (APIClient.APIKey c) (APIClient.APISecret c) (APIClient.APIKeyHash c)
    (APIClient.IsActive c) (APIClient.RateLimit c) (APIClient.DailyLimit c)
    v (APIClient.DailyUsage c)
    (APIClient.MonthlyUsage c) (APIClient.LastReset c).

(** [strings.SplitN(s, sep, 2)] for a separator of one byte: [s] cut at
    the first separator, or [s] alone when it holds none. *)
Fixpoint cut (sep : ascii) (s : string) : option (string * string) :=
  match s with
  | EmptyString => None
  | String a s' =>
      if Ascii.eqb a sep then Some (EmptyString, s')
      else match cut sep s' with
           | Some (l, r) => Some (String a l, r)
           | None => None
           end
  end.

Definition SplitN2 (s : string) (sep : ascii) : list string :=
  match cut sep s with
  | Some (l, r) => [l; r]
  | None => [s]
  end.

(** [subtle.ConstantTimeCompare(x, y) == 1] *)
Definition ConstantTimeCompare (x y : string) : bool := String.eqb x y.

(** [database.DB.Find(&clients)] under the conditions [cond]: the live
    rows that satisfy them, in the order of the table (the query has no
    [ORDER BY]). *)
Definition DB_Find (cond : APIClient.t -> bool)
  : M (list APIClient.t * option string) :=
  fun w => ((filter (fun r => (cond r && live r)%bool) (clients w), None), w).

(** The unique indexes of the table: primary key, [email], [api_key]. *)
Definition collides (c r : APIClient.t) : bool :=
  (String.eqb (APIClient.ID r) (APIClient.ID c)
   || String.eqb (APIClient.Email r) (APIClient.Email c)
   || String.eqb (APIClient.APIKey r) (APIClient.APIKey c))%bool.

(** [database.DB.Model(&models.APIClient{}).Where(cond).Updates(m)]:
    every live row under [cond] gets the assignments [m] and a new
    [UpdatedAt]; the result carries [RowsAffected]. *)
Definition DB_Updates (now : Time) (cond : APIClient.t -> bool)
  (assign : APIClient.t -> APIClient.t) : M (Z * option string) :=
  fun w =>
    let hit r := (cond r && live r)%bool in
    ((len (filter hit (clients w)), None),
     mkWorld (map (fun r => if hit r
                            then APIClient.with_UpdatedAt now (assign r)
                            else r) (clients w))
             (sms_logs w) (uuids_drawn w) (trace w)).

Section Administration.

Variable E : Env.
Variable P : Platform.

(* ------------------------------------------------------------------ *)
(** *** models: the hook of [APIClient] *)
(* ------------------------------------------------------------------ *)

(** [func (client *APIClient) BeforeCreate(tx *gorm.DB) error] *)
Definition APIClient_BeforeCreate (client : APIClient.t) : M APIClient.t :=
  client1 <- (if String.eqb (APIClient.ID client) uuid_Nil
              then id <- uuid_fresh E ;; ret (set_ID id client)
              else ret client) ;;
  if Z.eqb (APIClient.LastReset client1) time_zero
  then ret (APIClient.with_LastReset (time_Now E) client1)
  else ret client1.

(** [database.DB.Create(&client)]: the hook runs, gorm stamps
    [CreatedAt] and [UpdatedAt] where they are the zero time, and the
    row is appended unless a unique index rejects it. *)
Definition DB_Create_client (client : APIClient.t)
  : M (APIClient.t * option string) :=
  client1 <- APIClient_BeforeCreate client ;;
  let client2 :=
    if Z.eqb (APIClient.CreatedAt client1) time_zero
    then set_CreatedAt (time_Now E) client1 else client1 in
  let client3 :=
    if Z.eqb (APIClient.UpdatedAt client2) time_zero
    then APIClient.with_UpdatedAt (time_Now E) client2 else client2 in
  fun w =>
    if existsb (collides client3) (clients w)
    then ((client3, Some (unique_violation P)), w)
    else ((client3, None),
          mkWorld (clients w ++ [client3]) (sms_logs w) (uuids_drawn w)
                  (trace w)).

(* ------------------------------------------------------------------ *)
(** *** middleware/auth.go: [BasicAuth] *)
(* ------------------------------------------------------------------ *)

(** [func getEnv(key, defaultValue string) string] *)
Definition getEnv (key defaultValue : string) : string :=
  let value := os_Getenv P key in
  if str_neq value "" then value else defaultValue.

(** [func BasicAuth() gin.HandlerFunc]: [Some r] when it writes [r] and
    aborts, [None] when it calls [c.Next()]. *)
Definition BasicAuth {B : Type} (c : AdminRequest B) : option HTTPResponse :=
  let authHeader := Header_Authorization c in
  if String.eqb authHeader "" then
    Some (respond StatusUnauthorized false "Authorization required"
            DataNone "")
  else
    match SplitN2 authHeader " "%char with
    | [scheme; encoded] =>
        if str_neq scheme "Basic" then
          Some (respond StatusUnauthorized false
                  "Invalid authorization header" DataNone "")
        else
          match base64_DecodeString P encoded with
          | None =>
              Some (respond StatusUnauthorized false
                      "Invalid authorization header" DataNone "")
          | Some decoded =>
              match SplitN2 decoded ":"%char with
              | [user; pass] =>
                  let expectedUser := getEnv "ADMIN_USER" "admin" in
                  let expectedPass := getEnv "ADMIN_PASSWORD" "admin" in
                  if (negb (ConstantTimeCompare user expectedUser)
                      || negb (ConstantTimeCompare pass expectedPass))%bool
                  then
                    Some (respond StatusUnauthorized false
                            "Invalid credentials" DataNone "")
                  else None
              | _ =>
                  Some (respond StatusUnauthorized false
                          "Invalid credentials format" DataNone "")
              end
          end
    | _ =>
        Some (respond StatusUnauthorized false
                "Invalid authorization header" DataNone "")
    end.

(* ------------------------------------------------------------------ *)
(** *** handlers/sms.go: [GetStats] *)
(* ------------------------------------------------------------------ *)

(** [func (h *SMSHandler) GetStats(c *gin.Context)] *)
Definition GetStats (c : Context unit) : M Reply :=
  match ctx_client c with
  | None =>
      ret (reply StatusInternalServerError false "Client not found"
             ReplyNone "")
  | Some apiClient =>
      let stats :=
        mkClientStats (APIClient.ID apiClient)
          (APIClient.DailyUsage apiClient) (APIClient.MonthlyUsage apiClient)
          (APIClient.DailyLimit apiClient) (APIClient.MonthlyLimit apiClient)
          (APIClient.IsActive apiClient) in
      ret (reply StatusOK true "Statistics retrieved successfully"
             (ReplyStats stats) "")
  end.

(* ------------------------------------------------------------------ *)
(** *** handlers/client.go *)
(* ------------------------------------------------------------------ *)

(** [func (h *ClientHandler) CreateClient(c *gin.Context)] *)
Definition CreateClient (c : AdminRequest CreateClientRequest) : M Reply :=
  match ShouldBindJSON (gin c) with
  | inl err =>
      ret (reply StatusBadRequest false "Invalid request payload"
             ReplyNone err)
  | inr req =>
      existing <- DB_First
        (fun r => String.eqb (APIClient.Email r) (create_Email req)) ;;
      match existing with
      | Some _ =>
          ret (reply StatusConflict false
                 "Client with this email already exists" ReplyNone "")
      | None =>
          apiKey <- uuid_fresh E ;;
          apiSecret <- uuid_fresh E ;;
          match bcrypt_GenerateFromPassword P apiSecret with
          | inl err =>
              ret (reply StatusInternalServerError false
                     "Failed to generate credentials" ReplyNone err)
          | inr hashedSecret =>
              let rateLimit := create_RateLimit req in
              let rateLimit := if rateLimit =? 0 then 100 else rateLimit in
              let dailyLimit := create_DailyLimit req in
              let dailyLimit :=
                if dailyLimit =? 0 then 10000 else dailyLimit in
              let monthlyLimit := create_MonthlyLimit req in
              let monthlyLimit :=
                if monthlyLimit =? 0 then 300000 else monthlyLimit in
              id <- uuid_fresh E ;;
              let client :=
                APIClient.mk id time_zero time_zero None
                  (create_Name req) (create_Email req) apiKey hashedSecret ""
                  true rateLimit dailyLimit monthlyLimit 0 0 (time_Now E) in
              created <- DB_Create_client client ;;
              let client := fst created in
              match snd created with
              | Some err =>
                  ret (reply StatusInternalServerError false
                         "Failed to create client" ReplyNone err)
              | None =>
                  ret (reply StatusCreated true "Client created successfully"
                         (ReplyCreated
                            (mkCredentials (APIClient.ID client)
                               (APIClient.Name client) (APIClient.Email client)
                               apiKey apiSecret
                               (APIClient.RateLimit client)
                               (APIClient.DailyLimit client)
                               (APIClient.MonthlyLimit client)
                               "Save these credentials securely. The API secret will not be shown again."))
                         "")
              end
          end
      end
  end.

(** "Remove sensitive information" *)
Definition redact (client : APIClient.t) : APIClient.t :=
  set_APIKeyHash "" (set_APISecret "" client).

(** [func (h *ClientHandler) ListClients(c *gin.Context)] *)
Definition ListClients (c : AdminRequest unit) : M Reply :=
  let isActive := Query_is_active c in
  let cond (r : APIClient.t) :=
    if str_neq isActive ""
    then Bool.eqb (APIClient.IsActive r) (String.eqb isActive "true")
    else true in
  found <- DB_Find cond ;;
  match snd found with
  | Some err =>
      ret (reply StatusInternalServerError false
             "Failed to retrieve clients" ReplyNone err)
  | None =>
      let clients := map redact (fst found) in
      ret (reply StatusOK true "Clients retrieved successfully"
             (ReplyClients clients) "")
  end.

(** "Update fields" of [UpdateClient]. *)
Definition apply_update (req : UpdateClientRequest) (client : APIClient.t)
  : APIClient.t :=
  let client := match update_Name req with
                | Some v => set_Name v client | None => client end in
  let client := match update_IsActive req with
                | Some v => set_IsActive v client | None => client end in
  let client := match update_RateLimit req with
                | Some v => set_RateLimit v client | None => client end in
  let client := match update_DailyLimit req with
                | Some v => set_DailyLimit v client | None => client end in
  match update_MonthlyLimit req with
  | Some v => set_MonthlyLimit v client | None => client end.

(** [func (h *ClientHandler) UpdateClient(c *gin.Context)] *)
Definition UpdateClient (c : AdminRequest UpdateClientRequest) : M Reply :=
  let clientID := Param_id (gin c) in
  match ShouldBindJSON (gin c) with
  | inl err =>
      ret (reply StatusBadRequest false "Invalid request payload"
             ReplyNone err)
  | inr req =>
      found <- DB_First (fun r => String.eqb (APIClient.ID r) clientID) ;;
      match found with
      | None =>
          ret (reply StatusNotFound false "Client not found" ReplyNone "")
      | Some client =>
          let client := apply_update req client in
          saved <- DB_Save E client ;;
          match snd saved with
          | Some err =>
              ret (reply StatusInternalServerError false
                     "Failed to update client" ReplyNone err)
          | None =>
              let client := redact (fst saved) in
              ret (reply StatusOK true "Client updated successfully"
                     (ReplyClient client) "")
          end
      end
  end.

(* ------------------------------------------------------------------ *)
(** *** utils: the usage resets of the scheduler *)
(* ------------------------------------------------------------------ *)

(** [func ResetDailyUsage() error].  [LastReset] is a [time.Time] and
    never [NULL], so the second disjunct of the condition selects no
    row; the log line is not modelled. *)
Definition ResetDailyUsage : M (option string) :=
  result <- DB_Updates (time_Now E)
    (fun r => APIClient.LastReset r
              <? time_AddDate P (time_Now E) 0 0 (-1))
    (fun r => APIClient.with_LastReset (time_Now E)
                (APIClient.with_DailyUsage 0 r)) ;;
  match snd result with
  | Some err => ret (Some err)
  | None => ret None
  end.

(** [func ResetMonthlyUsage() error] *)
Definition ResetMonthlyUsage : M (option string) :=
  result <- DB_Updates (time_Now E)
    (fun r => APIClient.LastReset r
              <? time_AddDate P (time_Now E) 0 (-1) 0)
    (fun r => APIClient.with_LastReset (time_Now E)
                (APIClient.with_MonthlyUsage 0 r)) ;;
  match snd result with
  | Some err => ret (Some err)
  | None => ret None
  end.

(* ------------------------------------------------------------------ *)
(** *** main.go: the remaining routes *)
(* ------------------------------------------------------------------ *)

(** [sms.GET("/stats", smsHandler.GetStats)] *)
Definition GET_sms_stats (c : Context unit) : M Reply :=
  chain <- APIKeyAuth E c ;;
  match chain with
  | Abort r => ret (reply_of r)
  | Next c' => GetStats c'
  end.

(** [admin := v1.Group("/admin"); admin.Use(middleware.BasicAuth())] *)
Definition admin_group {B : Type} (handler : AdminRequest B -> M Reply)
  (c : AdminRequest B) : M Reply :=
  match BasicAuth c with
  | Some r => ret (reply_of r)
  | None => handler c
  end.

(** [admin.POST("/clients", clientHandler.CreateClient)] *)
Definition POST_admin_clients : AdminRequest CreateClientRequest -> M Reply :=
  admin_group CreateClient.

(** [admin.GET("/clients", clientHandler.ListClients)] *)
Definition GET_admin_clients : AdminRequest unit -> M Reply :=
  admin_group ListClients.

(** [admin.PUT("/clients/:id", clientHandler.UpdateClient)] *)
Definition PUT_admin_client : AdminRequest UpdateClientRequest -> M Reply :=
  admin_group UpdateClient.

(** [admin.POST("/clients/:id/reset", clientHandler.ResetClientUsage)] *)
Definition POST_admin_client_reset (c : AdminRequest unit) : M HTTPResponse :=
  match BasicAuth c with
  | Some r => ret r
  | None => ResetClientUsage E (gin c)
  end.

End Administration.

(** A platform for running the administrative code: no environment
    variable is set, an encoder that writes ["b64:"] in front of its
    argument stands in for base64, and the stand-in for bcrypt is the
    one of [demo_bcrypt]. *)
Definition demo_base64 (s : string) : option string :=
  if HasPrefix s "b64:" then Some (substring 4 (String.length s - 4) s)
  else None.

Definition demo_platform : Platform :=
  mkPlatform (fun _ => "") demo_base64 (fun s => inr ("$2a$" ++ s))
             "UNIQUE constraint failed"
             (fun t years months days =>
                t + (years * 365 + months * 30 + days) * 86400).

Definition demo_admin {B : Type} (authorization : string)
  (bound : string + B) : AdminRequest B :=
  mkAdminRequest (demo_context "" "" bound None) authorization "".

(** The limit [CreateClient] stores for a requested value. *)
Definition limit_or (default requested : Z) : Z :=
  if requested =? 0 then default else requested.

(** The row [CreateClient] stores for the request [req] when the three
    ids drawn are [key], [secret] (hashed to [hash]) and [id]. *)
Definition created_row (E : Env) (req : CreateClientRequest)
  (key hash id : string) : APIClient.t :=
  APIClient.mk id (time_Now E) (time_Now E) None
    (create_Name req) (create_Email req) key hash "" true
    (limit_or 100 (create_RateLimit req))
    (limit_or 10000 (create_DailyLimit req))
    (limit_or 300000 (create_MonthlyLimit req))
    0 0 (time_Now E).

(** The live row with an email, as [CreateClient] looks it up. *)
Definition client_by_email (w : World) (email : string)
  : option APIClient.t :=
  find (fun r => (String.eqb (APIClient.Email r) email && live r)%bool)
       (clients w).

(** An upstream that cannot be reached, and one whose answer the
    decoder rejects. *)
Definition demo_down_env : Env := demo_env (DoError "dial tcp: timeout") None.

Definition demo_garbled_env : Env := demo_env (ResponseBody "<html>") None.

Definition demo_create : CreateClientRequest :=
  mkCreateClientRequest "Beta" "ops@beta.test" 0 500 0.

Definition demo_deactivate : UpdateClientRequest :=
  mkUpdateClientRequest None (Some false) None (Some 20) None.

(** The status code of a refusal, when a middleware refused. *)
Definition status_code_of_chain {B : Type} (chain : Chain B) : option Z :=
  match chain with
  | Abort r => Some (status_code r)
  | Next _ => None
  end.

(* ================================================================== *)
(** * Properties *)
(* ================================================================== *)

(* ------------------------------------------------------------------ *)
(** ** Phone normaliser *)
(* ------------------------------------------------------------------ *)

Lemma forall_string_app (p : ascii -> bool) (s t : string) :
  forall_string p (s ++ t) = (forall_string p s && forall_string p t)%bool.
Proof.
  induction s as [|a s IH]; simpl; [reflexivity|].
  rewrite IH. now rewrite andb_assoc.
Qed.

Lemma forall_filter_string (p : ascii -> bool) (s : string) :
  forall_string p (filter_string p s) = true.
Proof.
  induction s as [|a s IH]; simpl; [reflexivity|].
  destruct (p a) eqn:Hp; simpl; [rewrite Hp|]; exact IH.
Qed.

Lemma filter_string_fixed (p : ascii -> bool) (s : string) :
  forall_string p s = true -> filter_string p s = s.
Proof.
  induction s as [|a s IH]; simpl; [reflexivity|].
  intros H. apply andb_prop in H as [Ha Hs].
  rewrite Ha. f_equal. now apply IH.
Qed.

Lemma filter_string_app (p : ascii -> bool) (s t : string) :
  filter_string p (s ++ t) = filter_string p s ++ filter_string p t.
Proof.
  induction s as [|a s IH]; simpl; [reflexivity|].
  destruct (p a); simpl; now rewrite IH.
Qed.

Lemma forall_TrimLeft_zero (p : ascii -> bool) (s : string) :
  forall_string p s = true -> forall_string p (TrimLeft_zero s) = true.
Proof.
  induction s as [|a s IH]; simpl; [reflexivity|].
  intros H. destruct (Ascii.eqb a zero_digit).
  - apply andb_prop in H as [_ Hs]. now apply IH.
  - exact H.
Qed.

Lemma HasPrefix_zero (a : ascii) (s : string) :
  HasPrefix (String a s) "0" = Ascii.eqb a zero_digit.
Proof.
  change (HasPrefix (String a s) "0") with (Ascii.eqb zero_digit a && true)%bool.
  rewrite andb_true_r. apply Ascii.eqb_sym.
Qed.

(** [TrimLeft] splits its argument into the zeros it drops and a rest
    that does not start with a zero. *)
Lemma TrimLeft_zero_split (s : string) :
  exists zeros,
    s = zeros ++ TrimLeft_zero s /\
    forall_string (Ascii.eqb zero_digit) zeros = true /\
    HasPrefix (TrimLeft_zero s) "0" = false.
Proof.
  induction s as [|a s IH].
  - exists "". repeat split.
  - change (TrimLeft_zero (String a s))
      with (if Ascii.eqb a zero_digit then TrimLeft_zero s else String a s).
    destruct (Ascii.eqb a zero_digit) eqn:Ha.
    + destruct IH as (z & Hs & Hz & Hp).
      apply Ascii.eqb_eq in Ha. subst a.
      exists (String zero_digit z). split; [|split].
      * change (String zero_digit z ++ TrimLeft_zero s)
          with (String zero_digit (z ++ TrimLeft_zero s)).
        now rewrite <- Hs.
      * change (forall_string (Ascii.eqb zero_digit) (String zero_digit z))
          with (Ascii.eqb zero_digit zero_digit
                && forall_string (Ascii.eqb zero_digit) z)%bool.
        now rewrite Ascii.eqb_refl, Hz.
      * exact Hp.
    + exists "". split; [reflexivity|]. split; [reflexivity|].
      now rewrite HasPrefix_zero.
Qed.

Lemma FormatPhone_unfold (raw : string) :
  FormatPhone raw =
    let cleaned := remove_non_digit_plus raw in
    let rest := TrimLeft_zero cleaned in
    if HasPrefix cleaned "+" then cleaned
    else if HasPrefix rest country_code then "+" ++ rest
    else "+" ++ country_code ++ rest.
Proof.
  unfold FormatPhone. cbv zeta.
  destruct (HasPrefix (remove_non_digit_plus raw) "+"); cbn [negb];
    [reflexivity|].
  destruct (HasPrefix (TrimLeft_zero (remove_non_digit_plus raw)) country_code);
    reflexivity.
Qed.

Lemma FormatPhone_keeps (raw : string) :
  forall_string keeps (FormatPhone raw) = true.
Proof.
  rewrite FormatPhone_unfold. cbv zeta.
  pose proof (forall_filter_string keeps raw) as Hc.
  fold (remove_non_digit_plus raw) in Hc.
  pose proof (forall_TrimLeft_zero keeps _ Hc) as Ht.
  destruct (HasPrefix (remove_non_digit_plus raw) "+"); [exact Hc|].
  destruct (HasPrefix (TrimLeft_zero (remove_non_digit_plus raw)) country_code).
  - rewrite forall_string_app, Ht. reflexivity.
  - rewrite !forall_string_app, Ht. reflexivity.
Qed.

Lemma FormatPhone_leading_plus (raw : string) :
  HasPrefix (FormatPhone raw) "+" = true.
Proof.
  rewrite FormatPhone_unfold. cbv zeta.
  destruct (HasPrefix (remove_non_digit_plus raw) "+") eqn:Hp; [exact Hp|].
  destruct (HasPrefix (TrimLeft_zero (remove_non_digit_plus raw)) country_code);
    reflexivity.
Qed.

Lemma FormatPhone_fixed (s : string) :
  forall_string keeps s = true -> HasPrefix s "+" = true -> FormatPhone s = s.
Proof.
  intros Hk Hp. unfold FormatPhone, remove_non_digit_plus.
  rewrite (filter_string_fixed _ _ Hk), Hp. reflexivity.
Qed.

(** C3 (as amended).  [FormatPhone] removes every byte that is neither a
    digit nor a plus sign (a plus sign is kept wherever it stands, not
    only in front); when the cleaned string does not start with a plus
    sign it drops the leading zeros, puts the country code 256 in front
    unless the rest already starts with 256, and then puts the plus sign
    in front; a cleaned string that starts with a plus sign is returned
    as it is.  The two examples of the specification hold. *)
Theorem FormatPhone_contract (raw : string) :
  let cleaned := remove_non_digit_plus raw in
  let rest := TrimLeft_zero cleaned in
  forall_string keeps cleaned = true /\
  (forall s t, remove_non_digit_plus (s ++ t)
               = remove_non_digit_plus s ++ remove_non_digit_plus t) /\
  (forall a, remove_non_digit_plus (String a "")
             = if keeps a then String a "" else "") /\
  (exists zeros,
      cleaned = zeros ++ rest /\
      forall_string (Ascii.eqb zero_digit) zeros = true /\
      HasPrefix rest "0" = false) /\
  FormatPhone raw =
    (if HasPrefix cleaned "+" then cleaned
     else if HasPrefix rest country_code then "+" ++ rest
     else "+" ++ country_code ++ rest) /\
  FormatPhone "0701234567" = "+256701234567" /\
  FormatPhone "+256701234567" = "+256701234567".
Proof.
  cbv zeta. split; [|split; [|split; [|split; [|split; [|split]]]]].
  - apply forall_filter_string.
  - intros s t. apply filter_string_app.
  - intros a. unfold remove_non_digit_plus.
    change (filter_string keeps (String a ""))
      with (if keeps a then String a (filter_string keeps "")
            else filter_string keeps "").
    now destruct (keeps a).
  - apply TrimLeft_zero_split.
  - apply FormatPhone_unfold.
  - reflexivity.
  - reflexivity.
Qed.

(** C3 (as stated) fails: a local number that already starts with 256
    does not get the country code a second time, and a plus sign that
    does not lead is kept. *)
Lemma FormatPhone_differs_from_spec_normalize :
  FormatPhone "256701234567" = "+256701234567" /\
  spec_normalize "256701234567" = "+256256701234567" /\
  FormatPhone "256701234567" <> spec_normalize "256701234567" /\
  FormatPhone "07+01234567" = "+2567+01234567" /\
  spec_normalize "07+01234567" = "+256701234567" /\
  FormatPhone "07+01234567" <> spec_normalize "07+01234567".
Proof. repeat split; vm_compute; discriminate. Qed.

(** C9.  Normalisation is idempotent, and the validity verdict of a
    normalised number is the verdict of the number it came from. *)
Theorem FormatPhone_idempotent (n : string) :
  FormatPhone (FormatPhone n) = FormatPhone n /\
  ValidatePhone (FormatPhone n) = ValidatePhone n.
Proof.
  assert (H : FormatPhone (FormatPhone n) = FormatPhone n).
  { apply FormatPhone_fixed.
    - apply FormatPhone_keeps.
    - apply FormatPhone_leading_plus. }
  split; [exact H|].
  unfold ValidatePhone. now rewrite H.
Qed.

(* ------------------------------------------------------------------ *)
(** ** Go [int] arithmetic *)
(* ------------------------------------------------------------------ *)

Lemma wrap_exact (z : Z) : is_int z -> wrap z = z.
Proof.
  unfold is_int, min_int, max_int, wrap. intros H.
  rewrite Z.mod_small; lia.
Qed.

Lemma int_add_exact (a b : Z) : is_int (a + b) -> int_add a b = a + b.
Proof. apply wrap_exact. Qed.

Lemma len_nonneg {A : Type} (xs : list A) : 0 <= len xs.
Proof. unfold len. lia. Qed.

Lemma len_cons {A : Type} (x : A) (xs : list A) : len (x :: xs) = len xs + 1.
Proof. unfold len. cbn [List.length]. lia. Qed.

(* ------------------------------------------------------------------ *)
(** ** Counting effects *)
(* ------------------------------------------------------------------ *)

Lemma count_events_app (p : Event -> bool) (t u : list Event) :
  List.length (filter p (t ++ u))
  = (List.length (filter p t) + List.length (filter p u))%nat.
Proof. now rewrite filter_app, length_app. Qed.

Lemma no_create_in_logs_map (logs : list SMSLog.t) :
  filter is_create_log (map EvCreateLog logs) = map EvCreateLog logs.
Proof. induction logs as [|l logs IH]; cbn; [reflexivity|now rewrite IH]. Qed.

Lemma no_save_in_logs_map (logs : list SMSLog.t) :
  filter is_save_client (map EvCreateLog logs) = [].
Proof. induction logs as [|l logs IH]; cbn; [reflexivity|exact IH]. Qed.

Lemma no_call_in_logs_map (logs : list SMSLog.t) :
  filter is_provider_call (map EvCreateLog logs) = [].
Proof. induction logs as [|l logs IH]; cbn; [reflexivity|exact IH]. Qed.

(* ------------------------------------------------------------------ *)
(** ** The client table *)
(* ------------------------------------------------------------------ *)

Lemma upsert_In (c r : APIClient.t) (rows : list APIClient.t) :
  In r rows -> APIClient.ID r = APIClient.ID c -> In c (upsert c rows).
Proof.
  induction rows as [|r0 rows IH]; cbn [upsert In]; [tauto|].
  intros Hin Hid.
  destruct (String.eqb_spec (APIClient.ID r0) (APIClient.ID c)) as [He|Hne];
    [now left|].
  destruct Hin as [->|Hin]; [contradiction|].
  right. now apply IH.
Qed.

Lemma upsert_length (c r : APIClient.t) (rows : list APIClient.t) :
  In r rows -> APIClient.ID r = APIClient.ID c ->
  List.length (upsert c rows) = List.length rows.
Proof.
  induction rows as [|r0 rows IH]; cbn [upsert In]; [tauto|].
  intros Hin Hid.
  destruct (String.eqb_spec (APIClient.ID r0) (APIClient.ID c)) as [He|Hne];
    [reflexivity|].
  destruct Hin as [->|Hin]; [contradiction|].
  cbn [List.length]. f_equal. now apply IH.
Qed.

Lemma upsert_others (c r : APIClient.t) (rows : list APIClient.t) :
  In r rows -> APIClient.ID r <> APIClient.ID c -> In r (upsert c rows).
Proof.
  induction rows as [|r0 rows IH]; cbn [upsert In]; [tauto|].
  intros [->|Hin] Hne.
  - destruct (String.eqb_spec (APIClient.ID r) (APIClient.ID c));
      [contradiction|now left].
  - destruct (String.eqb (APIClient.ID r0) (APIClient.ID c));
      right; auto.
Qed.

Lemma find_by_id_upsert (c c' : APIClient.t) (id : string)
  (rows : list APIClient.t) :
  find (fun r => (String.eqb (APIClient.ID r) id && live r)%bool) rows
    = Some c ->
  APIClient.ID c' = APIClient.ID c -> live c' = true ->
  find (fun r => (String.eqb (APIClient.ID r) id && live r)%bool)
       (upsert c' rows) = Some c'.
Proof.
  intros Hfind Hid Hlive.
  assert (Hk : APIClient.ID c = id).
  { apply find_some in Hfind as [_ H]. apply andb_prop in H as [H _].
    now apply String.eqb_eq in H. }
  induction rows as [|r rows IH]; [discriminate Hfind|].
  cbn [upsert]. cbn [find] in Hfind.
  destruct (String.eqb_spec (APIClient.ID r) (APIClient.ID c')) as [He|Hne].
  - cbn [find]. rewrite Hid, Hk, String.eqb_refl, Hlive. reflexivity.
  - cbn [find].
    destruct (String.eqb_spec (APIClient.ID r) id) as [He|_].
    + exfalso. apply Hne. now rewrite He, Hid, Hk.
    + cbn [andb] in Hfind |- *. now apply IH.
Qed.

Section Properties.

Variable E : Env.

(* ------------------------------------------------------------------ *)
(** ** Authenticator *)
(* ------------------------------------------------------------------ *)

(** The middleware only reads. *)
Lemma APIKeyAuth_reads {B : Type} (c : Context B) (w : World) :
  snd (APIKeyAuth E c w) = w.
Proof.
  unfold APIKeyAuth, bind, ret, DB_First.
  destruct (String.eqb (Header_X_API_Key c) "" ||
            String.eqb (Header_X_API_Secret c) "")%bool; [reflexivity|].
  destruct (find _ (clients w)) as [cl|]; [|reflexivity].
  destruct (bcrypt_CompareHashAndPassword E _ _); [|reflexivity].
  destruct (APIClient.IsActive cl); [|reflexivity].
  cbn [negb].
  destruct (APIClient.DailyUsage cl >=? APIClient.DailyLimit cl);
    [reflexivity|].
  destruct (APIClient.MonthlyUsage cl >=? APIClient.MonthlyLimit cl);
    reflexivity.
Qed.

(** What the middleware has established when it calls [c.Next()]. *)
Lemma APIKeyAuth_Next {B : Type} (c c' : Context B) (w w' : World) :
  APIKeyAuth E c w = (Next c', w') ->
  exists cl,
    c' = Set_client cl c /\
    client_by_key w (Header_X_API_Key c) = Some cl /\
    bcrypt_CompareHashAndPassword E (APIClient.APISecret cl)
      (Header_X_API_Secret c) = true /\
    APIClient.IsActive cl = true /\
    APIClient.DailyUsage cl < APIClient.DailyLimit cl /\
    APIClient.MonthlyUsage cl < APIClient.MonthlyLimit cl.
Proof.
  unfold APIKeyAuth, bind, ret, DB_First, client_by_key.
  destruct (String.eqb (Header_X_API_Key c) "" ||
            String.eqb (Header_X_API_Secret c) "")%bool; [discriminate|].
  destruct (find _ (clients w)) as [cl|]; [|discriminate].
  destruct (bcrypt_CompareHashAndPassword E _ _) eqn:Hb; [|discriminate].
  destruct (APIClient.IsActive cl) eqn:Ha; [|discriminate].
  cbn [negb].
  destruct (APIClient.DailyUsage cl >=? APIClient.DailyLimit cl) eqn:Hd;
    [discriminate|].
  destruct (APIClient.MonthlyUsage cl >=? APIClient.MonthlyLimit cl) eqn:Hm;
    [discriminate|].
  intros H. inversion H; subst.
  rewrite Z.geb_leb in Hd, Hm. apply Z.leb_gt in Hd, Hm.
  exists cl. repeat split; auto.
Qed.

Lemma sms_group_Next {B : Type} (handler : Context B -> M HTTPResponse)
  (c c' : Context B) (w w' : World) :
  APIKeyAuth E c w = (Next c', w') ->
  sms_group E handler c w = handler c' w'.
Proof. intros H. unfold sms_group, bind. now rewrite H. Qed.

Lemma sms_group_Abort {B : Type} (handler : Context B -> M HTTPResponse)
  (c : Context B) (r : HTTPResponse) (w w' : World) :
  APIKeyAuth E c w = (Abort r, w') ->
  sms_group E handler c w = (r, w').
Proof. intros H. unfold sms_group, bind. now rewrite H. Qed.

Lemma nonempty_eqb (s : string) : s <> "" -> String.eqb s "" = false.
Proof. intros H. now apply String.eqb_neq. Qed.

(** C1 (as amended).  For non-empty credentials, a key that exists with
    a secret that does not verify and a key that no client has are both
    answered 401 with the same success flag, the same message "Invalid
    API credentials" and no data; the two answers differ in the error
    detail, "API secret mismatch" against "API key not found".  Neither
    attempt changes the world. *)
Theorem invalid_credentials_responses {B : Type} (c1 c2 : Context B)
  (cl : APIClient.t) (w : World) :
  Header_X_API_Key c1 <> "" -> Header_X_API_Secret c1 <> "" ->
  Header_X_API_Key c2 <> "" -> Header_X_API_Secret c2 <> "" ->
  client_by_key w (Header_X_API_Key c1) = Some cl ->
  bcrypt_CompareHashAndPassword E (APIClient.APISecret cl)
    (Header_X_API_Secret c1) = false ->
  client_by_key w (Header_X_API_Key c2) = None ->
  exists r1 r2,
    APIKeyAuth E c1 w = (Abort r1, w) /\
    APIKeyAuth E c2 w = (Abort r2, w) /\
    status_code r1 = StatusUnauthorized /\
    status_code r2 = StatusUnauthorized /\
    SMSResponse.Success (body r1) = false /\
    SMSResponse.Success (body r2) = false /\
    SMSResponse.Message (body r1) = "Invalid API credentials" /\
    SMSResponse.Message (body r2) = "Invalid API credentials" /\
    SMSResponse.Data (body r1) = DataNone /\
    SMSResponse.Data (body r2) = DataNone /\
    SMSResponse.Error (body r1) = "API secret mismatch" /\
    SMSResponse.Error (body r2) = "API key not found".
Proof.
  intros Hk1 Hs1 Hk2 Hs2 Hfound Hbad Hnone.
  unfold client_by_key in Hfound, Hnone.
  eexists; eexists.
  split; [|split].
  - unfold APIKeyAuth, bind, ret, DB_First.
    rewrite (nonempty_eqb _ Hk1), (nonempty_eqb _ Hs1). cbn [orb].
    rewrite Hfound, Hbad. reflexivity.
  - unfold APIKeyAuth, bind, ret, DB_First.
    rewrite (nonempty_eqb _ Hk2), (nonempty_eqb _ Hs2). cbn [orb].
    rewrite Hnone. reflexivity.
  - repeat split.
Qed.

(* ------------------------------------------------------------------ *)
(** ** Delivery client *)
(* ------------------------------------------------------------------ *)

Lemma SendSMS_completes (msgs : list SMSRequest.t) (name body : string)
  (w : World) :
  http_completes E msgs name body ->
  SendSMS E msgs name w =
    (inr [provider_outcome E body],
     after_call w (EvProviderCall (GetAPIURL E) (payload_of E msgs name))).
Proof.
  intros [Hn Hd]. unfold SendSMS, provider_outcome, bind, ret, emit.
  fold (payload_of E msgs name). rewrite Hn, Hd.
  destruct (json_Unmarshal E body); reflexivity.
Qed.

Lemma SendSMS_fails (msgs : list SMSRequest.t) (name err : string)
  (w : World) :
  http_fails E msgs name err ->
  exists e w1, SendSMS E msgs name w = (inl e, w1).
Proof.
  unfold http_fails, SendSMS, bind, ret, emit.
  fold (payload_of E msgs name).
  intros [Hn|[Hn [Hd|Hd]]]; rewrite Hn; try rewrite Hd; eauto.
Qed.

(** The delivery client writes to no table, makes at most one upstream
    call, and a result without error is a single outcome. *)
Lemma SendSMS_frame (msgs : list SMSRequest.t) (name : string)
  (w w1 : World) (r : string + list SMSProviderResponse.t) :
  SendSMS E msgs name w = (r, w1) ->
  clients w1 = clients w /\ sms_logs w1 = sms_logs w /\
  uuids_drawn w1 = uuids_drawn w /\
  logs_created w1 = logs_created w /\
  client_saves w1 = client_saves w /\
  (provider_calls w1 <= S (provider_calls w))%nat /\
  match r with
  | inl _ => True
  | inr rs => exists o, rs = [o]
  end.
Proof.
  unfold SendSMS, bind, ret, emit. fold (payload_of E msgs name).
  unfold logs_created, client_saves, provider_calls.
  destruct (http_NewRequest E (GetAPIURL E)).
  - intros H; inversion H; subst. repeat split; auto.
  - destruct (http_Do E (GetAPIURL E) (payload_of E msgs name)) as [e|e|b];
      [| |destruct (json_Unmarshal E b)];
      intros H; inversion H; subst; cbn [clients sms_logs uuids_drawn trace];
      rewrite !count_events_app; cbn;
      repeat split; eauto; lia.
Qed.

(* ------------------------------------------------------------------ *)
(** ** Send orchestrator: one message *)
(* ------------------------------------------------------------------ *)

Lemma DB_Create_fresh (l : SMSLog.t) (w : World) :
  SMSLog.ID l = uuid_Nil -> SMSLog.CreatedAt l = time_zero ->
  DB_Create E l w =
    let stored :=
      SMSLog.with_Priority (stored_priority (SMSLog.Priority l))
        (SMSLog.with_CreatedAt (time_Now E)
           (SMSLog.with_ID (uuid_New E (uuids_drawn w)) l)) in
    ((stored, None),
     mkWorld (clients w) (sms_logs w ++ [stored]) (S (uuids_drawn w))
             (trace w ++ [EvCreateLog stored])).
Proof.
  intros Hid Ht. unfold DB_Create, bind, ret, uuid_fresh, emit.
  rewrite Hid, String.eqb_refl.
  cbn [SMSLog.CreatedAt SMSLog.with_ID]. rewrite Ht.
  change (time_zero =? time_zero)%Z with true. cbv iota.
  unfold stored_priority.
  destruct l as [i t cid rc m s p st ps pm e ip ua].
  cbn [SMSLog.Priority SMSLog.with_CreatedAt SMSLog.with_ID].
  destruct (String.eqb p ""); reflexivity.
Qed.

Lemma SendSingleSMS_error (c : Context SMSRequest.t) (req : SMSRequest.t)
  (cl : APIClient.t) (err : string) (w w1 : World) :
  ShouldBindJSON c = inr req ->
  ValidatePhone (SMSRequest.Number req) = true ->
  ctx_client c = Some cl ->
  SendSMS E [req] (APIClient.Name cl) w = (inl err, w1) ->
  SendSingleSMS E c w =
    let l := single_error_log E c cl req err (uuid_New E (uuids_drawn w1)) in
    (respond StatusInternalServerError false "Failed to send SMS"
       DataNone err,
     mkWorld (clients w1) (sms_logs w1 ++ [l]) (S (uuids_drawn w1))
             (trace w1 ++ [EvCreateLog l])).
Proof.
  intros Hb Hv Hc Hs. unfold SendSingleSMS.
  rewrite Hb, Hv, Hc. cbn [negb]. unfold bind at 1. rewrite Hs.
  unfold bind. rewrite DB_Create_fresh by reflexivity.
  reflexivity.
Qed.

Lemma SendSingleSMS_outcome (c : Context SMSRequest.t) (req : SMSRequest.t)
  (cl : APIClient.t) (o : SMSProviderResponse.t) (w w1 : World) :
  ShouldBindJSON c = inr req ->
  ValidatePhone (SMSRequest.Number req) = true ->
  ctx_client c = Some cl ->
  SendSMS E [req] (APIClient.Name cl) w = (inr [o], w1) ->
  SendSingleSMS E c w =
    let l := single_log E c cl req o (uuid_New E (uuids_drawn w1)) in
    if not_success o then
      (respond StatusOK false "SMS failed to send"
         (DataSingle (SMSLog.ID l) (SMSLog.Recipient l) "failed" None)
         (SMSProviderResponse.Message o),
       mkWorld (clients w1) (sms_logs w1 ++ [l]) (S (uuids_drawn w1))
               (trace w1 ++ [EvCreateLog l]))
    else
      (respond StatusOK true "SMS sent successfully"
         (DataSingle (SMSLog.ID l) (SMSLog.Recipient l) "sent"
            (Some ("Success", SMSProviderResponse.Message o)))
         "",
       mkWorld (upsert (charged E 1 cl) (clients w1)) (sms_logs w1 ++ [l])
               (S (uuids_drawn w1))
               ((trace w1 ++ [EvCreateLog l])
                ++ [EvSaveClient (charged E 1 cl)])).
Proof.
  intros Hb Hv Hc Hs. unfold SendSingleSMS.
  rewrite Hb, Hv, Hc. cbn [negb]. unfold bind at 1. rewrite Hs.
  unfold bind at 1. rewrite DB_Create_fresh by reflexivity.
  unfold single_log, single_verdict.
  destruct (not_success o); reflexivity.
Qed.

Lemma not_success_true (o : SMSProviderResponse.t) :
  not_success o = true <->
  SMSProviderResponse.Status o <> "Success" /\
  SMSProviderResponse.Status o <> "success".
Proof.
  unfold not_success, str_neq.
  destruct (String.eqb_spec (SMSProviderResponse.Status o) "Success");
    destruct (String.eqb_spec (SMSProviderResponse.Status o) "success");
    cbn; intuition congruence.
Qed.

Lemma not_success_false (o : SMSProviderResponse.t) :
  not_success o = false <->
  SMSProviderResponse.Status o = "Success" \/
  SMSProviderResponse.Status o = "success".
Proof.
  unfold not_success, str_neq.
  destruct (String.eqb_spec (SMSProviderResponse.Status o) "Success");
    destruct (String.eqb_spec (SMSProviderResponse.Status o) "success");
    cbn; intuition congruence.
Qed.

(** C2 (as amended).  When the provider call of a single send completes
    at the HTTP level, exactly one log entry is stored; it is marked
    [failed], with the provider's status and message captured, if and
    only if the status of the outcome is neither exactly "Success" nor
    exactly "success"; it is marked [sent] if and only if the status is
    one of these two spellings. *)
Theorem single_send_classification (c : Context SMSRequest.t)
  (req : SMSRequest.t) (cl : APIClient.t) (body : string) (w : World) :
  ShouldBindJSON c = inr req ->
  ValidatePhone (SMSRequest.Number req) = true ->
  ctx_client c = Some cl ->
  http_completes E [req] (APIClient.Name cl) body ->
  exists l,
    sms_logs (snd (SendSingleSMS E c w)) = (sms_logs w ++ [l])%list /\
    (SMSLog.Status l = "failed" <->
       SMSProviderResponse.Status (provider_outcome E body) <> "Success" /\
       SMSProviderResponse.Status (provider_outcome E body) <> "success") /\
    (SMSLog.Status l = "sent" <->
       SMSProviderResponse.Status (provider_outcome E body) = "Success" \/
       SMSProviderResponse.Status (provider_outcome E body) = "success") /\
    (SMSLog.Status l = "failed" ->
       SMSLog.ProviderStatus l
         = SMSProviderResponse.Status (provider_outcome E body) /\
       SMSLog.ProviderMessage l
         = SMSProviderResponse.Message (provider_outcome E body) /\
       SMSLog.Error l
         = SMSProviderResponse.Message (provider_outcome E body)).
Proof.
  intros Hb Hv Hc Hh.
  pose proof (SendSMS_completes _ _ _ w Hh) as Hs.
  rewrite (SendSingleSMS_outcome c req cl _ w _ Hb Hv Hc Hs). cbv zeta.
  set (o := provider_outcome E body).
  exists (single_log E c cl req o (uuid_New E (uuids_drawn w))).
  pose proof (not_success_true o) as Ht.
  pose proof (not_success_false o) as Hf.
  unfold single_log, single_verdict.
  destruct (not_success o); cbn [snd sms_logs after_call uuids_drawn
    SMSLog.Status SMSLog.ProviderStatus SMSLog.ProviderMessage SMSLog.Error
    v_status v_providerStatus v_providerMessage v_errorMsg].
  - split; [reflexivity|]. split; [|split].
    + split; [intros _; now apply Ht|reflexivity].
    + split; [discriminate|].
      intros H. apply Hf in H. discriminate H.
    + auto.
  - split; [reflexivity|]. split; [|split].
    + split; [discriminate|]. intros H. apply Ht in H. discriminate H.
    + split; [intros _; now apply Hf|reflexivity].
    + discriminate.
Qed.

(** C5.  A single send that passed validation and authentication stores
    exactly one log entry, marked [sent] or [failed].  When the entry is
    [sent] the client is saved once with both usage counters one higher
    and nothing else of it changed; when it is [failed] - which is the
    case on a transport error and on a provider outcome that is not a
    success - no client is saved and the client table is as before. *)
Theorem single_send_usage_accounting (c c' : Context SMSRequest.t)
  (req : SMSRequest.t) (cl : APIClient.t) (w : World) :
  APIKeyAuth E c w = (Next c', w) ->
  ctx_client c' = Some cl ->
  ShouldBindJSON c' = inr req ->
  ValidatePhone (SMSRequest.Number req) = true ->
  APIClient.wf cl ->
  exists l,
    let w' := snd (POST_sms_send E c w) in
    sms_logs w' = (sms_logs w ++ [l])%list /\
    logs_created w' = S (logs_created w) /\
    (SMSLog.Status l = "sent" \/ SMSLog.Status l = "failed") /\
    (SMSLog.Status l = "sent" ->
       exists cl',
         clients w' = upsert cl' (clients w) /\
         client_saves w' = S (client_saves w) /\
         APIClient.DailyUsage cl' = APIClient.DailyUsage cl + 1 /\
         APIClient.MonthlyUsage cl' = APIClient.MonthlyUsage cl + 1 /\
         APIClient.LastReset cl' = APIClient.LastReset cl /\
         same_identity_and_limits cl cl') /\
    (SMSLog.Status l = "failed" ->
       clients w' = clients w /\ client_saves w' = client_saves w) /\
    (forall err, http_fails E [req] (APIClient.Name cl) err ->
       SMSLog.Status l = "failed") /\
    (forall body, http_completes E [req] (APIClient.Name cl) body ->
       not_success (provider_outcome E body) = true ->
       SMSLog.Status l = "failed") /\
    (forall body, http_completes E [req] (APIClient.Name cl) body ->
       not_success (provider_outcome E body) = false ->
       SMSLog.Status l = "sent").
Proof.
  intros Hauth Hc Hb Hv Hwf.
  unfold POST_sms_send. rewrite (sms_group_Next _ _ _ _ _ Hauth).
  apply APIKeyAuth_Next in Hauth as (cl0 & -> & _ & _ & _ & Hd & Hm).
  cbn [Set_client ctx_client] in Hc. inversion Hc; subst cl0; clear Hc.
  set (c' := Set_client cl c) in *.
  assert (Hc : ctx_client c' = Some cl) by reflexivity.
  destruct Hwf as (_ & Hdl & Hml & Hdu & Hmu).
  assert (Hd1 : int_add (APIClient.DailyUsage cl) 1
                = APIClient.DailyUsage cl + 1).
  { apply int_add_exact. unfold is_int in *. lia. }
  assert (Hm1 : int_add (APIClient.MonthlyUsage cl) 1
                = APIClient.MonthlyUsage cl + 1).
  { apply int_add_exact. unfold is_int in *. lia. }
  destruct (SendSMS E [req] (APIClient.Name cl) w) as [r w1] eqn:Hs.
  pose proof (SendSMS_frame _ _ _ _ _ Hs) as (Hcl & Hlg & Hu & Hlc & Hsv & _ & Hr).
  destruct r as [err|rs].
  - (* the delivery client returned an error *)
    rewrite (SendSingleSMS_error c' req cl err w w1 Hb Hv Hc Hs). cbv zeta.
    eexists. cbn [snd sms_logs clients].
    split; [rewrite Hlg; reflexivity|].
    split; [unfold logs_created in *; cbn [trace];
            rewrite count_events_app, Hlc; cbn; lia|].
    split; [right; reflexivity|].
    split; [discriminate|].
    split; [intros _; split; [exact Hcl|];
            unfold client_saves in *; cbn [trace];
            rewrite count_events_app, Hsv; cbn; lia|].
    split; [reflexivity|].
    split; [reflexivity|].
    intros body Hh _. rewrite (SendSMS_completes _ _ _ w Hh) in Hs.
    discriminate Hs.
  - (* the delivery client returned an outcome *)
    destruct Hr as [o ->].
    rewrite (SendSingleSMS_outcome c' req cl o w w1 Hb Hv Hc Hs). cbv zeta.
    assert (Ho : forall body, http_completes E [req] (APIClient.Name cl) body ->
                 o = provider_outcome E body).
    { intros body Hh. rewrite (SendSMS_completes _ _ _ w Hh) in Hs.
      now inversion Hs. }
    assert (Hnf : forall err, ~ http_fails E [req] (APIClient.Name cl) err).
    { intros err Hf. destruct (SendSMS_fails _ _ _ w Hf) as (e & w2 & Hs').
      rewrite Hs' in Hs. discriminate Hs. }
    unfold single_log, single_verdict.
    destruct (not_success o) eqn:Hns; eexists;
      cbn [snd sms_logs clients SMSLog.Status v_status].
    + split; [rewrite Hlg; reflexivity|].
      split; [unfold logs_created in *; cbn [trace];
              rewrite count_events_app, Hlc; cbn; lia|].
      split; [right; reflexivity|].
      split; [discriminate|].
      split; [intros _; split; [exact Hcl|];
              unfold client_saves in *; cbn [trace];
              rewrite count_events_app, Hsv; cbn; lia|].
      split; [reflexivity|].
      split; [reflexivity|].
      intros body Hh Hn. rewrite <- (Ho body Hh), Hns in Hn. discriminate Hn.
    + split; [rewrite Hlg; reflexivity|].
      split; [unfold logs_created in *; cbn [trace];
              rewrite !count_events_app, Hlc; cbn; lia|].
      split; [left; reflexivity|].
      split.
      { intros _. exists (charged E 1 cl).
        split; [rewrite Hcl; reflexivity|].
        split; [unfold client_saves in *; cbn [trace];
                rewrite !count_events_app, Hsv; cbn; lia|].
        split; [exact Hd1|]. split; [exact Hm1|].
        split; [reflexivity|]. repeat split. }
      split; [discriminate|].
      split; [intros err Hf; destruct (Hnf err Hf)|].
      split; [|reflexivity].
      intros body Hh Hn. rewrite <- (Ho body Hh), Hns in Hn. discriminate Hn.
Qed.

(* ------------------------------------------------------------------ *)
(** ** Send orchestrator: a batch *)
(* ------------------------------------------------------------------ *)

Lemma response_at_single (o : SMSProviderResponse.t) (i : nat) :
  response_at [o] i = o.
Proof. destruct i as [|i]; reflexivity. Qed.

Lemma bulk_logs_length (c : Context BulkSMSRequest.t) (cid : UUID)
  (o : SMSProviderResponse.t) (msgs : list SMSRequest.t) :
  forall d, List.length (bulk_logs E c cid o d msgs) = List.length msgs.
Proof.
  induction msgs as [|m msgs IH]; intros d; cbn [bulk_logs List.length];
    [reflexivity|now rewrite IH].
Qed.

Lemma bulk_log_status (c : Context BulkSMSRequest.t) (cid : UUID)
  (o : SMSProviderResponse.t) (id : UUID) (m : SMSRequest.t) :
  SMSLog.Status (bulk_log E c cid o id m)
  = if not_success o then "failed" else "sent".
Proof. unfold bulk_log. now destruct (not_success o). Qed.

Lemma bulk_logs_status (c : Context BulkSMSRequest.t) (cid : UUID)
  (o : SMSProviderResponse.t) (msgs : list SMSRequest.t) :
  forall d,
    Forall (fun l => SMSLog.Status l
                     = if not_success o then "failed" else "sent")
           (bulk_logs E c cid o d msgs).
Proof.
  induction msgs as [|m msgs IH]; intros d; cbn [bulk_logs]; constructor.
  - apply bulk_log_status.
  - apply IH.
Qed.

(** One row per message, in the order of the messages. *)
Lemma bulk_logs_per_message (c : Context BulkSMSRequest.t) (cid : UUID)
  (o : SMSProviderResponse.t) (msgs : list SMSRequest.t) :
  forall d,
    Forall2 (fun m l =>
               SMSLog.ClientID l = cid /\
               SMSLog.Recipient l = FormatPhone (SMSRequest.Number m) /\
               SMSLog.Message l = SMSRequest.Message m /\
               SMSLog.SenderID l = SMSRequest.SenderID m /\
               SMSLog.Priority l = stored_priority (SMSRequest.Priority m))
            msgs (bulk_logs E c cid o d msgs).
Proof.
  induction msgs as [|m msgs IH]; intros d; cbn [bulk_logs]; constructor.
  - unfold bulk_log. destruct (not_success o); repeat split.
  - apply IH.
Qed.

Lemma bulk_logs_count_sent (c : Context BulkSMSRequest.t) (cid : UUID)
  (o : SMSProviderResponse.t) (msgs : list SMSRequest.t) :
  forall d,
    count_sent (bulk_logs E c cid o d msgs)
    = if not_success o then 0 else len msgs.
Proof.
  unfold count_sent.
  induction msgs as [|m msgs IH]; intros d; cbn [bulk_logs filter].
  - now destruct (not_success o).
  - unfold is_sent at 1. rewrite bulk_log_status.
    specialize (IH (S d)).
    destruct (not_success o); cbv iota.
    + change (String.eqb "failed" "sent") with false. cbv iota. exact IH.
    + change (String.eqb "sent" "sent") with true. cbv iota.
      rewrite !len_cons, IH. reflexivity.
Qed.

Lemma bulk_loop_single_outcome (c : Context BulkSMSRequest.t) (cid : UUID)
  (o : SMSProviderResponse.t) (msgs : list SMSRequest.t) :
  forall (i : nat) (acc : BulkAcc) (w : World),
    bulk_loop E c cid [o] i msgs acc w =
      let logs := bulk_logs E c cid o (uuids_drawn w) msgs in
      (mkBulkAcc
         (acc_results acc ++ map result_of logs)
         (if not_success o then successCount acc
          else successCount acc + len msgs)
         (if not_success o then failedCount acc + len msgs
          else failedCount acc),
       mkWorld (clients w) (sms_logs w ++ logs)
               (uuids_drawn w + List.length msgs)
               (trace w ++ map EvCreateLog logs)).
Proof.
  induction msgs as [|m msgs IH]; intros i acc w.
  - cbn [bulk_loop bulk_logs map List.length]. unfold ret, len.
    cbn [List.length Z.of_nat]. rewrite !app_nil_r, !Z.add_0_r, Nat.add_0_r.
    destruct acc, w. now destruct (not_success o).
  - cbn [bulk_loop]. unfold bind at 1.
    rewrite DB_Create_fresh by reflexivity. cbv zeta. cbn [fst].
    rewrite IH. cbv zeta.
    cbn [clients sms_logs uuids_drawn trace acc_results successCount
         failedCount bulk_logs map List.length].
    rewrite response_at_single, !len_cons, <- !app_assoc, Nat.add_succ_r.
    unfold bulk_log, result_of.
    destruct (not_success o);
      cbn [SMSLog.with_CreatedAt SMSLog.with_ID SMSLog.ID SMSLog.Recipient
           SMSLog.Status SMSLog.CreatedAt SMSLog.ClientID SMSLog.Message
           SMSLog.SenderID SMSLog.Priority SMSLog.ProviderStatus
           SMSLog.ProviderMessage SMSLog.Error SMSLog.IPAddress
           SMSLog.UserAgent v_status v_providerStatus v_providerMessage
           v_errorMsg app Nat.add];
      rewrite <- ?Z.add_assoc, ?(Z.add_comm 1 (len msgs)); reflexivity.
Qed.

Lemma SendBulkSMS_accepted (c : Context BulkSMSRequest.t)
  (req : BulkSMSRequest.t) (cl : APIClient.t) (body : string) (w : World) :
  ShouldBindJSON c = inr req ->
  first_invalid (BulkSMSRequest.Messages req) = None ->
  ctx_client c = Some cl ->
  (int_add (APIClient.DailyUsage cl) (len (BulkSMSRequest.Messages req))
   >? APIClient.DailyLimit cl) = false ->
  http_completes E (BulkSMSRequest.Messages req) (APIClient.Name cl) body ->
  SendBulkSMS E c w =
    let msgs := BulkSMSRequest.Messages req in
    let o := provider_outcome E body in
    let logs := bulk_logs E c (APIClient.ID cl) o (uuids_drawn w) msgs in
    let s := if not_success o then 0 else len msgs in
    let f := if not_success o then len msgs else 0 in
    (respond StatusOK true "Bulk SMS processing completed"
       (DataBulk (len msgs) s f (map result_of logs)) "",
     mkWorld (upsert (charged E s cl) (clients w)) (sms_logs w ++ logs)
             (uuids_drawn w + List.length msgs)
             (((trace w
                ++ [EvProviderCall (GetAPIURL E)
                      (payload_of E msgs (APIClient.Name cl))])
               ++ map EvCreateLog logs)
              ++ [EvSaveClient (charged E s cl)])).
Proof.
  intros Hb Hv Hc Hp Hh. unfold SendBulkSMS.
  rewrite Hb, Hv, Hc, Hp. unfold bind at 1.
  rewrite (SendSMS_completes _ _ _ w Hh).
  unfold bind at 1. rewrite bulk_loop_single_outcome. cbv zeta.
  cbn [successCount failedCount acc_results after_call clients sms_logs
       uuids_drawn trace app].
  unfold bind, ret, DB_Save, emit, charged.
  cbn [clients sms_logs uuids_drawn trace fst snd].
  destruct (not_success (provider_outcome E body)); reflexivity.
Qed.

(** C4.  A bulk send of N validated messages by a client whose daily
    usage plus N exceeds the daily limit (the sum being a Go [int]) is
    answered 429 and leaves the world as it was: no upstream call, no
    log entry, no change of a usage counter. *)
Theorem bulk_precheck_rejects (c : Context BulkSMSRequest.t)
  (req : BulkSMSRequest.t) (cl : APIClient.t) (w : World) :
  ShouldBindJSON c = inr req ->
  first_invalid (BulkSMSRequest.Messages req) = None ->
  ctx_client c = Some cl ->
  is_int (APIClient.DailyUsage cl + len (BulkSMSRequest.Messages req)) ->
  APIClient.DailyUsage cl + len (BulkSMSRequest.Messages req)
    > APIClient.DailyLimit cl ->
  SendBulkSMS E c w =
    (respond StatusTooManyRequests false
       "Bulk request would exceed daily limit" DataNone
       "Requested messages exceed available daily quota", w) /\
  provider_calls (snd (SendBulkSMS E c w)) = provider_calls w /\
  logs_created (snd (SendBulkSMS E c w)) = logs_created w /\
  sms_logs (snd (SendBulkSMS E c w)) = sms_logs w /\
  clients (snd (SendBulkSMS E c w)) = clients w.
Proof.
  intros Hb Hv Hc Hi Hgt.
  assert (Hrun : SendBulkSMS E c w =
    (respond StatusTooManyRequests false
       "Bulk request would exceed daily limit" DataNone
       "Requested messages exceed available daily quota", w)).
  { unfold SendBulkSMS. rewrite Hb, Hv, Hc, (int_add_exact _ _ Hi).
    apply Z.gtb_gt in Hgt. rewrite Hgt. reflexivity. }
  rewrite Hrun. repeat split.
Qed.

(** C6.  When the provider call of a bulk send of N messages by an
    authenticated client completes at the HTTP level, one log entry is
    stored per message, in order (an omitted priority stored as the
    default "1" of its column); the client is saved once, its row in
    the table updated and no row added, with both usage counters raised
    by the number of entries marked [sent]; the response reports
    [total] = N, [successful] = that number, [successful] + [failed] = N
    and one result per message. *)
Theorem bulk_send_accounting (c c' : Context BulkSMSRequest.t)
  (req : BulkSMSRequest.t) (cl : APIClient.t) (body : string) (w : World) :
  APIKeyAuth E c w = (Next c', w) ->
  ctx_client c' = Some cl ->
  ShouldBindJSON c' = inr req ->
  first_invalid (BulkSMSRequest.Messages req) = None ->
  (int_add (APIClient.DailyUsage cl) (len (BulkSMSRequest.Messages req))
   >? APIClient.DailyLimit cl) = false ->
  http_completes E (BulkSMSRequest.Messages req) (APIClient.Name cl) body ->
  exists logs cl' s f,
    let msgs := BulkSMSRequest.Messages req in
    let w' := snd (POST_sms_send_bulk E c w) in
    fst (POST_sms_send_bulk E c w) =
      respond StatusOK true "Bulk SMS processing completed"
        (DataBulk (len msgs) s f (map result_of logs)) "" /\
    sms_logs w' = (sms_logs w ++ logs)%list /\
    Forall2 (fun m l =>
               SMSLog.ClientID l = APIClient.ID cl /\
               SMSLog.Recipient l = FormatPhone (SMSRequest.Number m) /\
               SMSLog.Message l = SMSRequest.Message m /\
               SMSLog.SenderID l = SMSRequest.SenderID m /\
               SMSLog.Priority l = stored_priority (SMSRequest.Priority m))
            msgs logs /\
    logs_created w' = (logs_created w + List.length msgs)%nat /\
    provider_calls w' = S (provider_calls w) /\
    client_saves w' = S (client_saves w) /\
    In cl (clients w) /\
    clients w' = upsert cl' (clients w) /\
    In cl' (clients w') /\
    List.length (clients w') = List.length (clients w) /\
    s = count_sent logs /\
    s + f = len msgs /\
    APIClient.DailyUsage cl' = int_add (APIClient.DailyUsage cl) s /\
    APIClient.MonthlyUsage cl' = int_add (APIClient.MonthlyUsage cl) s /\
    (is_int (APIClient.DailyUsage cl + s) ->
     APIClient.DailyUsage cl' = APIClient.DailyUsage cl + s) /\
    (is_int (APIClient.MonthlyUsage cl + s) ->
     APIClient.MonthlyUsage cl' = APIClient.MonthlyUsage cl + s) /\
    APIClient.LastReset cl' = APIClient.LastReset cl /\
    same_identity_and_limits cl cl'.
Proof.
  intros Hauth Hc Hb Hv Hp Hh.
  unfold POST_sms_send_bulk. rewrite (sms_group_Next _ _ _ _ _ Hauth).
  apply APIKeyAuth_Next in Hauth as (cl0 & -> & Hkey & _).
  cbn [Set_client ctx_client] in Hc. inversion Hc; subst cl0; clear Hc.
  set (c' := Set_client cl c) in *.
  assert (Hc : ctx_client c' = Some cl) by reflexivity.
  assert (Hin : In cl (clients w)).
  { unfold client_by_key in Hkey. now apply find_some in Hkey as [H _]. }
  rewrite (SendBulkSMS_accepted c' req cl body w Hb Hv Hc Hp Hh). cbv zeta.
  set (msgs := BulkSMSRequest.Messages req).
  set (o := provider_outcome E body).
  set (logs := bulk_logs E c' (APIClient.ID cl) o (uuids_drawn w) msgs).
  set (s := if not_success o then 0 else len msgs).
  set (f := if not_success o then len msgs else 0).
  exists logs, (charged E s cl), s, f.
  cbn [fst snd sms_logs clients].
  split; [reflexivity|]. split; [reflexivity|].
  split; [apply bulk_logs_per_message|].
  unfold logs_created, provider_calls, client_saves. cbn [trace].
  rewrite !count_events_app, no_create_in_logs_map, no_save_in_logs_map,
    no_call_in_logs_map, length_map.
  unfold logs. rewrite bulk_logs_length, bulk_logs_count_sent.
  cbn [filter is_create_log is_save_client is_provider_call List.length].
  split; [lia|]. split; [lia|]. split; [lia|].
  split; [exact Hin|]. split; [reflexivity|].
  split; [apply (upsert_In _ cl); [exact Hin|reflexivity]|].
  split; [apply (upsert_length _ cl); [exact Hin|reflexivity]|].
  split; [reflexivity|].
  split; [unfold s, f; destruct (not_success o); lia|].
  split; [reflexivity|]. split; [reflexivity|].
  split; [intros Hi; exact (int_add_exact _ _ Hi)|].
  split; [intros Hi; exact (int_add_exact _ _ Hi)|].
  split; [reflexivity|]. repeat split.
Qed.

(** C7.  When the provider call of a bulk send completes at the HTTP
    level the delivery client returns a single outcome, every stored
    entry and every per-message result carries the verdict of that one
    outcome, and so the response has [successful] = N and [failed] = 0,
    or [failed] = N and [successful] = 0. *)
Theorem bulk_send_uniform (c : Context BulkSMSRequest.t)
  (req : BulkSMSRequest.t) (cl : APIClient.t) (body : string) (w : World) :
  ShouldBindJSON c = inr req ->
  first_invalid (BulkSMSRequest.Messages req) = None ->
  ctx_client c = Some cl ->
  (int_add (APIClient.DailyUsage cl) (len (BulkSMSRequest.Messages req))
   >? APIClient.DailyLimit cl) = false ->
  http_completes E (BulkSMSRequest.Messages req) (APIClient.Name cl) body ->
  exists o results s f,
    let msgs := BulkSMSRequest.Messages req in
    fst (SendSMS E msgs (APIClient.Name cl) w) = inr [o] /\
    fst (SendBulkSMS E c w) =
      respond StatusOK true "Bulk SMS processing completed"
        (DataBulk (len msgs) s f results) "" /\
    List.length results = List.length msgs /\
    Forall (fun r => result_status r
                     = if not_success o then "failed" else "sent") results /\
    ((s = len msgs /\ f = 0) \/ (s = 0 /\ f = len msgs)).
Proof.
  intros Hb Hv Hc Hp Hh.
  exists (provider_outcome E body),
    (map result_of
       (bulk_logs E c (APIClient.ID cl) (provider_outcome E body)
          (uuids_drawn w) (BulkSMSRequest.Messages req))),
    (if not_success (provider_outcome E body) then 0
     else len (BulkSMSRequest.Messages req)),
    (if not_success (provider_outcome E body)
     then len (BulkSMSRequest.Messages req) else 0).
  cbv zeta.
  rewrite (SendBulkSMS_accepted c req cl body w Hb Hv Hc Hp Hh),
    (SendSMS_completes _ _ _ w Hh). cbv zeta.
  set (o := provider_outcome E body). cbn [fst].
  split; [reflexivity|]. split; [reflexivity|].
  split; [now rewrite length_map, bulk_logs_length|].
  split.
  - apply Forall_map.
    eapply Forall_impl; [|apply bulk_logs_status].
    intros l Hl. exact Hl.
  - destruct (not_success o); [right|left]; split; reflexivity.
Qed.


(* ------------------------------------------------------------------ *)
(** ** Administrative usage reset *)
(* ------------------------------------------------------------------ *)

(** C10.  For every client the reset handler finds - whatever its usage
    and limits - the handler answers 200 and saves the client with both
    usage counters at 0 and [LastReset] at the instant of the reset;
    name, email, API key, stored secret hash, active flag and the three
    limits (and id, creation and deletion stamps) are as before, the
    saved row is the one a later lookup finds, and no other row and no
    log entry changes. *)
Theorem reset_usage_frame (c : Context unit) (cl : APIClient.t) (w : World) :
  client_by_id w (Param_id c) = Some cl ->
  exists cl',
    let w' := snd (ResetClientUsage E c w) in
    fst (ResetClientUsage E c w) =
      respond StatusOK true "Client usage reset successfully" DataNone "" /\
    clients w' = upsert cl' (clients w) /\
    client_by_id w' (Param_id c) = Some cl' /\
    APIClient.DailyUsage cl' = 0 /\
    APIClient.MonthlyUsage cl' = 0 /\
    APIClient.LastReset cl' = time_Now E /\
    same_identity_and_limits cl cl' /\
    (forall r, In r (clients w) -> APIClient.ID r <> APIClient.ID cl ->
               In r (clients w')) /\
    sms_logs w' = sms_logs w /\
    client_saves w' = S (client_saves w).
Proof.
  intros Hfind. exists (reset E cl).
  assert (Hrun : ResetClientUsage E c w =
    (respond StatusOK true "Client usage reset successfully" DataNone "",
     mkWorld (upsert (reset E cl) (clients w)) (sms_logs w) (uuids_drawn w)
             (trace w ++ [EvSaveClient (reset E cl)]))).
  { unfold ResetClientUsage, bind, ret, DB_First, DB_Save, emit.
    unfold client_by_id in Hfind. rewrite Hfind. reflexivity. }
  rewrite Hrun. cbv zeta. cbn [fst snd clients sms_logs].
  split; [reflexivity|]. split; [reflexivity|].
  split.
  { unfold client_by_id in *. cbn [clients].
    apply (find_by_id_upsert cl); [exact Hfind|reflexivity|].
    apply find_some in Hfind as [_ H]. apply andb_prop in H as [_ H].
    exact H. }
  split; [reflexivity|]. split; [reflexivity|]. split; [reflexivity|].
  split; [repeat split|].
  split; [intros r Hin Hne; now apply upsert_others|].
  split; [reflexivity|].
  unfold client_saves. cbn [trace]. rewrite count_events_app. cbn. lia.
Qed.

End Properties.

(* ================================================================== *)
(** * The properties on the concrete deployment *)
(* ================================================================== *)

(** C1 (as stated) fails: with the key of a client and a wrong secret
    the body says "API secret mismatch", with a key nobody has it says
    "API key not found". *)
Lemma invalid_credentials_distinguished :
  let w := demo_world demo_busy in
  let known : Context unit :=
    demo_context "key-acme" "wrong" (inr tt) None in
  let unknown : Context unit :=
    demo_context "key-nobody" "wrong" (inr tt) None in
  client_by_key w "key-acme" = Some demo_busy /\
  bcrypt_CompareHashAndPassword demo_ok_env
    (APIClient.APISecret demo_busy) "wrong" = false /\
  client_by_key w "key-nobody" = None /\
  fst (APIKeyAuth demo_ok_env known w)
  = Abort (respond StatusUnauthorized false "Invalid API credentials"
             DataNone "API secret mismatch") /\
  fst (APIKeyAuth demo_ok_env unknown w)
  = Abort (respond StatusUnauthorized false "Invalid API credentials"
             DataNone "API key not found") /\
  fst (APIKeyAuth demo_ok_env known w)
  <> fst (APIKeyAuth demo_ok_env unknown w).
Proof.
  cbv zeta. repeat split. vm_compute. discriminate.
Qed.

Lemma invalid_credentials_responses_witness :
  let w := demo_world demo_busy in
  let known : Context unit :=
    demo_context "key-acme" "wrong" (inr tt) None in
  let unknown : Context unit :=
    demo_context "key-nobody" "wrong" (inr tt) None in
  exists r1 r2,
    APIKeyAuth demo_ok_env known w = (Abort r1, w) /\
    APIKeyAuth demo_ok_env unknown w = (Abort r2, w) /\
    status_code r1 = status_code r2 /\
    SMSResponse.Message (body r1) = SMSResponse.Message (body r2).
Proof.
  cbv zeta.
  destruct (invalid_credentials_responses demo_ok_env
              (demo_context "key-acme" "wrong" (inr tt) None)
              (demo_context "key-nobody" "wrong" (inr tt) None)
              demo_busy (demo_world demo_busy))
    as (r1 & r2 & H1 & H2 & Hs1 & Hs2 & _ & _ & Hm1 & Hm2 & _);
    try discriminate; try reflexivity.
  exists r1, r2. repeat split; try assumption; congruence.
Defined.

(** C2 (as stated) fails: the status "SUCCESS" is a case-insensitive
    match of "success", and the entry is marked [failed]. *)
Lemma upper_case_success_is_failed :
  let c : Context SMSRequest.t :=
    demo_context "key-acme" "s3cret" (inr (demo_sms "0701234567"))
                 (Some demo_busy) in
  let w := demo_world demo_busy in
  EqualFold "SUCCESS" "success" = true /\
  fst (SendSMS demo_upper_env [demo_sms "0701234567"] "Acme" w)
  = inr [SMSProviderResponse.mk "SUCCESS" "queued"] /\
  map SMSLog.Status (sms_logs (snd (SendSingleSMS demo_upper_env c w)))
  = ["failed"] /\
  map SMSLog.ProviderStatus
      (sms_logs (snd (SendSingleSMS demo_upper_env c w)))
  = ["SUCCESS"].
Proof. cbv zeta. repeat split. Qed.

Lemma single_send_classification_witness :
  let c : Context SMSRequest.t :=
    demo_context "key-acme" "s3cret" (inr (demo_sms "0701234567"))
                 (Some demo_busy) in
  let w := demo_world demo_busy in
  exists l,
    sms_logs (snd (SendSingleSMS demo_ok_env c w)) = [l] /\
    SMSLog.Status l = "sent".
Proof.
  cbv zeta.
  destruct (single_send_classification demo_ok_env
              (demo_context "key-acme" "s3cret"
                 (inr (demo_sms "0701234567")) (Some demo_busy))
              (demo_sms "0701234567") demo_busy "OK"
              (demo_world demo_busy))
    as (l & Hl & _ & Hsent & _);
    [reflexivity|reflexivity|reflexivity|split; reflexivity|].
  exists l. split; [exact Hl|].
  apply Hsent. left. reflexivity.
Defined.

Lemma single_send_usage_accounting_witness :
  let c : Context SMSRequest.t :=
    demo_context "key-acme" "s3cret" (inr (demo_sms "0701234567")) None in
  let w := demo_world demo_busy in
  exists l,
    sms_logs (snd (POST_sms_send demo_ok_env c w)) = [l] /\
    (SMSLog.Status l = "sent" \/ SMSLog.Status l = "failed").
Proof.
  cbv zeta.
  destruct (single_send_usage_accounting demo_ok_env
              (demo_context "key-acme" "s3cret"
                 (inr (demo_sms "0701234567")) None)
              (Set_client demo_busy
                 (demo_context "key-acme" "s3cret"
                    (inr (demo_sms "0701234567")) None))
              (demo_sms "0701234567") demo_busy (demo_world demo_busy))
    as (l & Hl & _ & Hst & _);
    [reflexivity|reflexivity|reflexivity|reflexivity| |].
  - unfold APIClient.wf, is_int. vm_compute. intuition discriminate.
  - exists l. split; [exact Hl|exact Hst].
Defined.

Lemma bulk_precheck_rejects_witness :
  let c : Context BulkSMSRequest.t :=
    demo_context "key-acme" "s3cret" (inr demo_batch3) (Some demo_busy) in
  let w := demo_world demo_busy in
  APIClient.DailyUsage demo_busy = APIClient.DailyLimit demo_busy - 2 /\
  snd (SendBulkSMS demo_ok_env c w) = w /\
  status_code (fst (SendBulkSMS demo_ok_env c w)) = StatusTooManyRequests.
Proof.
  cbv zeta.
  destruct (bulk_precheck_rejects demo_ok_env
              (demo_context "key-acme" "s3cret" (inr demo_batch3)
                 (Some demo_busy))
              demo_batch3 demo_busy (demo_world demo_busy))
    as (Hrun & _);
    [reflexivity|reflexivity|reflexivity| |reflexivity|].
  - unfold is_int. vm_compute. intuition discriminate.
  - rewrite Hrun. repeat split.
Defined.

(** A batch of two messages that give no priority: both rows are
    stored with priority "1", and the one row of the client is
    updated. *)
Lemma bulk_send_accounting_witness :
  let c : Context BulkSMSRequest.t :=
    demo_context "key-acme" "s3cret" (inr demo_batch2) None in
  let w := demo_world demo_busy in
  exists logs cl' s f,
    sms_logs (snd (POST_sms_send_bulk demo_ok_env c w)) = logs /\
    Forall (fun l => SMSLog.Priority l = "1") logs /\
    clients (snd (POST_sms_send_bulk demo_ok_env c w))
    = upsert cl' [demo_busy] /\
    List.length (clients (snd (POST_sms_send_bulk demo_ok_env c w))) = 1%nat /\
    s = count_sent logs /\ s + f = 2.
Proof.
  cbv zeta.
  destruct (bulk_send_accounting demo_ok_env
              (demo_context "key-acme" "s3cret" (inr demo_batch2) None)
              (Set_client demo_busy
                 (demo_context "key-acme" "s3cret" (inr demo_batch2) None))
              demo_batch2 demo_busy "OK" (demo_world demo_busy))
    as (logs & cl' & s & f & _ & Hl & Hrows & _ & _ & _ & _ & Hc & _ & Hn
        & Hs & Hsf & _);
    [reflexivity|reflexivity|reflexivity|reflexivity|reflexivity
    |split; reflexivity|].
  exists logs, cl', s, f.
  split; [exact Hl|].
  split; [|split; [exact Hc|split; [exact Hn|split; assumption]]].
  cbn [demo_batch2 BulkSMSRequest.Messages] in Hrows.
  inversion Hrows as [|m1 l1 ms1 ls1 (_ & _ & _ & _ & H1) Hrest]; subst.
  inversion Hrest as [|m2 l2 ms2 ls2 (_ & _ & _ & _ & H2) Hnil]; subst.
  inversion Hnil; subst.
  repeat constructor; assumption.
Defined.

Lemma bulk_send_uniform_witness :
  let c : Context BulkSMSRequest.t :=
    demo_context "key-acme" "s3cret" (inr demo_batch2) (Some demo_busy) in
  let w := demo_world demo_busy in
  exists results s f,
    fst (SendBulkSMS demo_ok_env c w) =
      respond StatusOK true "Bulk SMS processing completed"
        (DataBulk 2 s f results) "" /\
    ((s = 2 /\ f = 0) \/ (s = 0 /\ f = 2)).
Proof.
  cbv zeta.
  destruct (bulk_send_uniform demo_ok_env
              (demo_context "key-acme" "s3cret" (inr demo_batch2)
                 (Some demo_busy))
              demo_batch2 demo_busy "OK" (demo_world demo_busy))
    as (o & results & s & f & _ & Hr & _ & _ & Hsf);
    [reflexivity|reflexivity|reflexivity|reflexivity|split; reflexivity|].
  exists results, s, f. split; [exact Hr|exact Hsf].
Defined.


(** The reset of a client that stands at both of its limits. *)
Lemma reset_usage_frame_witness :
  let c : Context unit := demo_context "" "" (inr tt) None in
  let w := demo_world demo_exhausted in
  APIClient.DailyUsage demo_exhausted >= APIClient.DailyLimit demo_exhausted /\
  exists cl',
    client_by_id (snd (ResetClientUsage demo_ok_env c w)) "c-1" = Some cl' /\
    APIClient.DailyUsage cl' = 0 /\
    APIClient.MonthlyUsage cl' = 0 /\
    APIClient.LastReset cl' = time_Now demo_ok_env /\
    same_identity_and_limits demo_exhausted cl'.
Proof.
  cbv zeta. split; [vm_compute; discriminate|].
  destruct (reset_usage_frame demo_ok_env
              (demo_context "" "" (inr tt) None) demo_exhausted
              (demo_world demo_exhausted))
    as (cl' & _ & _ & Hf & Hd & Hm & Hl & Hs & _);
    [reflexivity|].
  exists cl'. repeat split; try assumption; apply Hs.
Defined.

(* ================================================================== *)
(** * Further properties of the code *)
(* ================================================================== *)

(* ------------------------------------------------------------------ *)
(** ** Phone normaliser *)
(* ------------------------------------------------------------------ *)

Lemma count_string_app (p : ascii -> bool) (s t : string) :
  count_string p (s ++ t) = (count_string p s + count_string p t)%nat.
Proof.
  induction s as [|a s IH]; [reflexivity|].
  change (String a s ++ t) with (String a (s ++ t)).
  cbn [count_string]. rewrite IH. now destruct (p a).
Qed.

Lemma is_digit_keeps (a : ascii) : is_digit a = true -> keeps a = true.
Proof. unfold keeps. now intros ->. Qed.

Lemma count_digits_cleaned (s : string) :
  count_digits (remove_non_digit_plus s) = count_digits s.
Proof.
  unfold count_digits, remove_non_digit_plus.
  induction s as [|a s IH]; [reflexivity|].
  cbn [filter_string count_string].
  destruct (is_digit a) eqn:Hd.
  - rewrite (is_digit_keeps _ Hd). cbn [count_string]. now rewrite Hd, IH.
  - destruct (keeps a); cbn [count_string]; [rewrite Hd|]; exact IH.
Qed.

Lemma count_TrimLeft_zero (p : ascii -> bool) (s : string) :
  (count_string p (TrimLeft_zero s) <= count_string p s)%nat.
Proof.
  induction s as [|a s IH]; [apply Nat.le_refl|].
  change (TrimLeft_zero (String a s))
    with (if Ascii.eqb a zero_digit then TrimLeft_zero s else String a s).
  destruct (Ascii.eqb a zero_digit); [|apply Nat.le_refl].
  cbn [count_string]. destruct (p a); lia.
Qed.

Lemma FormatPhone_of_cleaned (s t : string) :
  remove_non_digit_plus s = remove_non_digit_plus t ->
  FormatPhone s = FormatPhone t.
Proof. intros H. unfold FormatPhone. now rewrite H. Qed.

(** X1.  A byte that is neither a digit nor a plus sign (a space, a
    dash, a bracket, a letter) makes no difference wherever it stands:
    the normalised number and the validity verdict are those of the
    string without it. *)
Theorem FormatPhone_ignores_separators (s t : string) (a : ascii) :
  keeps a = false ->
  FormatPhone (s ++ String a t) = FormatPhone (s ++ t) /\
  ValidatePhone (s ++ String a t) = ValidatePhone (s ++ t).
Proof.
  intros Ha.
  assert (H : FormatPhone (s ++ String a t) = FormatPhone (s ++ t)).
  { apply FormatPhone_of_cleaned. unfold remove_non_digit_plus.
    rewrite !filter_string_app. cbn [filter_string]. now rewrite Ha. }
  split; [exact H|]. unfold ValidatePhone. now rewrite H.
Qed.

(** X2.  The normalised number always starts with a plus sign and holds
    nothing but digits and plus signs; when the cleaned input does not
    start with a plus sign the result starts with +256, and when the
    input holds no plus sign at all everything after the leading plus
    sign is a digit. *)
Theorem FormatPhone_shape (raw : string) :
  HasPrefix (FormatPhone raw) "+" = true /\
  forall_string keeps (FormatPhone raw) = true /\
  (HasPrefix (remove_non_digit_plus raw) "+" = false ->
   HasPrefix (FormatPhone raw) "+256" = true) /\
  (count_string (Ascii.eqb plus_sign) raw = O ->
   exists digits,
     FormatPhone raw = "+" ++ digits /\
     forall_string is_digit digits = true).
Proof.
  split; [apply FormatPhone_leading_plus|].
  split; [apply FormatPhone_keeps|].
  split.
  - intros Hp. rewrite FormatPhone_unfold. cbv zeta. rewrite Hp.
    destruct (HasPrefix (TrimLeft_zero (remove_non_digit_plus raw))
                country_code) eqn:Hc.
    + change (HasPrefix ("+" ++ TrimLeft_zero (remove_non_digit_plus raw))
                "+256")
        with (Ascii.eqb "+" "+"
              && HasPrefix (TrimLeft_zero (remove_non_digit_plus raw))
                   country_code)%bool.
      now rewrite Hc.
    + reflexivity.
  - intros Hn.
    assert (Hd : forall s, count_string (Ascii.eqb plus_sign) s = O ->
                 forall_string is_digit (filter_string keeps s) = true).
    { induction s as [|a s IH]; [reflexivity|].
      cbn [count_string filter_string]. unfold keeps at 1.
      rewrite (Ascii.eqb_sym a plus_sign).
      destruct (Ascii.eqb plus_sign a); [discriminate|].
      intros H. rewrite orb_false_r.
      destruct (is_digit a) eqn:Ha; cbn [forall_string];
        [rewrite Ha|]; now apply IH. }
    specialize (Hd raw Hn). fold (remove_non_digit_plus raw) in Hd.
    assert (Hp : HasPrefix (remove_non_digit_plus raw) "+" = false).
    { destruct (remove_non_digit_plus raw) as [|b r]; [reflexivity|].
      cbn [forall_string] in Hd. apply andb_prop in Hd as [Hb _].
      change (HasPrefix (String b r) "+") with (Ascii.eqb "+" b && true)%bool.
      rewrite andb_true_r.
      destruct (Ascii.eqb_spec "+"%char b) as [<-|]; [discriminate Hb|].
      reflexivity. }
    pose proof (forall_TrimLeft_zero is_digit _ Hd) as Ht.
    rewrite FormatPhone_unfold. cbv zeta. rewrite Hp.
    destruct (HasPrefix (TrimLeft_zero (remove_non_digit_plus raw))
                country_code).
    + eexists. split; [reflexivity|exact Ht].
    + exists (country_code ++ TrimLeft_zero (remove_non_digit_plus raw)).
      split; [reflexivity|].
      rewrite forall_string_app, Ht. reflexivity.
Qed.

(** X3.  Normalisation adds at most the three digits of the country
    code, so a number is valid only when the raw string holds at least
    seven digits (a string without digits, the empty one included, is
    never valid); for an input whose cleaned form starts with a plus
    sign the digits are counted as they are, and the number is valid
    exactly when it holds 10 to 15 digits. *)
Theorem ValidatePhone_digit_bounds (raw : string) :
  (count_digits (FormatPhone raw) <= count_digits raw + 3)%nat /\
  (ValidatePhone raw = true -> (7 <= count_digits raw)%nat) /\
  (HasPrefix (remove_non_digit_plus raw) "+" = true ->
   count_digits (FormatPhone raw) = count_digits raw /\
   (ValidatePhone raw = true <->
    (10 <= count_digits raw <= 15)%nat)).
Proof.
  assert (Hle : (count_digits (FormatPhone raw) <= count_digits raw + 3)%nat).
  { rewrite FormatPhone_unfold. cbv zeta.
    pose proof (count_digits_cleaned raw) as Hc.
    pose proof (count_TrimLeft_zero is_digit (remove_non_digit_plus raw))
      as Ht.
    fold (count_digits (remove_non_digit_plus raw)) in Ht.
    fold (count_digits (TrimLeft_zero (remove_non_digit_plus raw))) in Ht.
    destruct (HasPrefix (remove_non_digit_plus raw) "+"); [lia|].
    destruct (HasPrefix (TrimLeft_zero (remove_non_digit_plus raw))
                country_code);
      unfold count_digits in *; rewrite !count_string_app;
      change (count_string is_digit "+") with O;
      change (count_string is_digit country_code) with 3%nat; lia. }
  split; [exact Hle|]. split.
  - unfold ValidatePhone. cbv zeta. intros H.
    apply andb_prop in H as [H _]. apply Nat.leb_le in H. lia.
  - intros Hp.
    assert (Heq : count_digits (FormatPhone raw) = count_digits raw).
    { rewrite FormatPhone_unfold. cbv zeta. rewrite Hp.
      apply count_digits_cleaned. }
    split; [exact Heq|].
    unfold ValidatePhone. cbv zeta. rewrite Heq.
    rewrite andb_true_iff, !Nat.leb_le. reflexivity.
Qed.

Section MoreProperties.

Variable E : Env.
Variable P : Platform.

(* ------------------------------------------------------------------ *)
(** ** Authenticator *)
(* ------------------------------------------------------------------ *)

Lemma eqb_empty_false (s : string) : String.eqb s "" = false -> s <> "".
Proof. intros H. now apply String.eqb_neq. Qed.

(** X4.  [APIKeyAuth] lets a request through exactly when both headers
    are non-empty, a live client has the key, the secret verifies
    against its stored hash, the client is active and both usages are
    below their limits; the context it passes on is the one of the
    request with that client attached, and the world is as before. *)
Theorem APIKeyAuth_admits_iff {B : Type} (c : Context B) (w : World) :
  (forall c' w', APIKeyAuth E c w = (Next c', w') ->
     w' = w /\ exists cl, c' = Set_client cl c) /\
  (forall cl,
     APIKeyAuth E c w = (Next (Set_client cl c), w) <->
     Header_X_API_Key c <> "" /\ Header_X_API_Secret c <> "" /\
     client_by_key w (Header_X_API_Key c) = Some cl /\
     bcrypt_CompareHashAndPassword E (APIClient.APISecret cl)
       (Header_X_API_Secret c) = true /\
     APIClient.IsActive cl = true /\
     APIClient.DailyUsage cl < APIClient.DailyLimit cl /\
     APIClient.MonthlyUsage cl < APIClient.MonthlyLimit cl).
Proof.
  split.
  - intros c' w' H.
    pose proof (APIKeyAuth_reads E c w) as Hw. rewrite H in Hw.
    cbn [snd] in Hw. split; [exact Hw|].
    apply APIKeyAuth_Next in H as (cl & -> & _). now exists cl.
  - intros cl. split.
    + intros H.
      assert (Hne : Header_X_API_Key c <> "" /\ Header_X_API_Secret c <> "").
      { revert H. unfold APIKeyAuth, bind, ret.
        destruct (String.eqb (Header_X_API_Key c) "") eqn:Hk;
          [discriminate|].
        destruct (String.eqb (Header_X_API_Secret c) "") eqn:Hs;
          [discriminate|].
        intros _. split; now apply eqb_empty_false. }
      apply APIKeyAuth_Next in H as (cl0 & Hc & Hf & Hb & Ha & Hd & Hm).
      assert (cl0 = cl).
      { apply (f_equal ctx_client) in Hc. cbn [Set_client ctx_client] in Hc.
        now inversion Hc. }
      subst cl0. tauto.
    + intros (Hk & Hs & Hf & Hb & Ha & Hd & Hm).
      unfold APIKeyAuth, bind, ret, DB_First.
      rewrite (nonempty_eqb _ Hk), (nonempty_eqb _ Hs). cbn [orb].
      unfold client_by_key in Hf. rewrite Hf, Hb, Ha. cbn [negb].
      rewrite !Z.geb_leb.
      destruct (Z.leb_spec (APIClient.DailyLimit cl) (APIClient.DailyUsage cl));
        [lia|].
      destruct (Z.leb_spec (APIClient.MonthlyLimit cl)
                           (APIClient.MonthlyUsage cl)); [lia|].
      reflexivity.
Qed.

(** X5.  The refusals of [APIKeyAuth], in the order the checks are
    made: an empty key or secret is answered 401 "Missing API
    credentials" whatever the database holds; for credentials that
    verify, an inactive client is answered 403 whatever its usage, an
    active client at or above its daily limit 429 "Daily limit
    exceeded" whatever its monthly usage, and only then a client at or
    above its monthly limit 429 "Monthly limit exceeded".  No case
    changes the world. *)
Theorem APIKeyAuth_refusals {B : Type} (c : Context B) (w : World) :
  snd (APIKeyAuth E c w) = w /\
  (Header_X_API_Key c = "" \/ Header_X_API_Secret c = "" ->
   fst (APIKeyAuth E c w) =
     Abort (respond StatusUnauthorized false "Missing API credentials"
              DataNone "X-API-Key and X-API-Secret headers are required")) /\
  (forall cl,
     Header_X_API_Key c <> "" -> Header_X_API_Secret c <> "" ->
     client_by_key w (Header_X_API_Key c) = Some cl ->
     bcrypt_CompareHashAndPassword E (APIClient.APISecret cl)
       (Header_X_API_Secret c) = true ->
     (APIClient.IsActive cl = false ->
      fst (APIKeyAuth E c w) =
        Abort (respond StatusForbidden false "API client is inactive"
                 DataNone "Your API access has been suspended")) /\
     (APIClient.IsActive cl = true ->
      APIClient.DailyUsage cl >= APIClient.DailyLimit cl ->
      fst (APIKeyAuth E c w) =
        Abort (respond StatusTooManyRequests false "Daily limit exceeded"
                 DataNone "You have reached your daily SMS limit")) /\
     (APIClient.IsActive cl = true ->
      APIClient.DailyUsage cl < APIClient.DailyLimit cl ->
      APIClient.MonthlyUsage cl >= APIClient.MonthlyLimit cl ->
      fst (APIKeyAuth E c w) =
        Abort (respond StatusTooManyRequests false "Monthly limit exceeded"
                 DataNone "You have reached your monthly SMS limit"))).
Proof.
  split; [apply APIKeyAuth_reads|]. split.
  - intros H. unfold APIKeyAuth, bind, ret.
    destruct H as [-> | ->]; cbn [String.eqb orb]; [reflexivity|].
    now rewrite orb_true_r.
  - intros cl Hk Hs Hf Hb.
    unfold APIKeyAuth, bind, ret, DB_First.
    rewrite (nonempty_eqb _ Hk), (nonempty_eqb _ Hs). cbn [orb].
    unfold client_by_key in Hf. rewrite Hf, Hb. cbn [negb fst].
    split; [|split].
    + intros ->. reflexivity.
    + intros -> Hd. cbn [negb]. apply Z.ge_le in Hd.
      apply Z.geb_le in Hd. now rewrite Hd.
    + intros -> Hd Hm. cbn [negb].
      rewrite !Z.geb_leb.
      destruct (Z.leb_spec (APIClient.DailyLimit cl) (APIClient.DailyUsage cl));
        [lia|].
      destruct (Z.leb_spec (APIClient.MonthlyLimit cl)
                           (APIClient.MonthlyUsage cl)); [reflexivity|lia].
Qed.

(** X6.  When the middleware refuses a request the handler behind it
    does not run: the route answers with the refusal and the world is
    as before - no upstream call, no log entry, no client saved. *)
Theorem refused_request_has_no_effect {B : Type}
  (handler : Context B -> M HTTPResponse) (c : Context B) (w : World)
  (r : HTTPResponse) :
  fst (APIKeyAuth E c w) = Abort r ->
  sms_group E handler c w = (r, w) /\
  (status_code r = StatusUnauthorized \/ status_code r = StatusForbidden \/
   status_code r = StatusTooManyRequests) /\
  SMSResponse.Success (body r) = false.
Proof.
  intros H.
  assert (Hrun : APIKeyAuth E c w = (Abort r, w)).
  { rewrite (surjective_pairing (APIKeyAuth E c w)), H, APIKeyAuth_reads.
    reflexivity. }
  split; [now apply sms_group_Abort|].
  revert H. unfold APIKeyAuth, bind, ret, DB_First. cbn [fst].
  destruct (String.eqb (Header_X_API_Key c) "" ||
            String.eqb (Header_X_API_Secret c) "")%bool;
    [intros H; inversion H; subst; cbn; auto|].
  destruct (find _ (clients w)) as [cl|];
    [|intros H; inversion H; subst; cbn; auto].
  destruct (bcrypt_CompareHashAndPassword E _ _); cbn [negb];
    [|intros H; inversion H; subst; cbn; auto].
  destruct (APIClient.IsActive cl); cbn [negb];
    [|intros H; inversion H; subst; cbn; auto].
  destruct (APIClient.DailyUsage cl >=? APIClient.DailyLimit cl);
    [intros H; inversion H; subst; cbn; auto|].
  destruct (APIClient.MonthlyUsage cl >=? APIClient.MonthlyLimit cl);
    [intros H; inversion H; subst; cbn; auto|].
  discriminate.
Qed.

(* ------------------------------------------------------------------ *)
(** ** Basic authentication of the administrative routes *)
(* ------------------------------------------------------------------ *)

Lemma cut_Some (sep : ascii) (s l r : string) :
  cut sep s = Some (l, r) ->
  s = l ++ String sep r /\ count_string (Ascii.eqb sep) l = O.
Proof.
  revert l. induction s as [|a s IH]; intros l; [discriminate|].
  cbn [cut]. destruct (Ascii.eqb_spec a sep) as [->|Hne].
  - intros H. inversion H; subst. now split.
  - destruct (cut sep s) as [[l0 r0]|]; [|discriminate].
    intros H. inversion H; subst.
    destruct (IH l0 eq_refl) as [-> Hc]. split; [reflexivity|].
    cbn [count_string]. rewrite Hc.
    destruct (Ascii.eqb_spec sep a); [congruence|reflexivity].
Qed.

Lemma cut_app (sep : ascii) (l r : string) :
  count_string (Ascii.eqb sep) l = O ->
  cut sep (l ++ String sep r) = Some (l, r).
Proof.
  induction l as [|a l IH].
  - intros _. change ("" ++ String sep r) with (String sep r).
    cbn [cut]. now rewrite Ascii.eqb_refl.
  - change (String a l ++ String sep r) with (String a (l ++ String sep r)).
    cbn [count_string cut]. rewrite (Ascii.eqb_sym a sep).
    destruct (Ascii.eqb sep a); [discriminate|].
    intros H. now rewrite (IH H).
Qed.

Lemma BasicAuth_accepts {B : Type} (c : AdminRequest B) (encoded : string) :
  Header_Authorization c = "Basic " ++ encoded ->
  base64_DecodeString P encoded
  = Some (getEnv P "ADMIN_USER" "admin" ++ ":"
          ++ getEnv P "ADMIN_PASSWORD" "admin") ->
  count_string (Ascii.eqb ":"%char) (getEnv P "ADMIN_USER" "admin") = O ->
  BasicAuth P c = None.
Proof.
  intros Hh Hd Hn. unfold BasicAuth. rewrite Hh.
  change (String.eqb ("Basic " ++ encoded) "") with false. cbv iota.
  change (SplitN2 ("Basic " ++ encoded) " ") with ["Basic"; encoded].
  change (str_neq "Basic" "Basic") with false. cbv iota.
  rewrite Hd. unfold SplitN2.
  change (getEnv P "ADMIN_USER" "admin" ++ ":"
          ++ getEnv P "ADMIN_PASSWORD" "admin")
    with (getEnv P "ADMIN_USER" "admin"
          ++ String ":" (getEnv P "ADMIN_PASSWORD" "admin")).
  rewrite (cut_app _ _ _ Hn). unfold ConstantTimeCompare.
  now rewrite !String.eqb_refl.
Qed.

(** X7.  [BasicAuth] lets a request through exactly when the
    [Authorization] header is "Basic", one space and a string that
    base64 decodes to the expected user, a colon and the expected
    password (the password may hold colons, the user may not: a
    configured user name with a colon can never log in). *)
Theorem BasicAuth_accepts_iff {B : Type} (c : AdminRequest B) :
  BasicAuth P c = None <->
  exists encoded,
    Header_Authorization c = "Basic " ++ encoded /\
    base64_DecodeString P encoded
    = Some (getEnv P "ADMIN_USER" "admin" ++ ":"
            ++ getEnv P "ADMIN_PASSWORD" "admin") /\
    count_string (Ascii.eqb ":"%char) (getEnv P "ADMIN_USER" "admin") = O.
Proof.
  split.
  - unfold BasicAuth, SplitN2.
    destruct (String.eqb (Header_Authorization c) ""); [discriminate|].
    destruct (cut " " (Header_Authorization c)) as [[scheme encoded]|] eqn:Hc;
      [|discriminate].
    apply cut_Some in Hc as [Hh _].
    unfold str_neq.
    destruct (String.eqb_spec scheme "Basic") as [->|]; [|discriminate].
    cbn [negb].
    destruct (base64_DecodeString P encoded) as [decoded|] eqn:Hd;
      [|discriminate].
    destruct (cut ":" decoded) as [[user pass]|] eqn:Hu; [|discriminate].
    apply cut_Some in Hu as [-> Hn].
    unfold ConstantTimeCompare.
    destruct (String.eqb_spec user (getEnv P "ADMIN_USER" "admin"))
      as [->|]; [|discriminate].
    destruct (String.eqb_spec pass (getEnv P "ADMIN_PASSWORD" "admin"))
      as [->|]; [|discriminate].
    intros _. exists encoded. repeat split; assumption.
  - intros (encoded & Hh & Hd & Hn). now apply (BasicAuth_accepts c encoded).
Qed.

(** X8.  With [ADMIN_USER] and [ADMIN_PASSWORD] unset or empty the
    administrative routes accept the credentials admin:admin. *)
Theorem BasicAuth_default_credentials {B : Type} (c : AdminRequest B)
  (encoded : string) :
  os_Getenv P "ADMIN_USER" = "" ->
  os_Getenv P "ADMIN_PASSWORD" = "" ->
  base64_DecodeString P encoded = Some "admin:admin" ->
  Header_Authorization c = "Basic " ++ encoded ->
  BasicAuth P c = None.
Proof.
  intros Hu Hp Hd Hh.
  apply (BasicAuth_accepts c encoded); [exact Hh| |];
    unfold getEnv; rewrite ?Hu, ?Hp; [exact Hd|reflexivity].
Qed.

Lemma BasicAuth_refusal {B : Type} (c : AdminRequest B) (r : HTTPResponse) :
  BasicAuth P c = Some r ->
  status_code r = StatusUnauthorized /\
  SMSResponse.Success (body r) = false.
Proof.
  unfold BasicAuth.
  destruct (String.eqb (Header_Authorization c) "");
    [intros H; inversion H; now subst|].
  destruct (SplitN2 (Header_Authorization c) " ") as [|scheme [|encoded [|]]];
    try (intros H; inversion H; now subst).
  destruct (str_neq scheme "Basic"); [intros H; inversion H; now subst|].
  destruct (base64_DecodeString P encoded) as [decoded|];
    [|intros H; inversion H; now subst].
  destruct (SplitN2 decoded ":") as [|user [|pass [|]]];
    try (intros H; inversion H; now subst).
  destruct (negb _ || negb _)%bool; [|discriminate].
  intros H; inversion H; now subst.
Qed.

(** X9.  A request the basic authentication refuses is answered 401 and
    reaches no administrative handler: whatever the handler of the
    route is (creating, listing, updating clients, and likewise the
    usage reset), the world is left as it was. *)
Theorem admin_refusal_has_no_effect {B : Type}
  (handler : AdminRequest B -> M Reply) (c : AdminRequest B)
  (r : HTTPResponse) (w : World) :
  BasicAuth P c = Some r ->
  admin_group P handler c w = (reply_of r, w) /\
  reply_code (reply_of r) = StatusUnauthorized /\
  reply_Success (reply_of r) = false /\
  (forall cr : AdminRequest unit,
     Header_Authorization cr = Header_Authorization c ->
     POST_admin_client_reset E P cr w = (r, w)).
Proof.
  intros H. pose proof (BasicAuth_refusal c r H) as [Hs Hf].
  split; [unfold admin_group; now rewrite H|].
  split; [exact Hs|]. split; [exact Hf|].
  intros cr Hh. unfold POST_admin_client_reset.
  assert (Hr : BasicAuth P cr = BasicAuth P c).
  { unfold BasicAuth. now rewrite Hh. }
  now rewrite Hr, H.
Qed.

(* ------------------------------------------------------------------ *)
(** ** Delivery client *)
(* ------------------------------------------------------------------ *)

Lemma to_msgdata_fields (name : string) (m : SMSRequest.t) :
  msg_number (to_msgdata name m) = FormatPhone (SMSRequest.Number m) /\
  msg_message (to_msgdata name m) = SMSRequest.Message m /\
  msg_priority (to_msgdata name m) <> "" /\
  (SMSRequest.SenderID m = "" -> msg_senderid (to_msgdata name m) = name) /\
  (SMSRequest.SenderID m <> "" ->
   msg_senderid (to_msgdata name m) = SMSRequest.SenderID m) /\
  (SMSRequest.Priority m = "" -> msg_priority (to_msgdata name m) = "1") /\
  (SMSRequest.Priority m <> "" ->
   msg_priority (to_msgdata name m) = SMSRequest.Priority m).
Proof.
  unfold to_msgdata. cbn [msg_number msg_message msg_priority msg_senderid].
  destruct (String.eqb_spec (SMSRequest.SenderID m) "") as [Hs|Hs];
    destruct (String.eqb_spec (SMSRequest.Priority m) "") as [Hp|Hp];
    repeat split; try congruence; try discriminate.
Qed.

(** X10.  What [SendSMS] sends.  When the request cannot be built
    nothing is sent and the error is returned.  Otherwise exactly one
    request goes to the configured URL, with method "SendSms", the
    configured user data and one element per message in the order of
    the batch: the number normalised (so it starts with a plus sign),
    the text as given, the sender of the message or else the default
    sender, the priority of the message or else "1" (never empty). *)
Theorem SendSMS_upstream_request (msgs : list SMSRequest.t) (name : string)
  (w : World) :
  (forall err, http_NewRequest E (GetAPIURL E) = Some err ->
     SendSMS E msgs name w = (inl ("failed to create request: " ++ err), w)) /\
  (http_NewRequest E (GetAPIURL E) = None ->
   exists p,
     snd (SendSMS E msgs name w)
     = after_call w (EvProviderCall (GetAPIURL E) p) /\
     payload_method p = "SendSms" /\
     payload_userdata p
     = (SMSUsername (AppConfig E), SMSPassword (AppConfig E)) /\
     Forall2 (fun m d =>
                msg_number d = FormatPhone (SMSRequest.Number m) /\
                HasPrefix (msg_number d) "+" = true /\
                msg_message d = SMSRequest.Message m /\
                msg_priority d <> "" /\
                (SMSRequest.SenderID m = "" -> msg_senderid d = name) /\
                (SMSRequest.SenderID m <> "" ->
                 msg_senderid d = SMSRequest.SenderID m) /\
                (SMSRequest.Priority m = "" -> msg_priority d = "1") /\
                (SMSRequest.Priority m <> "" ->
                 msg_priority d = SMSRequest.Priority m))
             msgs (payload_msgdata p)).
Proof.
  split.
  - intros err H. unfold SendSMS, ret. now rewrite H.
  - intros H. exists (payload_of E msgs name).
    split.
    + unfold SendSMS, bind, ret, emit. fold (payload_of E msgs name).
      rewrite H.
      destruct (http_Do E (GetAPIURL E) (payload_of E msgs name)) as [e|e|b];
        [reflexivity|reflexivity|].
      destruct (json_Unmarshal E b); reflexivity.
    + split; [reflexivity|]. split; [reflexivity|].
      unfold payload_of. cbn [payload_msgdata].
      induction msgs as [|m msgs IH]; cbn [map]; constructor; [|exact IH].
      destruct (to_msgdata_fields name m) as (Hn & Hm & Hp & H1 & H2 & H3 & H4).
      repeat split; try assumption.
      rewrite Hn. apply FormatPhone_leading_plus.
Qed.

Lemma SendSMS_fails_with (msgs : list SMSRequest.t) (name err : string)
  (w : World) :
  http_fails E msgs name err ->
  exists e w1,
    SendSMS E msgs name w = (inl e, w1) /\
    (e = "failed to create request: " ++ err \/
     e = "failed to send SMS request: " ++ err \/
     e = "failed to read response: " ++ err).
Proof.
  unfold http_fails, SendSMS, bind, ret, emit.
  fold (payload_of E msgs name).
  intros [Hn|[Hn [Hd|Hd]]]; rewrite Hn; try rewrite Hd;
    eexists; eexists; (split; [reflexivity|tauto]).
Qed.

(* ------------------------------------------------------------------ *)
(** ** Send orchestrator: one message *)
(* ------------------------------------------------------------------ *)

(** X11.  A response body the decoder rejects is not a transport
    error: the single send answers 200 with [success] false and the raw
    body as error, stores one [failed] entry whose provider status is
    "Failed" and whose provider message is the raw body, and saves no
    client. *)
Theorem single_send_undecodable_body (c : Context SMSRequest.t)
  (req : SMSRequest.t) (cl : APIClient.t) (body : string) (w : World) :
  ShouldBindJSON c = inr req ->
  ValidatePhone (SMSRequest.Number req) = true ->
  ctx_client c = Some cl ->
  http_completes E [req] (APIClient.Name cl) body ->
  json_Unmarshal E body = None ->
  exists l,
    fst (SendSingleSMS E c w) =
      respond StatusOK false "SMS failed to send"
        (DataSingle (SMSLog.ID l) (FormatPhone (SMSRequest.Number req))
           "failed" None) body /\
    sms_logs (snd (SendSingleSMS E c w)) = (sms_logs w ++ [l])%list /\
    SMSLog.Status l = "failed" /\
    SMSLog.ProviderStatus l = "Failed" /\
    SMSLog.ProviderMessage l = body /\
    SMSLog.Error l = body /\
    clients (snd (SendSingleSMS E c w)) = clients w /\
    client_saves (snd (SendSingleSMS E c w)) = client_saves w.
Proof.
  intros Hb Hv Hc Hh Hj.
  pose proof (SendSMS_completes E _ _ _ w Hh) as Hs.
  rewrite (SendSingleSMS_outcome E c req cl _ w _ Hb Hv Hc Hs). cbv zeta.
  unfold provider_outcome. rewrite Hj.
  change (not_success (SMSProviderResponse.mk "Failed" body)) with true.
  cbv iota. eexists. cbn [fst snd sms_logs clients after_call].
  split; [reflexivity|]. split; [reflexivity|].
  unfold single_log, single_verdict.
  change (not_success (SMSProviderResponse.mk "Failed" body)) with true.
  cbv iota.
  cbn [SMSLog.Status SMSLog.ProviderStatus SMSLog.ProviderMessage
       SMSLog.Error v_status v_providerStatus v_providerMessage v_errorMsg
       SMSProviderResponse.Status SMSProviderResponse.Message].
  repeat (split; [reflexivity|]).
  unfold client_saves, after_call. cbn [trace].
  rewrite !count_events_app. cbn. lia.
Qed.

(** X12.  When the upstream call of a single send fails below the HTTP
    level the caller is answered 500 "Failed to send SMS" with the
    wrapped error, and one entry is stored for the caller's client with
    status [failed], provider status "error", the wrapped error as
    error text and the recipient as it was given (not normalised); no
    client row changes. *)
Theorem single_send_transport_error (c : Context SMSRequest.t)
  (req : SMSRequest.t) (cl : APIClient.t) (err : string) (w : World) :
  ShouldBindJSON c = inr req ->
  ValidatePhone (SMSRequest.Number req) = true ->
  ctx_client c = Some cl ->
  http_fails E [req] (APIClient.Name cl) err ->
  exists e l,
    (e = "failed to create request: " ++ err \/
     e = "failed to send SMS request: " ++ err \/
     e = "failed to read response: " ++ err) /\
    fst (SendSingleSMS E c w) =
      respond StatusInternalServerError false "Failed to send SMS"
        DataNone e /\
    sms_logs (snd (SendSingleSMS E c w)) = (sms_logs w ++ [l])%list /\
    SMSLog.ClientID l = APIClient.ID cl /\
    SMSLog.Recipient l = SMSRequest.Number req /\
    SMSLog.Message l = SMSRequest.Message req /\
    SMSLog.Status l = "failed" /\
    SMSLog.ProviderStatus l = "error" /\
    SMSLog.Error l = e /\
    clients (snd (SendSingleSMS E c w)) = clients w /\
    client_saves (snd (SendSingleSMS E c w)) = client_saves w.
Proof.
  intros Hb Hv Hc Hf.
  destruct (SendSMS_fails_with _ _ _ w Hf) as (e & w1 & Hs & He).
  pose proof (SendSMS_frame E _ _ _ _ _ Hs) as (Hcl & Hlg & _ & _ & Hsv & _).
  rewrite (SendSingleSMS_error E c req cl e w w1 Hb Hv Hc Hs). cbv zeta.
  exists e. eexists. cbn [fst snd sms_logs clients].
  split; [exact He|]. split; [reflexivity|].
  split; [rewrite Hlg; reflexivity|].
  unfold single_error_log.
  cbn [SMSLog.ClientID SMSLog.Recipient SMSLog.Message SMSLog.Status
       SMSLog.ProviderStatus SMSLog.Error].
  repeat (split; [reflexivity|]).
  split; [exact Hcl|].
  unfold client_saves in *. cbn [trace]. rewrite count_events_app, Hsv.
  cbn. lia.
Qed.

(** X13.  When the provider call of a single send completes the caller
    is answered 200, and the answer describes the entry just stored:
    its id, its recipient (the normalised number) and its status; the
    entry belongs to the caller's client; [success] is true exactly
    when the entry is [sent], and only then is the provider's answer
    included. *)
Theorem single_send_response_names_log (c : Context SMSRequest.t)
  (req : SMSRequest.t) (cl : APIClient.t) (answer : string) (w : World) :
  ShouldBindJSON c = inr req ->
  ValidatePhone (SMSRequest.Number req) = true ->
  ctx_client c = Some cl ->
  http_completes E [req] (APIClient.Name cl) answer ->
  exists l pr,
    sms_logs (snd (SendSingleSMS E c w)) = (sms_logs w ++ [l])%list /\
    status_code (fst (SendSingleSMS E c w)) = StatusOK /\
    SMSResponse.Data (body (fst (SendSingleSMS E c w)))
    = DataSingle (SMSLog.ID l) (SMSLog.Recipient l) (SMSLog.Status l) pr /\
    SMSLog.ID l = uuid_New E (uuids_drawn w) /\
    SMSLog.Recipient l = FormatPhone (SMSRequest.Number req) /\
    SMSLog.ClientID l = APIClient.ID cl /\
    SMSLog.CreatedAt l = time_Now E /\
    (SMSResponse.Success (body (fst (SendSingleSMS E c w))) = true <->
     SMSLog.Status l = "sent") /\
    (pr <> None <-> SMSLog.Status l = "sent").
Proof.
  intros Hb Hv Hc Hh.
  pose proof (SendSMS_completes E _ _ _ w Hh) as Hs.
  rewrite (SendSingleSMS_outcome E c req cl _ w _ Hb Hv Hc Hs). cbv zeta.
  unfold single_log, single_verdict.
  destruct (not_success (provider_outcome E answer)); eexists; eexists;
    cbn [fst snd sms_logs after_call uuids_drawn status_code body
         SMSResponse.Data SMSResponse.Success SMSLog.ID SMSLog.Recipient
         SMSLog.Status SMSLog.ClientID SMSLog.CreatedAt v_status respond];
    (split; [reflexivity|]); (split; [reflexivity|]);
    (split; [reflexivity|]); (split; [reflexivity|]);
    (split; [reflexivity|]); (split; [reflexivity|]);
    (split; [reflexivity|]); split; split; intros H;
    try reflexivity; try discriminate H;
    try (exfalso; apply H; reflexivity); discriminate.
Qed.

Lemma first_invalid_found (msgs : list SMSRequest.t) (m : SMSRequest.t) :
  In m msgs -> ValidatePhone (SMSRequest.Number m) = false ->
  exists m0 before rest,
    msgs = (before ++ m0 :: rest)%list /\
    Forall (fun x => ValidatePhone (SMSRequest.Number x) = true) before /\
    ValidatePhone (SMSRequest.Number m0) = false /\
    first_invalid msgs = Some m0.
Proof.
  unfold first_invalid.
  induction msgs as [|x msgs IH]; [intros []|].
  intros Hin Hm. cbn [find].
  destruct (ValidatePhone (SMSRequest.Number x)) eqn:Hx; cbn [negb].
  - destruct Hin as [->|Hin]; [congruence|].
    destruct (IH Hin Hm) as (m0 & before & rest & -> & Hb & H0 & Hf).
    exists m0, (x :: before), rest. repeat split; auto.
  - exists x, [], msgs. repeat split; auto.
Qed.

(** X14.  Validation comes before everything else.  A single send whose
    number is not valid, and a bulk send in which any number is not
    valid, are answered 400 and leave the world as it was (no upstream
    call, no log entry, no counter change); the bulk answer names the
    first invalid number of the batch. *)
Theorem invalid_number_rejects_request (w : World) :
  (forall (c : Context SMSRequest.t) req,
     ShouldBindJSON c = inr req ->
     ValidatePhone (SMSRequest.Number req) = false ->
     SendSingleSMS E c w =
       (respond StatusBadRequest false "Invalid phone number" DataNone
          "Phone number format is invalid", w)) /\
  (forall (c : Context BulkSMSRequest.t) req m,
     ShouldBindJSON c = inr req ->
     In m (BulkSMSRequest.Messages req) ->
     ValidatePhone (SMSRequest.Number m) = false ->
     exists m0 before rest,
       BulkSMSRequest.Messages req = (before ++ m0 :: rest)%list /\
       Forall (fun x => ValidatePhone (SMSRequest.Number x) = true) before /\
       ValidatePhone (SMSRequest.Number m0) = false /\
       SendBulkSMS E c w =
         (respond StatusBadRequest false "Invalid phone number in messages"
            DataNone ("Phone number " ++ SMSRequest.Number m0 ++ " is invalid"),
          w)).
Proof.
  split.
  - intros c req Hb Hv. unfold SendSingleSMS. now rewrite Hb, Hv.
  - intros c req m Hb Hin Hv.
    destruct (first_invalid_found _ _ Hin Hv)
      as (m0 & before & rest & Hs & Hbf & H0 & Hf).
    exists m0, before, rest. repeat split; try assumption.
    unfold SendBulkSMS. now rewrite Hb, Hf.
Qed.

(* ------------------------------------------------------------------ *)
(** ** Send orchestrator: a batch *)
(* ------------------------------------------------------------------ *)

(** X15.  When the upstream call of a bulk send fails below the HTTP
    level the batch is answered 500 "Failed to send bulk SMS" with the
    wrapped error, and - unlike the single send - nothing is stored: no
    log entry, no id drawn, no client saved. *)
Theorem bulk_send_transport_error (c : Context BulkSMSRequest.t)
  (req : BulkSMSRequest.t) (cl : APIClient.t) (err : string) (w : World) :
  ShouldBindJSON c = inr req ->
  first_invalid (BulkSMSRequest.Messages req) = None ->
  ctx_client c = Some cl ->
  (int_add (APIClient.DailyUsage cl) (len (BulkSMSRequest.Messages req))
   >? APIClient.DailyLimit cl) = false ->
  http_fails E (BulkSMSRequest.Messages req) (APIClient.Name cl) err ->
  exists e,
    (e = "failed to create request: " ++ err \/
     e = "failed to send SMS request: " ++ err \/
     e = "failed to read response: " ++ err) /\
    fst (SendBulkSMS E c w) =
      respond StatusInternalServerError false "Failed to send bulk SMS"
        DataNone e /\
    sms_logs (snd (SendBulkSMS E c w)) = sms_logs w /\
    clients (snd (SendBulkSMS E c w)) = clients w /\
    uuids_drawn (snd (SendBulkSMS E c w)) = uuids_drawn w /\
    logs_created (snd (SendBulkSMS E c w)) = logs_created w /\
    client_saves (snd (SendBulkSMS E c w)) = client_saves w.
Proof.
  intros Hb Hv Hc Hp Hf.
  destruct (SendSMS_fails_with _ _ _ w Hf) as (e & w1 & Hs & He).
  pose proof (SendSMS_frame E _ _ _ _ _ Hs) as (Hcl & Hlg & Hu & Hlc & Hsv & _).
  assert (Hrun : SendBulkSMS E c w =
    (respond StatusInternalServerError false "Failed to send bulk SMS"
       DataNone e, w1)).
  { unfold SendBulkSMS. rewrite Hb, Hv, Hc, Hp. unfold bind at 1.
    now rewrite Hs. }
  rewrite Hrun. exists e. cbn [fst snd]. repeat split; assumption.
Qed.

(* ------------------------------------------------------------------ *)
(** ** Quota accounting as an invariant *)
(* ------------------------------------------------------------------ *)

Lemma find_upsert_same_id (q : APIClient.t -> bool) (c c' : APIClient.t)
  (rows : list APIClient.t) :
  find q rows = Some c ->
  APIClient.ID c' = APIClient.ID c -> q c' = true ->
  find q (upsert c' rows) = Some c'.
Proof.
  intros Hfind Hid Hq.
  induction rows as [|r rows IH]; [discriminate Hfind|].
  cbn [upsert]. cbn [find] in Hfind.
  destruct (String.eqb_spec (APIClient.ID r) (APIClient.ID c')) as [He|Hne].
  - cbn [find]. now rewrite Hq.
  - cbn [find]. destruct (q r).
    + inversion Hfind; subst. congruence.
    + now apply IH.
Qed.

Lemma charged_fields (n : Z) (cl : APIClient.t) :
  APIClient.ID (charged E n cl) = APIClient.ID cl /\
  APIClient.APIKey (charged E n cl) = APIClient.APIKey cl /\
  live (charged E n cl) = live cl /\
  APIClient.DailyLimit (charged E n cl) = APIClient.DailyLimit cl /\
  APIClient.MonthlyLimit (charged E n cl) = APIClient.MonthlyLimit cl /\
  APIClient.DailyUsage (charged E n cl)
  = int_add (APIClient.DailyUsage cl) n /\
  APIClient.MonthlyUsage (charged E n cl)
  = int_add (APIClient.MonthlyUsage cl) n.
Proof. repeat split. Qed.

Lemma client_by_key_charged (key : string) (n : Z) (cl : APIClient.t)
  (w : World) (rows : list APIClient.t) :
  client_by_key w key = Some cl -> rows = clients w ->
  find (fun r => (String.eqb (APIClient.APIKey r) key && live r)%bool)
       (upsert (charged E n cl) rows) = Some (charged E n cl).
Proof.
  unfold client_by_key. intros Hf ->.
  apply (find_upsert_same_id _ cl); [exact Hf|reflexivity|].
  apply find_some in Hf as [_ H]. exact H.
Qed.

(** X16.  A single send through the route keeps the quota invariant:
    the caller's row afterwards has both usages at most one higher than
    before, raised together, never lowered, and still at or below their
    limits; the rows of all other clients are as before. *)
Theorem single_send_keeps_limits (c c' : Context SMSRequest.t)
  (req : SMSRequest.t) (cl : APIClient.t) (w : World) :
  APIKeyAuth E c w = (Next c', w) ->
  ctx_client c' = Some cl ->
  ShouldBindJSON c' = inr req ->
  ValidatePhone (SMSRequest.Number req) = true ->
  APIClient.wf cl ->
  exists cl',
    let w' := snd (POST_sms_send E c w) in
    client_by_key w' (Header_X_API_Key c) = Some cl' /\
    APIClient.ID cl' = APIClient.ID cl /\
    APIClient.DailyLimit cl' = APIClient.DailyLimit cl /\
    APIClient.MonthlyLimit cl' = APIClient.MonthlyLimit cl /\
    APIClient.DailyUsage cl <= APIClient.DailyUsage cl'
      <= APIClient.DailyUsage cl + 1 /\
    APIClient.DailyUsage cl' - APIClient.DailyUsage cl
    = APIClient.MonthlyUsage cl' - APIClient.MonthlyUsage cl /\
    APIClient.DailyUsage cl' <= APIClient.DailyLimit cl' /\
    APIClient.MonthlyUsage cl' <= APIClient.MonthlyLimit cl' /\
    (forall r, In r (clients w) -> APIClient.ID r <> APIClient.ID cl ->
               In r (clients w')).
Proof.
  intros Hauth Hc Hb Hv Hwf.
  unfold POST_sms_send. rewrite (sms_group_Next _ _ _ _ _ _ Hauth).
  apply APIKeyAuth_Next in Hauth as (cl0 & -> & Hkey & _ & _ & Hd & Hm).
  cbn [Set_client ctx_client] in Hc. inversion Hc; subst cl0; clear Hc.
  set (c' := Set_client cl c) in *.
  assert (Hc : ctx_client c' = Some cl) by reflexivity.
  destruct Hwf as (_ & Hdl & Hml & Hdu & Hmu).
  assert (Hd1 : int_add (APIClient.DailyUsage cl) 1
                = APIClient.DailyUsage cl + 1).
  { apply int_add_exact. unfold is_int in *. lia. }
  assert (Hm1 : int_add (APIClient.MonthlyUsage cl) 1
                = APIClient.MonthlyUsage cl + 1).
  { apply int_add_exact. unfold is_int in *. lia. }
  assert (Hsame : forall w1, clients w1 = clients w ->
            client_by_key w1 (Header_X_API_Key c) = Some cl).
  { intros w1 H1. unfold client_by_key in *. now rewrite H1. }
  destruct (SendSMS E [req] (APIClient.Name cl) w) as [r w1] eqn:Hs.
  pose proof (SendSMS_frame E _ _ _ _ _ Hs) as (Hcl & _ & _ & _ & _ & _ & Hr).
  destruct r as [err|rs].
  - rewrite (SendSingleSMS_error E c' req cl err w w1 Hb Hv Hc Hs). cbv zeta.
    exists cl. cbn [snd]. split; [now apply Hsame|].
    cbn [clients]. rewrite Hcl. repeat split; auto; lia.
  - destruct Hr as [o ->].
    rewrite (SendSingleSMS_outcome E c' req cl o w w1 Hb Hv Hc Hs). cbv zeta.
    destruct (not_success o).
    + exists cl. cbn [snd]. split; [now apply Hsame|].
      cbn [clients]. rewrite Hcl. repeat split; auto; lia.
    + exists (charged E 1 cl). cbn [snd].
      destruct (charged_fields 1 cl) as (Hi & _ & _ & H1 & H2 & H3 & H4).
      split.
      { unfold client_by_key at 1. cbn [clients].
        now apply (client_by_key_charged _ _ _ w). }
      rewrite H1, H2, H3, H4, Hd1, Hm1. cbn [clients]. rewrite Hcl.
      repeat split; try lia; try assumption.
      intros r Hin Hne. apply upsert_others; [exact Hin|].
      now rewrite Hi.
Qed.

(** X17.  An accepted bulk send keeps the daily limit: when the daily
    usage plus the size of the batch is within the limit, the caller's
    row afterwards has both usages raised by the same amount, between 0
    and the size of the batch, the daily usage still at or below the
    daily limit, and the rows of all other clients as before. *)
Theorem bulk_send_keeps_daily_limit (c c' : Context BulkSMSRequest.t)
  (req : BulkSMSRequest.t) (cl : APIClient.t) (answer : string) (w : World) :
  APIKeyAuth E c w = (Next c', w) ->
  ctx_client c' = Some cl ->
  ShouldBindJSON c' = inr req ->
  first_invalid (BulkSMSRequest.Messages req) = None ->
  APIClient.wf cl ->
  APIClient.DailyUsage cl + len (BulkSMSRequest.Messages req)
    <= APIClient.DailyLimit cl ->
  is_int (APIClient.MonthlyUsage cl + len (BulkSMSRequest.Messages req)) ->
  http_completes E (BulkSMSRequest.Messages req) (APIClient.Name cl) answer ->
  exists cl',
    let w' := snd (POST_sms_send_bulk E c w) in
    client_by_key w' (Header_X_API_Key c) = Some cl' /\
    APIClient.ID cl' = APIClient.ID cl /\
    APIClient.DailyLimit cl' = APIClient.DailyLimit cl /\
    APIClient.MonthlyLimit cl' = APIClient.MonthlyLimit cl /\
    APIClient.DailyUsage cl <= APIClient.DailyUsage cl'
      <= APIClient.DailyUsage cl + len (BulkSMSRequest.Messages req) /\
    APIClient.DailyUsage cl' - APIClient.DailyUsage cl
    = APIClient.MonthlyUsage cl' - APIClient.MonthlyUsage cl /\
    APIClient.DailyUsage cl' <= APIClient.DailyLimit cl' /\
    (forall r, In r (clients w) -> APIClient.ID r <> APIClient.ID cl ->
               In r (clients w')).
Proof.
  intros Hauth Hc Hb Hv Hwf Hd Hmi Hh.
  unfold POST_sms_send_bulk. rewrite (sms_group_Next _ _ _ _ _ _ Hauth).
  apply APIKeyAuth_Next in Hauth as (cl0 & -> & Hkey & _ & _ & Hdl & Hml).
  cbn [Set_client ctx_client] in Hc. inversion Hc; subst cl0; clear Hc.
  set (c' := Set_client cl c) in *.
  assert (Hc : ctx_client c' = Some cl) by reflexivity.
  destruct Hwf as (_ & Hdi & _ & Hdu & Hmu).
  pose proof (len_nonneg (BulkSMSRequest.Messages req)) as Hn.
  assert (Hdn : is_int (APIClient.DailyUsage cl
                        + len (BulkSMSRequest.Messages req))).
  { unfold is_int in *. lia. }
  assert (Hp : (int_add (APIClient.DailyUsage cl)
                        (len (BulkSMSRequest.Messages req))
                >? APIClient.DailyLimit cl) = false).
  { rewrite (int_add_exact _ _ Hdn), Z.gtb_ltb. apply Z.ltb_ge. lia. }
  rewrite (SendBulkSMS_accepted E c' req cl answer w Hb Hv Hc Hp Hh).
  cbv zeta. cbn [snd].
  set (s := if not_success (provider_outcome E answer) then 0
            else len (BulkSMSRequest.Messages req)).
  assert (Hs : 0 <= s <= len (BulkSMSRequest.Messages req)).
  { unfold s. destruct (not_success _); lia. }
  exists (charged E s cl).
  destruct (charged_fields s cl) as (Hi & _ & _ & H1 & H2 & H3 & H4).
  split.
  { unfold client_by_key at 1. cbn [clients].
    now apply (client_by_key_charged _ _ _ w). }
  rewrite H1, H2, H3, H4.
  rewrite (int_add_exact (APIClient.DailyUsage cl) s),
    (int_add_exact (APIClient.MonthlyUsage cl) s)
    by (unfold is_int in *; lia).
  cbn [clients]. repeat split; try lia.
  intros r Hin Hne. apply upsert_others; [exact Hin|]. now rewrite Hi.
Qed.

(* ------------------------------------------------------------------ *)
(** ** Usage statistics *)
(* ------------------------------------------------------------------ *)

(** X18.  [GET /api/v1/sms/stats] changes nothing, and the statistics
    it returns are those of the stored row of the caller; since the
    route stands behind the authenticator they always show an active
    client below both limits (a client at a limit is refused and cannot
    read its statistics). *)
Theorem stats_of_authenticated_client (c : Context unit) (w : World) :
  snd (GET_sms_stats E c w) = w /\
  (forall s,
     reply_Data (fst (GET_sms_stats E c w)) = ReplyStats s ->
     reply_code (fst (GET_sms_stats E c w)) = StatusOK /\
     exists cl,
       client_by_key w (Header_X_API_Key c) = Some cl /\
       stats_ClientID s = APIClient.ID cl /\
       stats_DailyUsage s = APIClient.DailyUsage cl /\
       stats_MonthlyUsage s = APIClient.MonthlyUsage cl /\
       stats_DailyLimit s = APIClient.DailyLimit cl /\
       stats_MonthlyLimit s = APIClient.MonthlyLimit cl /\
       stats_IsActive s = true /\
       stats_DailyUsage s < stats_DailyLimit s /\
       stats_MonthlyUsage s < stats_MonthlyLimit s) /\
  (forall r, fst (APIKeyAuth E c w) = Abort r ->
     fst (GET_sms_stats E c w) = reply_of r).
Proof.
  unfold GET_sms_stats, bind.
  destruct (APIKeyAuth E c w) as [chain w1] eqn:Ha.
  pose proof (APIKeyAuth_reads E c w) as Hw. rewrite Ha in Hw.
  cbn [snd] in Hw. subst w1.
  destruct chain as [r|c'].
  - cbn [fst snd ret]. split; [reflexivity|]. split.
    + intros s H. discriminate H.
    + intros r0 H. now inversion H.
  - apply APIKeyAuth_Next in Ha as (cl & -> & Hk & _ & Hact & Hd & Hm).
    unfold GetStats, ret. cbn [Set_client ctx_client fst snd].
    split; [reflexivity|]. split.
    + intros s H. cbn [reply_Data reply_code] in *. inversion H; subst s.
      split; [reflexivity|]. exists cl.
      cbn [stats_ClientID stats_DailyUsage stats_MonthlyUsage stats_DailyLimit
           stats_MonthlyLimit stats_IsActive].
      repeat split; assumption.
    + intros r H. discriminate H.
Qed.

(* ------------------------------------------------------------------ *)
(** ** Client administration: creation *)
(* ------------------------------------------------------------------ *)

Lemma existsb_collides_false (row : APIClient.t) (rows : list APIClient.t) :
  (forall r, In r rows ->
     APIClient.ID r <> APIClient.ID row /\
     APIClient.Email r <> APIClient.Email row /\
     APIClient.APIKey r <> APIClient.APIKey row) ->
  existsb (collides row) rows = false.
Proof.
  intros H. induction rows as [|r rows IH]; [reflexivity|].
  cbn [existsb]. rewrite IH by (intros x Hx; apply H; now right).
  destruct (H r (or_introl eq_refl)) as (H1 & H2 & H3).
  unfold collides.
  apply String.eqb_neq in H1, H2, H3. now rewrite H1, H2, H3.
Qed.

Lemma CreateClient_run (c : AdminRequest CreateClientRequest)
  (req : CreateClientRequest) (hash : string) (w : World) :
  let key := uuid_New E (uuids_drawn w) in
  let secret := uuid_New E (S (uuids_drawn w)) in
  let id := uuid_New E (S (S (uuids_drawn w))) in
  let row := created_row E req key hash id in
  ShouldBindJSON (gin c) = inr req ->
  client_by_email w (create_Email req) = None ->
  bcrypt_GenerateFromPassword P secret = inr hash ->
  id <> uuid_Nil ->
  CreateClient E P c w =
    if existsb (collides row) (clients w) then
      (reply StatusInternalServerError false "Failed to create client"
         ReplyNone (unique_violation P),
       mkWorld (clients w) (sms_logs w) (S (S (S (uuids_drawn w))))
               (trace w))
    else
      (reply StatusCreated true "Client created successfully"
         (ReplyCreated
            (mkCredentials id (create_Name req) (create_Email req) key secret
               (limit_or 100 (create_RateLimit req))
               (limit_or 10000 (create_DailyLimit req))
               (limit_or 300000 (create_MonthlyLimit req))
               "Save these credentials securely. The API secret will not be shown again."))
         "",
       mkWorld (clients w ++ [row]) (sms_logs w)
               (S (S (S (uuids_drawn w)))) (trace w)).
Proof.
  cbv zeta. intros Hb He Hg Hid.
  unfold CreateClient. rewrite Hb.
  unfold bind at 1. unfold DB_First at 1.
  unfold client_by_email in He. rewrite He.
  unfold bind at 1. unfold uuid_fresh at 1.
  unfold bind at 1. unfold uuid_fresh at 1. cbn [uuids_drawn].
  rewrite Hg.
  unfold bind at 1. unfold uuid_fresh at 1. cbn [uuids_drawn].
  unfold bind at 1. unfold DB_Create_client, APIClient_BeforeCreate.
  unfold bind at 1. unfold bind at 1.
  cbn [APIClient.ID]. rewrite (proj2 (String.eqb_neq _ _) Hid).
  unfold ret at 1. cbn [APIClient.LastReset].
  destruct (time_Now E =? time_zero) eqn:Ht; unfold ret at 1;
    cbn [APIClient.CreatedAt APIClient.UpdatedAt APIClient.LastReset
         clients sms_logs uuids_drawn trace];
    change (time_zero =? time_zero) with true; cbv iota;
    cbv beta iota delta
      [set_CreatedAt APIClient.with_UpdatedAt APIClient.with_LastReset
       APIClient.ID APIClient.CreatedAt APIClient.UpdatedAt
       APIClient.DeletedAt APIClient.Name APIClient.Email APIClient.APIKey
       APIClient.APISecret APIClient.APIKeyHash APIClient.IsActive
       APIClient.RateLimit APIClient.DailyLimit APIClient.MonthlyLimit
       APIClient.DailyUsage APIClient.MonthlyUsage APIClient.LastReset];
    change (time_zero =? time_zero) with true; cbv iota;
    match goal with
    | |- (let (_, _) := if existsb (collides ?r) _ then _ else _ in _) = _ =>
        change r with
          (created_row E req (uuid_New E (uuids_drawn w)) hash
             (uuid_New E (S (S (uuids_drawn w)))))
    end;
    destruct (existsb
                (collides
                   (created_row E req (uuid_New E (uuids_drawn w)) hash
                      (uuid_New E (S (S (uuids_drawn w))))))
                (clients w));
    reflexivity.
Qed.

Lemma find_app_last {A : Type} (q : A -> bool) (l : list A) (x : A) :
  (forall r, In r l -> q r = false) -> q x = true ->
  find q (l ++ [x]) = Some x.
Proof.
  intros Hl Hx. induction l as [|r l IH]; cbn [app find].
  - now rewrite Hx.
  - rewrite (Hl r (or_introl eq_refl)). apply IH.
    intros y Hy. apply Hl. now right.
Qed.

Lemma APIKeyAuth_admits {B : Type} (c : Context B) (w : World)
  (cl : APIClient.t) :
  Header_X_API_Key c <> "" -> Header_X_API_Secret c <> "" ->
  client_by_key w (Header_X_API_Key c) = Some cl ->
  bcrypt_CompareHashAndPassword E (APIClient.APISecret cl)
    (Header_X_API_Secret c) = true ->
  APIClient.IsActive cl = true ->
  APIClient.DailyUsage cl < APIClient.DailyLimit cl ->
  APIClient.MonthlyUsage cl < APIClient.MonthlyLimit cl ->
  APIKeyAuth E c w = (Next (Set_client cl c), w).
Proof.
  intros Hk Hs Hf Hb Ha Hd Hm.
  unfold APIKeyAuth, bind, ret, DB_First.
  rewrite (nonempty_eqb _ Hk), (nonempty_eqb _ Hs). cbn [orb].
  unfold client_by_key in Hf. rewrite Hf, Hb, Ha. cbn [negb].
  rewrite !Z.geb_leb.
  destruct (Z.leb_spec (APIClient.DailyLimit cl) (APIClient.DailyUsage cl));
    [lia|].
  destruct (Z.leb_spec (APIClient.MonthlyLimit cl)
                       (APIClient.MonthlyUsage cl)); [lia|].
  reflexivity.
Qed.

(** X19.  [CreateClient] for an email no live client has, when the key,
    the id and the email collide with no stored row: the answer is 201
    and carries the key and the plaintext secret; exactly one row is
    appended, with that key and id, the bcrypt hash of the secret as
    stored secret, the active flag set, both usages 0, the last reset
    at the instant of creation, and each limit as requested or, for a
    requested 0, the default (100 per second, 10000 a day, 300000 a
    month); the answer reports the limits of the row. *)
Theorem CreateClient_stores_hashed_client
  (c : AdminRequest CreateClientRequest) (req : CreateClientRequest)
  (hash : string) (w : World) :
  ShouldBindJSON (gin c) = inr req ->
  client_by_email w (create_Email req) = None ->
  bcrypt_GenerateFromPassword P (uuid_New E (S (uuids_drawn w))) = inr hash ->
  uuid_New E (S (S (uuids_drawn w))) <> uuid_Nil ->
  (forall r, In r (clients w) ->
     APIClient.ID r <> uuid_New E (S (S (uuids_drawn w))) /\
     APIClient.Email r <> create_Email req /\
     APIClient.APIKey r <> uuid_New E (uuids_drawn w)) ->
  exists cred row,
    fst (CreateClient E P c w) =
      reply StatusCreated true "Client created successfully"
        (ReplyCreated cred) "" /\
    clients (snd (CreateClient E P c w)) = (clients w ++ [row])%list /\
    sms_logs (snd (CreateClient E P c w)) = sms_logs w /\
    cred_api_key cred = uuid_New E (uuids_drawn w) /\
    cred_api_secret cred = uuid_New E (S (uuids_drawn w)) /\
    cred_client_id cred = uuid_New E (S (S (uuids_drawn w))) /\
    APIClient.APIKey row = cred_api_key cred /\
    APIClient.ID row = cred_client_id cred /\
    APIClient.Name row = create_Name req /\
    APIClient.Email row = create_Email req /\
    bcrypt_GenerateFromPassword P (cred_api_secret cred)
    = inr (APIClient.APISecret row) /\
    APIClient.IsActive row = true /\
    APIClient.DeletedAt row = None /\
    APIClient.DailyUsage row = 0 /\
    APIClient.MonthlyUsage row = 0 /\
    APIClient.LastReset row = time_Now E /\
    APIClient.RateLimit row = limit_or 100 (create_RateLimit req) /\
    APIClient.DailyLimit row = limit_or 10000 (create_DailyLimit req) /\
    APIClient.MonthlyLimit row = limit_or 300000 (create_MonthlyLimit req) /\
    cred_rate_limit cred = APIClient.RateLimit row /\
    cred_daily_limit cred = APIClient.DailyLimit row /\
    cred_monthly_limit cred = APIClient.MonthlyLimit row.
Proof.
  intros Hb He Hg Hid Hfree.
  rewrite (CreateClient_run c req hash w Hb He Hg Hid).
  rewrite existsb_collides_false by exact Hfree.
  eexists. eexists. cbn [fst snd clients sms_logs].
  split; [reflexivity|]. split; [reflexivity|].
  cbn. repeat split. exact Hg.
Qed.

(** X20.  The credentials [CreateClient] hands out work: when bcrypt
    verifies the hash it made, a request that presents the returned key
    and secret to [APIKeyAuth] is let through with the new client
    attached, provided the requested daily and monthly limits are not
    negative.  A client created with a negative daily limit is refused
    with 429 from its first request on. *)
Theorem created_client_can_authenticate {B : Type}
  (c : AdminRequest CreateClientRequest) (req : CreateClientRequest)
  (hash : string) (w : World) (c' : Context B) :
  ShouldBindJSON (gin c) = inr req ->
  client_by_email w (create_Email req) = None ->
  bcrypt_GenerateFromPassword P (uuid_New E (S (uuids_drawn w))) = inr hash ->
  uuid_New E (S (S (uuids_drawn w))) <> uuid_Nil ->
  (forall r, In r (clients w) ->
     APIClient.ID r <> uuid_New E (S (S (uuids_drawn w))) /\
     APIClient.Email r <> create_Email req /\
     APIClient.APIKey r <> uuid_New E (uuids_drawn w)) ->
  bcrypt_CompareHashAndPassword E hash (uuid_New E (S (uuids_drawn w)))
  = true ->
  Header_X_API_Key c' = uuid_New E (uuids_drawn w) ->
  Header_X_API_Secret c' = uuid_New E (S (uuids_drawn w)) ->
  Header_X_API_Key c' <> "" -> Header_X_API_Secret c' <> "" ->
  let w' := snd (CreateClient E P c w) in
  let row := created_row E req (uuid_New E (uuids_drawn w)) hash
               (uuid_New E (S (S (uuids_drawn w)))) in
  client_by_key w' (Header_X_API_Key c') = Some row /\
  (0 <= create_DailyLimit req -> 0 <= create_MonthlyLimit req ->
   APIKeyAuth E c' w' = (Next (Set_client row c'), w')) /\
  (create_DailyLimit req < 0 ->
   fst (APIKeyAuth E c' w') =
     Abort (respond StatusTooManyRequests false "Daily limit exceeded"
              DataNone "You have reached your daily SMS limit")).
Proof.
  intros Hb He Hg Hid Hfree Hv Hk Hs Hkn Hsn. cbv zeta.
  rewrite (CreateClient_run c req hash w Hb He Hg Hid).
  rewrite existsb_collides_false by exact Hfree.
  cbn [snd].
  set (row := created_row E req (uuid_New E (uuids_drawn w)) hash
                (uuid_New E (S (S (uuids_drawn w))))).
  set (w' := mkWorld (clients w ++ [row]) (sms_logs w)
                     (S (S (S (uuids_drawn w)))) (trace w)).
  assert (Hfind : client_by_key w' (Header_X_API_Key c') = Some row).
  { unfold client_by_key, w'. cbn [clients]. apply find_app_last.
    - intros r Hr. destruct (Hfree r Hr) as (_ & _ & Hne).
      rewrite Hk. apply String.eqb_neq in Hne. now rewrite Hne.
    - rewrite Hk. cbn [row created_row APIClient.APIKey live
                       APIClient.DeletedAt].
      now rewrite String.eqb_refl. }
  split; [exact Hfind|]. split.
  - intros Hd Hm.
    apply APIKeyAuth_admits; try assumption; try reflexivity.
    + cbn [row created_row APIClient.APISecret]. now rewrite Hs.
    + cbn [row created_row APIClient.DailyUsage APIClient.DailyLimit].
      unfold limit_or. destruct (Z.eqb_spec (create_DailyLimit req) 0); lia.
    + cbn [row created_row APIClient.MonthlyUsage APIClient.MonthlyLimit].
      unfold limit_or. destruct (Z.eqb_spec (create_MonthlyLimit req) 0); lia.
  - intros Hd.
    unfold APIKeyAuth, bind, ret, DB_First.
    rewrite (nonempty_eqb _ Hkn), (nonempty_eqb _ Hsn). cbn [orb].
    unfold client_by_key in Hfind. rewrite Hfind.
    cbn [row created_row APIClient.APISecret APIClient.IsActive
         APIClient.DailyUsage APIClient.DailyLimit].
    rewrite Hs, Hv. cbn [negb].
    unfold limit_or. destruct (Z.eqb_spec (create_DailyLimit req) 0); [lia|].
    rewrite Z.geb_leb.
    destruct (Z.leb_spec (create_DailyLimit req) 0); [reflexivity|lia].
Qed.

Lemma existsb_collides_true (row r : APIClient.t) (rows : list APIClient.t) :
  In r rows -> collides row r = true -> existsb (collides row) rows = true.
Proof.
  intros Hin Hc. apply existsb_exists. now exists r.
Qed.

(** X21.  The ways [CreateClient] fails, none of which stores a row: a
    request that does not bind is answered 400; an email a live client
    already has is answered 409 before any id is drawn; a failure of
    bcrypt is answered 500 "Failed to generate credentials"; and an
    email (or key, or id) that only a row outside the live ones holds -
    a soft-deleted client - passes the look-up but is rejected by the
    unique index and answered 500 "Failed to create client". *)
Theorem CreateClient_failures_store_nothing
  (c : AdminRequest CreateClientRequest) (w : World) :
  (forall err, ShouldBindJSON (gin c) = inl err ->
     CreateClient E P c w =
       (reply StatusBadRequest false "Invalid request payload" ReplyNone err,
        w)) /\
  (forall req existing,
     ShouldBindJSON (gin c) = inr req ->
     client_by_email w (create_Email req) = Some existing ->
     CreateClient E P c w =
       (reply StatusConflict false "Client with this email already exists"
          ReplyNone "", w)) /\
  (forall req err,
     ShouldBindJSON (gin c) = inr req ->
     client_by_email w (create_Email req) = None ->
     bcrypt_GenerateFromPassword P (uuid_New E (S (uuids_drawn w)))
     = inl err ->
     fst (CreateClient E P c w) =
       reply StatusInternalServerError false "Failed to generate credentials"
         ReplyNone err /\
     clients (snd (CreateClient E P c w)) = clients w) /\
  (forall req hash r,
     ShouldBindJSON (gin c) = inr req ->
     client_by_email w (create_Email req) = None ->
     bcrypt_GenerateFromPassword P (uuid_New E (S (uuids_drawn w)))
     = inr hash ->
     uuid_New E (S (S (uuids_drawn w))) <> uuid_Nil ->
     In r (clients w) -> APIClient.Email r = create_Email req ->
     live r = false /\
     fst (CreateClient E P c w) =
       reply StatusInternalServerError false "Failed to create client"
         ReplyNone (unique_violation P) /\
     clients (snd (CreateClient E P c w)) = clients w).
Proof.
  split; [|split; [|split]].
  - intros err Hb. unfold CreateClient. now rewrite Hb.
  - intros req existing Hb He. unfold CreateClient. rewrite Hb.
    unfold bind, DB_First. unfold client_by_email in He. now rewrite He.
  - intros req err Hb He Hg.
    assert (Hrun : CreateClient E P c w =
      (reply StatusInternalServerError false "Failed to generate credentials"
         ReplyNone err,
       mkWorld (clients w) (sms_logs w) (S (S (uuids_drawn w))) (trace w))).
    { unfold CreateClient. rewrite Hb.
      unfold bind at 1. unfold DB_First at 1.
      unfold client_by_email in He. rewrite He.
      unfold bind at 1. unfold uuid_fresh at 1.
      unfold bind at 1. unfold uuid_fresh at 1. cbn [uuids_drawn].
      now rewrite Hg. }
    rewrite Hrun. split; reflexivity.
  - intros req hash r Hb He Hg Hid Hin Hr.
    assert (Hdead : live r = false).
    { unfold client_by_email in He.
      pose proof (find_none _ _ He r Hin) as H. cbn beta in H.
      rewrite Hr, String.eqb_refl in H. exact H. }
    split; [exact Hdead|].
    rewrite (CreateClient_run c req hash w Hb He Hg Hid).
    rewrite (existsb_collides_true _ r); [split; reflexivity|exact Hin|].
    unfold collides. cbn [created_row APIClient.Email].
    rewrite Hr, String.eqb_refl. now rewrite orb_true_r.
Qed.

(* ------------------------------------------------------------------ *)
(** ** Client administration: listing and updating *)
(* ------------------------------------------------------------------ *)

Lemma redact_fields (r : APIClient.t) :
  APIClient.APISecret (redact r) = "" /\
  APIClient.APIKeyHash (redact r) = "" /\
  APIClient.ID (redact r) = APIClient.ID r /\
  APIClient.Name (redact r) = APIClient.Name r /\
  APIClient.Email (redact r) = APIClient.Email r /\
  APIClient.APIKey (redact r) = APIClient.APIKey r /\
  APIClient.IsActive (redact r) = APIClient.IsActive r /\
  APIClient.DailyUsage (redact r) = APIClient.DailyUsage r /\
  APIClient.MonthlyUsage (redact r) = APIClient.MonthlyUsage r.
Proof. repeat split. Qed.

(** X22.  [ListClients] changes nothing and answers 200 with a list in
    which every row has an empty secret and an empty key hash, and is
    otherwise a live stored row (no soft-deleted client is listed; the
    stored rows keep their secrets).  With [is_active=true] every
    listed client is active; with any other non-empty value ("false",
    but also "yes" or "1") every listed client is inactive; without the
    parameter every live client is listed. *)
Theorem ListClients_redacts_and_filters (c : AdminRequest unit) (w : World) :
  exists rows,
    ListClients c w =
      (reply StatusOK true "Clients retrieved successfully"
         (ReplyClients rows) "", w) /\
    Forall (fun x =>
              APIClient.APISecret x = "" /\ APIClient.APIKeyHash x = "" /\
              exists r, In r (clients w) /\ live r = true /\ x = redact r)
           rows /\
    (Query_is_active c = "true" ->
     Forall (fun x => APIClient.IsActive x = true) rows) /\
    (Query_is_active c <> "" -> Query_is_active c <> "true" ->
     Forall (fun x => APIClient.IsActive x = false) rows) /\
    (Query_is_active c = "" ->
     forall r, In r (clients w) -> live r = true -> In (redact r) rows).
Proof.
  unfold ListClients, bind, ret, DB_Find. cbn [fst snd].
  eexists. split; [reflexivity|].
  split; [|split; [|split]].
  - apply Forall_forall. intros x Hx.
    apply in_map_iff in Hx as (r & <- & Hr).
    apply filter_In in Hr as [Hin Hq]. apply andb_prop in Hq as [_ Hl].
    split; [reflexivity|]. split; [reflexivity|]. now exists r.
  - intros Ht. rewrite Ht. apply Forall_forall. intros x Hx.
    apply in_map_iff in Hx as (r & <- & Hr).
    apply filter_In in Hr as [_ Hq]. apply andb_prop in Hq as [Hq _].
    change (str_neq "true" "") with true in Hq. cbv iota in Hq.
    change (String.eqb "true" "true") with true in Hq.
    apply Bool.eqb_prop in Hq. exact Hq.
  - intros Hne Hnt. apply Forall_forall. intros x Hx.
    apply in_map_iff in Hx as (r & <- & Hr).
    apply filter_In in Hr as [_ Hq]. apply andb_prop in Hq as [Hq _].
    unfold str_neq in Hq. rewrite (nonempty_eqb _ Hne) in Hq.
    cbn [negb] in Hq. apply String.eqb_neq in Hnt. rewrite Hnt in Hq.
    apply Bool.eqb_prop in Hq. exact Hq.
  - intros Hq r Hin Hl. apply in_map. apply filter_In.
    split; [exact Hin|]. rewrite Hq.
    change (str_neq "" "") with false. cbv iota. now rewrite Hl.
Qed.

Lemma apply_update_frame (req : UpdateClientRequest) (cl : APIClient.t) :
  APIClient.ID (apply_update req cl) = APIClient.ID cl /\
  APIClient.CreatedAt (apply_update req cl) = APIClient.CreatedAt cl /\
  APIClient.DeletedAt (apply_update req cl) = APIClient.DeletedAt cl /\
  APIClient.Email (apply_update req cl) = APIClient.Email cl /\
  APIClient.APIKey (apply_update req cl) = APIClient.APIKey cl /\
  APIClient.APISecret (apply_update req cl) = APIClient.APISecret cl /\
  APIClient.APIKeyHash (apply_update req cl) = APIClient.APIKeyHash cl /\
  APIClient.DailyUsage (apply_update req cl) = APIClient.DailyUsage cl /\
  APIClient.MonthlyUsage (apply_update req cl) = APIClient.MonthlyUsage cl /\
  APIClient.LastReset (apply_update req cl) = APIClient.LastReset cl.
Proof.
  unfold apply_update.
  destruct (update_Name req), (update_IsActive req), (update_RateLimit req),
    (update_DailyLimit req), (update_MonthlyLimit req); repeat split.
Qed.

Lemma apply_update_fields (req : UpdateClientRequest) (cl : APIClient.t) :
  APIClient.Name (apply_update req cl)
  = match update_Name req with Some v => v | None => APIClient.Name cl end /\
  APIClient.IsActive (apply_update req cl)
  = match update_IsActive req with
    | Some v => v | None => APIClient.IsActive cl end /\
  APIClient.RateLimit (apply_update req cl)
  = match update_RateLimit req with
    | Some v => v | None => APIClient.RateLimit cl end /\
  APIClient.DailyLimit (apply_update req cl)
  = match update_DailyLimit req with
    | Some v => v | None => APIClient.DailyLimit cl end /\
  APIClient.MonthlyLimit (apply_update req cl)
  = match update_MonthlyLimit req with
    | Some v => v | None => APIClient.MonthlyLimit cl end.
Proof.
  unfold apply_update.
  destruct (update_Name req), (update_IsActive req), (update_RateLimit req),
    (update_DailyLimit req), (update_MonthlyLimit req); repeat split.
Qed.

Lemma UpdateClient_run (c : AdminRequest UpdateClientRequest)
  (req : UpdateClientRequest) (cl : APIClient.t) (w : World) :
  ShouldBindJSON (gin c) = inr req ->
  client_by_id w (Param_id (gin c)) = Some cl ->
  UpdateClient E c w =
    let saved := APIClient.with_UpdatedAt (time_Now E) (apply_update req cl) in
    (reply StatusOK true "Client updated successfully"
       (ReplyClient (redact saved)) "",
     mkWorld (upsert saved (clients w)) (sms_logs w) (uuids_drawn w)
             (trace w ++ [EvSaveClient saved])).
Proof.
  intros Hb Hf. unfold UpdateClient. rewrite Hb.
  unfold bind, ret, DB_First, DB_Save, emit.
  unfold client_by_id in Hf. rewrite Hf. reflexivity.
Qed.

(** X23.  [UpdateClient] on a client it finds answers 200 and saves the
    row once with each of name, active flag and the three limits
    replaced when the request carries it and kept when it does not; it
    never changes the id, the email, the API key, the stored secret,
    the usage counters or the last reset, whatever the request says.
    The answer shows the saved row with the secret blanked, while the
    stored row keeps it; the rows of other clients are as before.  An
    id no live client has is answered 404 and changes nothing. *)
Theorem UpdateClient_frame (c : AdminRequest UpdateClientRequest)
  (req : UpdateClientRequest) (w : World) :
  ShouldBindJSON (gin c) = inr req ->
  (client_by_id w (Param_id (gin c)) = None ->
   UpdateClient E c w =
     (reply StatusNotFound false "Client not found" ReplyNone "", w)) /\
  (forall cl,
     client_by_id w (Param_id (gin c)) = Some cl ->
     exists cl',
       let w' := snd (UpdateClient E c w) in
       fst (UpdateClient E c w) =
         reply StatusOK true "Client updated successfully"
           (ReplyClient (redact cl')) "" /\
       client_by_id w' (Param_id (gin c)) = Some cl' /\
       clients w' = upsert cl' (clients w) /\
       client_saves w' = S (client_saves w) /\
       sms_logs w' = sms_logs w /\
       APIClient.Name cl'
       = match update_Name req with
         | Some v => v | None => APIClient.Name cl end /\
       APIClient.IsActive cl'
       = match update_IsActive req with
         | Some v => v | None => APIClient.IsActive cl end /\
       APIClient.RateLimit cl'
       = match update_RateLimit req with
         | Some v => v | None => APIClient.RateLimit cl end /\
       APIClient.DailyLimit cl'
       = match update_DailyLimit req with
         | Some v => v | None => APIClient.DailyLimit cl end /\
       APIClient.MonthlyLimit cl'
       = match update_MonthlyLimit req with
         | Some v => v | None => APIClient.MonthlyLimit cl end /\
       APIClient.ID cl' = APIClient.ID cl /\
       APIClient.Email cl' = APIClient.Email cl /\
       APIClient.APIKey cl' = APIClient.APIKey cl /\
       APIClient.APISecret cl' = APIClient.APISecret cl /\
       APIClient.DailyUsage cl' = APIClient.DailyUsage cl /\
       APIClient.MonthlyUsage cl' = APIClient.MonthlyUsage cl /\
       APIClient.LastReset cl' = APIClient.LastReset cl /\
       (forall r, In r (clients w) -> APIClient.ID r <> APIClient.ID cl ->
                  In r (clients w'))).
Proof.
  intros Hb. split.
  - intros Hf. unfold UpdateClient. rewrite Hb.
    unfold bind, ret, DB_First. unfold client_by_id in Hf. now rewrite Hf.
  - intros cl Hf.
    rewrite (UpdateClient_run c req cl w Hb Hf). cbv zeta.
    destruct (apply_update_frame req cl)
      as (Hi & _ & Hdel & He & Hk & Hs & _ & Hdu & Hmu & Hlr).
    destruct (apply_update_fields req cl) as (Hn & Ha & Hr & Hd & Hm).
    exists (APIClient.with_UpdatedAt (time_Now E) (apply_update req cl)).
    cbn [fst snd clients sms_logs].
    split; [reflexivity|]. split.
    { unfold client_by_id in *. cbn [clients].
      apply (find_upsert_same_id _ cl); [exact Hf|exact Hi|].
      apply find_some in Hf as [_ H]. apply andb_prop in H as [H1 H2].
      change (APIClient.ID (APIClient.with_UpdatedAt (time_Now E)
                              (apply_update req cl)))
        with (APIClient.ID (apply_update req cl)).
      rewrite Hi, H1. unfold live in *.
      change (APIClient.DeletedAt (APIClient.with_UpdatedAt (time_Now E)
                                     (apply_update req cl)))
        with (APIClient.DeletedAt (apply_update req cl)).
      now rewrite Hdel. }
    split; [reflexivity|].
    split.
    { unfold client_saves. cbn [trace]. rewrite count_events_app. cbn. lia. }
    split; [reflexivity|].
    repeat (split; [assumption|]).
    intros r Hin Hne. apply upsert_others; [exact Hin|].
    change (APIClient.ID (APIClient.with_UpdatedAt (time_Now E)
                            (apply_update req cl)))
      with (APIClient.ID (apply_update req cl)).
    now rewrite Hi.
Qed.

(* ------------------------------------------------------------------ *)
(** ** Administration and authentication together *)
(* ------------------------------------------------------------------ *)

(** X24.  Deactivation takes effect at once: after [UpdateClient] with
    [is_active] false, a request with the client's key and its correct
    secret is refused with 403, whatever else the update carried. *)
Theorem deactivated_client_is_refused {B : Type}
  (c : AdminRequest UpdateClientRequest) (req : UpdateClientRequest)
  (cl : APIClient.t) (c' : Context B) (w : World) :
  ShouldBindJSON (gin c) = inr req ->
  update_IsActive req = Some false ->
  client_by_id w (Param_id (gin c)) = Some cl ->
  client_by_key w (Header_X_API_Key c') = Some cl ->
  Header_X_API_Key c' <> "" -> Header_X_API_Secret c' <> "" ->
  bcrypt_CompareHashAndPassword E (APIClient.APISecret cl)
    (Header_X_API_Secret c') = true ->
  fst (APIKeyAuth E c' (snd (UpdateClient E c w))) =
    Abort (respond StatusForbidden false "API client is inactive"
             DataNone "Your API access has been suspended").
Proof.
  intros Hb Hoff Hid Hkey Hk Hs Hv.
  rewrite (UpdateClient_run c req cl w Hb Hid). cbv zeta. cbn [snd].
  destruct (apply_update_frame req cl)
    as (Hi & _ & Hdel & _ & Hak & Hsec & _).
  destruct (apply_update_fields req cl) as (_ & Ha & _).
  rewrite Hoff in Ha.
  set (saved := APIClient.with_UpdatedAt (time_Now E) (apply_update req cl)).
  assert (Hfind : find (fun r => (String.eqb (APIClient.APIKey r)
                                    (Header_X_API_Key c') && live r)%bool)
                       (upsert saved (clients w)) = Some saved).
  { apply (find_upsert_same_id _ cl); [exact Hkey|exact Hi|].
    unfold client_by_key in Hkey.
    apply find_some in Hkey as [_ H]. apply andb_prop in H as [H1 H2].
    change (APIClient.APIKey saved) with (APIClient.APIKey (apply_update req cl)).
    rewrite Hak, H1. unfold live in *.
    change (APIClient.DeletedAt saved)
      with (APIClient.DeletedAt (apply_update req cl)).
    now rewrite Hdel. }
  unfold APIKeyAuth, bind, ret, DB_First.
  rewrite (nonempty_eqb _ Hk), (nonempty_eqb _ Hs). cbn [orb clients].
  rewrite Hfind.
  change (APIClient.APISecret saved)
    with (APIClient.APISecret (apply_update req cl)).
  change (APIClient.IsActive saved)
    with (APIClient.IsActive (apply_update req cl)).
  rewrite Hsec, Hv, Ha. reflexivity.
Qed.

(** X25.  The administrative reset lifts a quota refusal: after
    [ResetClientUsage] an active client with positive limits whose
    credentials verify is let through by [APIKeyAuth], with both usages
    at 0 - also when it stood at or above a limit before. *)
Theorem reset_unblocks_client {B : Type} (c : Context unit)
  (cl : APIClient.t) (c' : Context B) (w : World) :
  client_by_id w (Param_id c) = Some cl ->
  client_by_key w (Header_X_API_Key c') = Some cl ->
  Header_X_API_Key c' <> "" -> Header_X_API_Secret c' <> "" ->
  bcrypt_CompareHashAndPassword E (APIClient.APISecret cl)
    (Header_X_API_Secret c') = true ->
  APIClient.IsActive cl = true ->
  0 < APIClient.DailyLimit cl -> 0 < APIClient.MonthlyLimit cl ->
  exists cl',
    APIKeyAuth E c' (snd (ResetClientUsage E c w))
    = (Next (Set_client cl' c'), snd (ResetClientUsage E c w)) /\
    APIClient.ID cl' = APIClient.ID cl /\
    APIClient.DailyUsage cl' = 0 /\ APIClient.MonthlyUsage cl' = 0.
Proof.
  intros Hid Hkey Hk Hs Hv Ha Hd Hm.
  assert (Hrun : ResetClientUsage E c w =
    (respond StatusOK true "Client usage reset successfully" DataNone "",
     mkWorld (upsert (reset E cl) (clients w)) (sms_logs w) (uuids_drawn w)
             (trace w ++ [EvSaveClient (reset E cl)]))).
  { unfold ResetClientUsage, bind, ret, DB_First, DB_Save, emit.
    unfold client_by_id in Hid. rewrite Hid. reflexivity. }
  rewrite Hrun. cbn [snd]. exists (reset E cl).
  split; [|repeat split].
  apply APIKeyAuth_admits; try assumption.
  unfold client_by_key in *. cbn [clients].
  apply (find_upsert_same_id _ cl); [exact Hkey|reflexivity|].
  apply find_some in Hkey as [_ H]. exact H.
Qed.

(* ------------------------------------------------------------------ *)
(** ** The usage resets of the scheduler *)
(* ------------------------------------------------------------------ *)

Lemma DB_Updates_idle (now : Time) (cond : APIClient.t -> bool)
  (assign : APIClient.t -> APIClient.t) (w : World) :
  Forall (fun r => live r = true -> cond r = false) (clients w) ->
  snd (DB_Updates now cond assign w) = w.
Proof.
  intros H. unfold DB_Updates. cbn [snd].
  assert (Hmap : map (fun r => if (cond r && live r)%bool
                               then APIClient.with_UpdatedAt now (assign r)
                               else r) (clients w) = clients w).
  { induction (clients w) as [|r rows IH]; [reflexivity|].
    inversion H as [|? ? Hr Hrows]; subst. cbn [map].
    rewrite (IH Hrows). f_equal.
    destruct (live r) eqn:Hl; [rewrite (Hr eq_refl)|rewrite andb_false_r];
      reflexivity. }
  rewrite Hmap. now destruct w.
Qed.

Lemma ResetDailyUsage_world (w : World) :
  ResetDailyUsage E P w =
    (None,
     snd (DB_Updates (time_Now E)
            (fun r => APIClient.LastReset r
                      <? time_AddDate P (time_Now E) 0 0 (-1))
            (fun r => APIClient.with_LastReset (time_Now E)
                        (APIClient.with_DailyUsage 0 r)) w)).
Proof. reflexivity. Qed.

Lemma ResetMonthlyUsage_world (w : World) :
  ResetMonthlyUsage E P w =
    (None,
     snd (DB_Updates (time_Now E)
            (fun r => APIClient.LastReset r
                      <? time_AddDate P (time_Now E) 0 (-1) 0)
            (fun r => APIClient.with_LastReset (time_Now E)
                        (APIClient.with_MonthlyUsage 0 r)) w)).
Proof. reflexivity. Qed.

Lemma ResetDailyUsage_settles (w : World) :
  time_AddDate P (time_Now E) 0 0 (-1) <= time_Now E ->
  Forall (fun r => live r = true ->
                   time_AddDate P (time_Now E) 0 0 (-1)
                   <= APIClient.LastReset r)
         (clients (snd (ResetDailyUsage E P w))).
Proof.
  intros Hc. rewrite ResetDailyUsage_world. unfold DB_Updates.
  cbn [snd clients]. apply Forall_forall. intros x Hx.
  apply in_map_iff in Hx as (r & <- & _).
  destruct (Z.ltb_spec (APIClient.LastReset r)
                       (time_AddDate P (time_Now E) 0 0 (-1))) as [Hlt|Hge];
    cbn [andb].
  - destruct (live r) eqn:Hl.
    + intros _. exact Hc.
    + unfold live in *. intros H. congruence.
  - intros _. exact Hge.
Qed.

(** X26.  [ResetDailyUsage] returns no error and touches the client
    table only: a live row whose last reset lies before the cut-off
    (one day before now) gets daily usage 0 and last reset now; every
    other row - soft-deleted or reset more recently - stays exactly as
    it is; no row changes its id, credentials, limits, active flag or
    monthly usage.  When the cut-off is not after now, no live row is
    left before the cut-off, so running the reset again changes
    nothing. *)
Theorem ResetDailyUsage_effect (w : World) :
  let cutoff := time_AddDate P (time_Now E) 0 0 (-1) in
  let w' := snd (ResetDailyUsage E P w) in
  fst (ResetDailyUsage E P w) = None /\
  sms_logs w' = sms_logs w /\ trace w' = trace w /\
  Forall2 (fun r r' =>
             same_identity_and_limits r r' /\
             APIClient.MonthlyUsage r' = APIClient.MonthlyUsage r /\
             (live r = true -> APIClient.LastReset r < cutoff ->
              APIClient.DailyUsage r' = 0 /\
              APIClient.LastReset r' = time_Now E) /\
             (live r = false \/ cutoff <= APIClient.LastReset r -> r' = r))
          (clients w) (clients w') /\
  (cutoff <= time_Now E ->
   Forall (fun r' => live r' = true -> cutoff <= APIClient.LastReset r')
          (clients w') /\
   snd (ResetDailyUsage E P w') = w').
Proof.
  cbv zeta. split; [reflexivity|]. split; [reflexivity|].
  split; [reflexivity|]. split.
  - rewrite ResetDailyUsage_world. unfold DB_Updates. cbn [snd clients].
    induction (clients w) as [|r rows IH]; cbn [map]; constructor;
      [|exact IH].
    destruct (Z.ltb_spec (APIClient.LastReset r)
                         (time_AddDate P (time_Now E) 0 0 (-1))) as [Hlt|Hge];
      cbn [andb].
    + destruct (live r) eqn:Hl.
      * split; [repeat split|]. split; [reflexivity|].
        split; [intros _ _; split; reflexivity|].
        intros [H|H]; [discriminate H|lia].
      * split; [repeat split|]. split; [reflexivity|].
        split; [intros H; discriminate H|reflexivity].
    + split; [repeat split|]. split; [reflexivity|].
      split; [intros _ H; lia|reflexivity].
  - intros Hc. pose proof (ResetDailyUsage_settles w Hc) as Hs.
    split; [exact Hs|].
    rewrite (ResetDailyUsage_world (snd (ResetDailyUsage E P w))).
    cbn [snd]. apply DB_Updates_idle.
    eapply Forall_impl; [|exact Hs].
    intros r Hr Hl. apply Z.ltb_ge. now apply Hr.
Qed.

End MoreProperties.

(** X27.  The two resets share the column [last_reset].  After a daily
    reset, a monthly reset whose cut-off (one month before its own
    instant) is not after the cut-off of that daily reset finds no row
    to reset: it leaves the world as it is, and the monthly usage of
    every client stays what it was. *)
Theorem monthly_reset_after_daily_reset (E1 E2 : Env) (P : Platform)
  (w : World) :
  time_AddDate P (time_Now E1) 0 0 (-1) <= time_Now E1 ->
  time_AddDate P (time_Now E2) 0 (-1) 0
    <= time_AddDate P (time_Now E1) 0 0 (-1) ->
  snd (ResetMonthlyUsage E2 P (snd (ResetDailyUsage E1 P w)))
  = snd (ResetDailyUsage E1 P w) /\
  map APIClient.MonthlyUsage
      (clients (snd (ResetMonthlyUsage E2 P (snd (ResetDailyUsage E1 P w)))))
  = map APIClient.MonthlyUsage (clients w).
Proof.
  intros Hday Hmonth.
  assert (Hidle : snd (ResetMonthlyUsage E2 P (snd (ResetDailyUsage E1 P w)))
                  = snd (ResetDailyUsage E1 P w)).
  { rewrite ResetMonthlyUsage_world. cbn [snd]. apply DB_Updates_idle.
    eapply Forall_impl; [|exact (ResetDailyUsage_settles E1 P w Hday)].
    intros r Hr Hl. apply Z.ltb_ge. specialize (Hr Hl). lia. }
  split; [exact Hidle|]. rewrite Hidle.
  rewrite ResetDailyUsage_world. unfold DB_Updates. cbn [snd clients].
  rewrite map_map. apply map_ext. intros r.
  destruct (_ && _)%bool; reflexivity.
Qed.

(* ================================================================== *)
(** * The further properties on the concrete deployment *)
(* ================================================================== *)

Lemma FormatPhone_ignores_separators_witness :
  FormatPhone "0701 234567" = FormatPhone "0701234567" /\
  ValidatePhone "0701 234567" = ValidatePhone "0701234567".
Proof.
  exact (FormatPhone_ignores_separators "0701" "234567" " "%char eq_refl).
Defined.

Lemma refused_request_has_no_effect_witness :
  let c : Context SMSRequest.t :=
    demo_context "key-acme" "s3cret" (inr (demo_sms "0701234567")) None in
  let w := demo_world demo_exhausted in
  exists r,
    POST_sms_send demo_ok_env c w = (r, w) /\
    status_code r = StatusTooManyRequests.
Proof.
  cbv zeta.
  exists (respond StatusTooManyRequests false "Daily limit exceeded"
            DataNone "You have reached your daily SMS limit").
  destruct (refused_request_has_no_effect demo_ok_env (SendSingleSMS demo_ok_env)
              (demo_context "key-acme" "s3cret"
                 (inr (demo_sms "0701234567")) None)
              (demo_world demo_exhausted)
              (respond StatusTooManyRequests false "Daily limit exceeded"
                 DataNone "You have reached your daily SMS limit"))
    as (Hrun & _); [reflexivity|].
  split; [exact Hrun|reflexivity].
Defined.

Lemma BasicAuth_default_credentials_witness :
  BasicAuth demo_platform
    (demo_admin "Basic b64:admin:admin" (inr tt) : AdminRequest unit) = None.
Proof.
  apply (BasicAuth_default_credentials demo_platform
           (demo_admin "Basic b64:admin:admin" (inr tt) : AdminRequest unit)
           "b64:admin:admin");
    reflexivity.
Defined.

Lemma admin_refusal_has_no_effect_witness :
  let c := demo_admin "" (inr demo_create) in
  let w := demo_world demo_busy in
  snd (POST_admin_clients demo_ok_env demo_platform c w) = w /\
  reply_code (fst (POST_admin_clients demo_ok_env demo_platform c w))
  = StatusUnauthorized.
Proof.
  cbv zeta.
  destruct (admin_refusal_has_no_effect demo_ok_env demo_platform
              (CreateClient demo_ok_env demo_platform)
              (demo_admin "" (inr demo_create))
              (respond StatusUnauthorized false "Authorization required"
                 DataNone "")
              (demo_world demo_busy))
    as (Hrun & Hcode & _); [reflexivity|].
  unfold POST_admin_clients. rewrite Hrun. split; [reflexivity|exact Hcode].
Defined.

Lemma single_send_undecodable_body_witness :
  let c : Context SMSRequest.t :=
    demo_context "key-acme" "s3cret" (inr (demo_sms "0701234567"))
                 (Some demo_busy) in
  let w := demo_world demo_busy in
  exists l,
    sms_logs (snd (SendSingleSMS demo_garbled_env c w)) = [l] /\
    SMSLog.ProviderStatus l = "Failed" /\
    SMSLog.ProviderMessage l = "<html>" /\
    clients (snd (SendSingleSMS demo_garbled_env c w)) = [demo_busy].
Proof.
  cbv zeta.
  destruct (single_send_undecodable_body demo_garbled_env
              (demo_context "key-acme" "s3cret"
                 (inr (demo_sms "0701234567")) (Some demo_busy))
              (demo_sms "0701234567") demo_busy "<html>"
              (demo_world demo_busy))
    as (l & _ & Hl & _ & Hp & Hm & _ & Hc & _);
    [reflexivity|reflexivity|reflexivity|split; reflexivity|reflexivity|].
  exists l. repeat split; assumption.
Defined.

Lemma single_send_transport_error_witness :
  let c : Context SMSRequest.t :=
    demo_context "key-acme" "s3cret" (inr (demo_sms "0701234567"))
                 (Some demo_busy) in
  let w := demo_world demo_busy in
  exists e l,
    fst (SendSingleSMS demo_down_env c w) =
      respond StatusInternalServerError false "Failed to send SMS"
        DataNone e /\
    sms_logs (snd (SendSingleSMS demo_down_env c w)) = [l] /\
    SMSLog.Recipient l = "0701234567" /\
    SMSLog.Status l = "failed".
Proof.
  cbv zeta.
  destruct (single_send_transport_error demo_down_env
              (demo_context "key-acme" "s3cret"
                 (inr (demo_sms "0701234567")) (Some demo_busy))
              (demo_sms "0701234567") demo_busy "dial tcp: timeout"
              (demo_world demo_busy))
    as (e & l & _ & Hr & Hl & _ & Hrec & _ & Hst & _);
    [reflexivity|reflexivity|reflexivity| |].
  - right. split; [reflexivity|left; reflexivity].
  - exists e, l. repeat split; assumption.
Defined.

Lemma single_send_response_names_log_witness :
  let c : Context SMSRequest.t :=
    demo_context "key-acme" "s3cret" (inr (demo_sms "0701234567"))
                 (Some demo_busy) in
  let w := demo_world demo_busy in
  exists l pr,
    sms_logs (snd (SendSingleSMS demo_ok_env c w)) = [l] /\
    SMSResponse.Data (body (fst (SendSingleSMS demo_ok_env c w)))
    = DataSingle (SMSLog.ID l) (SMSLog.Recipient l) (SMSLog.Status l) pr /\
    SMSLog.Recipient l = "+256701234567".
Proof.
  cbv zeta.
  destruct (single_send_response_names_log demo_ok_env
              (demo_context "key-acme" "s3cret"
                 (inr (demo_sms "0701234567")) (Some demo_busy))
              (demo_sms "0701234567") demo_busy "OK"
              (demo_world demo_busy))
    as (l & pr & Hl & _ & Hd & _ & Hr & _);
    [reflexivity|reflexivity|reflexivity|split; reflexivity|].
  exists l, pr. repeat split; assumption.
Defined.

Lemma bulk_send_transport_error_witness :
  let c : Context BulkSMSRequest.t :=
    demo_context "key-acme" "s3cret" (inr demo_batch2) (Some demo_busy) in
  let w := demo_world demo_busy in
  status_code (fst (SendBulkSMS demo_down_env c w))
  = StatusInternalServerError /\
  sms_logs (snd (SendBulkSMS demo_down_env c w)) = [] /\
  clients (snd (SendBulkSMS demo_down_env c w)) = [demo_busy].
Proof.
  cbv zeta.
  destruct (bulk_send_transport_error demo_down_env
              (demo_context "key-acme" "s3cret" (inr demo_batch2)
                 (Some demo_busy))
              demo_batch2 demo_busy "dial tcp: timeout"
              (demo_world demo_busy))
    as (e & _ & Hr & Hl & Hc & _);
    [reflexivity|reflexivity|reflexivity|reflexivity| |].
  - right. split; [reflexivity|left; reflexivity].
  - rewrite Hr. repeat split; assumption.
Defined.

Lemma single_send_keeps_limits_witness :
  let c : Context SMSRequest.t :=
    demo_context "key-acme" "s3cret" (inr (demo_sms "0701234567")) None in
  let w := demo_world demo_busy in
  exists cl',
    client_by_key (snd (POST_sms_send demo_ok_env c w)) "key-acme" = Some cl' /\
    APIClient.DailyUsage cl' <= APIClient.DailyLimit cl' /\
    APIClient.MonthlyUsage cl' <= APIClient.MonthlyLimit cl'.
Proof.
  cbv zeta.
  destruct (single_send_keeps_limits demo_ok_env
              (demo_context "key-acme" "s3cret"
                 (inr (demo_sms "0701234567")) None)
              (Set_client demo_busy
                 (demo_context "key-acme" "s3cret"
                    (inr (demo_sms "0701234567")) None))
              (demo_sms "0701234567") demo_busy (demo_world demo_busy))
    as (cl' & Hf & _ & _ & _ & _ & _ & Hd & Hm & _);
    [reflexivity|reflexivity|reflexivity|reflexivity| |].
  - unfold APIClient.wf, is_int. vm_compute. intuition discriminate.
  - exists cl'. repeat split; assumption.
Defined.

Lemma bulk_send_keeps_daily_limit_witness :
  let c : Context BulkSMSRequest.t :=
    demo_context "key-acme" "s3cret" (inr demo_batch2) None in
  let w := demo_world demo_busy in
  exists cl',
    client_by_key (snd (POST_sms_send_bulk demo_ok_env c w)) "key-acme"
    = Some cl' /\
    APIClient.DailyUsage cl' <= APIClient.DailyLimit cl'.
Proof.
  cbv zeta.
  destruct (bulk_send_keeps_daily_limit demo_ok_env
              (demo_context "key-acme" "s3cret" (inr demo_batch2) None)
              (Set_client demo_busy
                 (demo_context "key-acme" "s3cret" (inr demo_batch2) None))
              demo_batch2 demo_busy "OK" (demo_world demo_busy))
    as (cl' & Hf & _ & _ & _ & _ & _ & Hd & _);
    [reflexivity|reflexivity|reflexivity|reflexivity| | | |
     split; reflexivity|].
  - unfold APIClient.wf, is_int. vm_compute. intuition discriminate.
  - vm_compute. discriminate.
  - unfold is_int. vm_compute. intuition discriminate.
  - exists cl'. split; assumption.
Defined.

Lemma demo_world_is_free :
  forall r, In r (clients (demo_world demo_busy)) ->
    APIClient.ID r <> uuid_New demo_ok_env 2 /\
    APIClient.Email r <> create_Email demo_create /\
    APIClient.APIKey r <> uuid_New demo_ok_env 0.
Proof.
  intros r [<-|[]]. repeat split; vm_compute; discriminate.
Defined.

Lemma CreateClient_stores_hashed_client_witness :
  let c := demo_admin "Basic b64:admin:admin" (inr demo_create) in
  let w := demo_world demo_busy in
  exists cred row,
    clients (snd (CreateClient demo_ok_env demo_platform c w))
    = [demo_busy; row] /\
    APIClient.APIKey row = cred_api_key cred /\
    APIClient.DailyLimit row = 500 /\
    APIClient.MonthlyLimit row = 300000.
Proof.
  cbv zeta.
  destruct (CreateClient_stores_hashed_client demo_ok_env demo_platform
              (demo_admin "Basic b64:admin:admin" (inr demo_create))
              demo_create "$2a$log-i" (demo_world demo_busy))
    as (cred & row & _ & Hc & _ & _ & _ & _ & Hk & _ & _ & _ & _ & _ & _ &
        _ & _ & _ & _ & Hd & Hm & _);
    [reflexivity|reflexivity|reflexivity|vm_compute; discriminate|
     exact demo_world_is_free|].
  exists cred, row. repeat split; assumption.
Defined.

Lemma created_client_can_authenticate_witness :
  let c := demo_admin "Basic b64:admin:admin" (inr demo_create) in
  let w' := snd (CreateClient demo_ok_env demo_platform c
                   (demo_world demo_busy)) in
  let c' : Context unit := demo_context "log-" "log-i" (inr tt) None in
  exists row,
    APIKeyAuth demo_ok_env c' w' = (Next (Set_client row c'), w') /\
    APIClient.Email row = "ops@beta.test".
Proof.
  cbv zeta.
  destruct (created_client_can_authenticate demo_ok_env demo_platform
              (demo_admin "Basic b64:admin:admin" (inr demo_create))
              demo_create "$2a$log-i" (demo_world demo_busy)
              (demo_context "log-" "log-i" (inr tt) None : Context unit))
    as (_ & Hnext & _);
    [reflexivity|reflexivity|reflexivity|vm_compute; discriminate|
     exact demo_world_is_free|reflexivity|reflexivity|reflexivity|
     vm_compute; discriminate|vm_compute; discriminate|].
  eexists. split; [apply Hnext; vm_compute; discriminate|reflexivity].
Defined.

Lemma UpdateClient_frame_witness :
  let c := demo_admin "Basic b64:admin:admin" (inr demo_deactivate) in
  let w := demo_world demo_busy in
  exists cl',
    client_by_id (snd (UpdateClient demo_ok_env c w)) "c-1" = Some cl' /\
    APIClient.IsActive cl' = false /\
    APIClient.DailyLimit cl' = 20 /\
    APIClient.MonthlyLimit cl' = 100 /\
    APIClient.APISecret cl' = APIClient.APISecret demo_busy /\
    APIClient.DailyUsage cl' = 8.
Proof.
  cbv zeta.
  destruct (UpdateClient_frame demo_ok_env
              (demo_admin "Basic b64:admin:admin" (inr demo_deactivate))
              demo_deactivate (demo_world demo_busy) eq_refl)
    as (_ & Hfound).
  destruct (Hfound demo_busy eq_refl)
    as (cl' & _ & Hf & _ & _ & _ & _ & Ha & _ & Hd & Hm & _ & _ & _ & Hs &
        Hu & _).
  exists cl'. repeat split; assumption.
Defined.

Lemma deactivated_client_is_refused_witness :
  let c := demo_admin "Basic b64:admin:admin" (inr demo_deactivate) in
  let c' : Context unit := demo_context "key-acme" "s3cret" (inr tt) None in
  let w := demo_world demo_busy in
  (exists c'', APIKeyAuth demo_ok_env c' w = (Next c'', w)) /\
  status_code_of_chain
    (fst (APIKeyAuth demo_ok_env c' (snd (UpdateClient demo_ok_env c w))))
  = Some StatusForbidden.
Proof.
  cbv zeta. split; [eexists; reflexivity|].
  rewrite (deactivated_client_is_refused demo_ok_env
             (demo_admin "Basic b64:admin:admin" (inr demo_deactivate))
             demo_deactivate demo_busy
             (demo_context "key-acme" "s3cret" (inr tt) None : Context unit)
             (demo_world demo_busy));
    try reflexivity; vm_compute; discriminate.
Defined.

Lemma reset_unblocks_client_witness :
  let c : Context unit := demo_context "" "" (inr tt) None in
  let c' : Context unit := demo_context "key-acme" "s3cret" (inr tt) None in
  let w := demo_world demo_exhausted in
  status_code_of_chain (fst (APIKeyAuth demo_ok_env c' w))
  = Some StatusTooManyRequests /\
  exists cl',
    fst (APIKeyAuth demo_ok_env c' (snd (ResetClientUsage demo_ok_env c w)))
    = Next (Set_client cl' c').
Proof.
  cbv zeta. split; [reflexivity|].
  destruct (reset_unblocks_client demo_ok_env
              (demo_context "" "" (inr tt) None) demo_exhausted
              (demo_context "key-acme" "s3cret" (inr tt) None : Context unit)
              (demo_world demo_exhausted))
    as (cl' & Hrun & _);
    try reflexivity; try (vm_compute; discriminate).
  exists cl'. now rewrite Hrun.
Defined.

Lemma monthly_reset_after_daily_reset_witness :
  let stale := demo_client 8 99 10 100 in
  let w := demo_world stale in
  map APIClient.DailyUsage
      (clients (snd (ResetDailyUsage demo_ok_env demo_platform w))) = [0] /\
  map APIClient.MonthlyUsage
      (clients (snd (ResetMonthlyUsage demo_ok_env demo_platform
                       (snd (ResetDailyUsage demo_ok_env demo_platform w)))))
  = [99].
Proof.
  cbv zeta. split; [reflexivity|].
  destruct (monthly_reset_after_daily_reset demo_ok_env demo_ok_env
              demo_platform (demo_world (demo_client 8 99 10 100)))
    as (_ & Hm); [vm_compute; discriminate|vm_compute; discriminate|].
  rewrite Hm. reflexivity.
Defined.
